(** * Industrial IoT monitoring pipeline: a shallow embedding

    The development follows the Python sources of the repository:
    - [ingest/esp32_simulator.py]  (module [ESP32Simulator])
    - [ingest/data_collector.py]   (module [DataCollector])
    - [db/connection.py], [db/sqlite_connection.py] (module [DB])
    - [ml/model_trainer.py], [ml/predictor.py]      (module [ML])

    Python floats are binary64 numbers; they are represented here by the
    rational they denote (module [Float]), and the float operations of
    the sources are written with their rounding.  The two pandas means
    are kept exact, and the numeric library functions whose value plays
    no role (sine, the estimators, the metrics) are section variables.
    Statements that read the clock, draw random numbers, print or touch
    the database run in the state-and-exception monad [Py]. *)

From Stdlib Require Import Reals.
From Stdlib Require Import ZArith QArith Qround Qpower Qabs Lia Lqa.
From Stdlib Require Import Ascii String Sorted Permutation.
From stdpp Require Import base option list strings pretty gmap.

(** ** Binary64 arithmetic on rationals *)

Module Float.
Local Open Scope Q_scope.

(** [pow2 e] is [2^e] for any integer exponent. *)
Definition pow2 (e : Z) : Q := (2 # 1) ^ e.

(** [ilog2 q] is [floor (log2 q)] for a positive rational [q]: the
    difference of the bit lengths of numerator and denominator is off by
    at most one, which one comparison settles. *)
Definition ilog2 (q : Q) : Z :=
  let l := (Z.log2 (Qnum q) - Z.log2 (Zpos (Qden q)))%Z in
  if Qle_bool (pow2 l) q then l else (l - 1)%Z.

(** Round to the nearest integer, ties to even. *)
Definition rne (q : Q) : Z :=
  let f := Qfloor q in
  match Qcompare (q - inject_Z f) (1 # 2) with
  | Lt => f
  | Gt => (f + 1)%Z
  | Eq => if Z.even f then f else (f + 1)%Z
  end.

(** Round a positive rational to binary64, nearest-even: 53 significant
    bits, exponent at least -1022 (below it the spacing stays [2^-1074],
    the subnormal range).  Overflow to infinity (magnitude [2^1024] and
    more) is not represented. *)
Definition RNpos (q : Q) : Q :=
  let k := (52 - Z.max (ilog2 q) (-1022))%Z in
  inject_Z (rne (q * pow2 k)) * pow2 (- k).

Definition RN (q : Q) : Q :=
  match Qcompare q 0 with
  | Eq => 0
  | Gt => RNpos q
  | Lt => - RNpos (- q)
  end.

(** The float operators [+], [-], [*], [/]: the exact result, rounded. *)
Definition fadd (x y : Q) : Q := RN (x + y).
Definition fsub (x y : Q) : Q := RN (x - y).
Definition fmul (x y : Q) : Q := RN (x * y).
Definition fdiv (x y : Q) : Q := RN (x / y).

(** Correctly rounded square root of a non-negative float (IEEE 754
    [sqrt]): with [e = floor (log2 (sqrt q))] the result is the multiple
    of [2^(e-52)] nearest to the real root.  [M] is the floor of twice the
    scaled root; the root of a binary64 number is never half-way between
    two binary64 numbers, so rounding [M / 2] half-up is rounding to
    nearest. *)
Definition fsqrt (q : Q) : Q :=
  if Qle_bool q 0 then 0 else
  let k := (52 - (ilog2 q) / 2)%Z in
  let M := Z.sqrt (Qfloor (q * pow2 (2 * k + 2))) in
  inject_Z ((M + 1) / 2) * pow2 (- k).

(** [np.sqrt] applied to a Python [int]: the integer is converted to
    binary64 (rounded when it has more than 53 bits), then rooted. *)
Definition np_sqrt (s : Z) : Q := fsqrt (RN (inject_Z s)).

(** Strict comparison of floats, [x < y]. *)
Definition Qltb (x y : Q) : bool := negb (Qle_bool y x).

(** Python's [round(x, 2)] on a float: the exact value is rounded to two
    decimals, ties to even, and the decimal is converted back to the
    nearest binary64 number. *)
Definition py_round2 (x : Q) : Q := RN (inject_Z (rne (x * 100)) / 100).

(** Python's [int(x)] on a float truncates towards zero. *)
Definition py_int (x : Q) : Z := if Qle_bool 0 x then Qfloor x else Qceiling x.

(** Python's two-argument [min] and [max] return the first argument
    unless the second is strictly smaller (resp. larger). *)
Definition py_min (a b : Q) : Q := if Qltb b a then b else a.
Definition py_max (a b : Q) : Q := if Qltb a b then b else a.

(** Decoding of a binary64 bit pattern (sign, 11 exponent bits, 52
    fraction bits); the patterns for infinities and NaN decode to 0. *)
Definition double_of_bits (w : Z) : Q :=
  let w := (w mod 2 ^ 64)%Z in
  let sign := if (w / 2 ^ 63 =? 1)%Z then (-1)%Z else 1%Z in
  let E := ((w / 2 ^ 52) mod 2 ^ 11)%Z in
  let F := (w mod 2 ^ 52)%Z in
  if (E =? 2047)%Z then 0
  else if (E =? 0)%Z then inject_Z (sign * F) * pow2 (-1074)
  else inject_Z (sign * (2 ^ 52 + F)) * pow2 (E - 1075).

End Float.

(** ** The relational schema

    The tables of [SQLiteConnection.create_tables].  Timestamps are
    seconds since the epoch.  The [created_at]/[updated_at] columns,
    which no modelled operation reads, are left out. *)

Module Schema.

Record asset_row := mk_asset {
  asset_id : string; asset_name : string; asset_location : string }.

Record sensor_row := mk_sensor {
  sensor_id : string; sensor_asset : string; sensor_name : string;
  sensor_type : string; sensor_unit : string;
  sensor_min : Q; sensor_max : Q }.

Record reading_row := mk_reading {
  reading_id : string; reading_sensor : string;
  reading_ts : Z; reading_value : Q }.

Record alert_row := mk_alert {
  alert_id : string; alert_sensor : string; alert_type : string;
  alert_threshold : Q; alert_actual : Q; alert_message : string;
  alert_severity : string }.

Record prediction_row := mk_prediction {
  prediction_id : string; prediction_sensor : string;
  predicted_value : Q; confidence : Q; model_version : string }.

Record db := mk_db {
  asset : list asset_row;
  sensor : list sensor_row;
  reading : list reading_row;
  alert : list alert_row;
  prediction : list prediction_row }.

Definition empty_db : db := mk_db [] [] [] [] [].

End Schema.

(** ** The Python runtime: exceptions, clock, randomness, output, connection *)

Module Py.
Import Schema.

Inductive exn :=
| ValueError (msg : string)
| KeyError (key : string)
| IndexError
| AttributeError (attr : string)
| IntegrityError (msg : string)
| OperationalError (msg : string).

(** [str(e)] *)
Definition exn_str (e : exn) : string :=
  match e with
  | ValueError m | IntegrityError m | OperationalError m => m
  | KeyError k => "'" +:+ k +:+ "'"
  | IndexError => "list index out of range"
  | AttributeError a => "object has no attribute '" +:+ a +:+ "'"
  end.

Inductive result (A : Type) :=
| Ok (a : A)
| Raise (e : exn).
Arguments Ok {A} a.
Arguments Raise {A} e.

(** What a run can observe and change: the wall clock (one value per
    reading of it), the random generator (one raw word per draw), the
    console, and the database connection with its open transaction:
    [working] is what statements on the connection see, [committed] what
    is durable. *)
Record world := mk_world {
  clock : nat -> Z;
  ticks : nat;
  entropy : nat -> Z;
  drawn : nat;
  stdout : list string;
  committed : db;
  working : db }.

Definition Py (A : Type) : Type := world -> result A * world.

#[global] Instance Py_ret : MRet Py := fun A a w => (Ok a, w).

#[global] Instance Py_bind : MBind Py := fun A B f m w =>
  match m w with
  | (Ok a, w') => f a w'
  | (Raise e, w') => (Raise e, w')
  end.

Definition raise {A} (e : exn) : Py A := fun w => (Raise e, w).

(** [try: body  except Exception as e: handler e] *)
Definition try_except {A} (body : Py A) (handler : exn -> Py A) : Py A := fun w =>
  match body w with
  | (Ok a, w') => (Ok a, w')
  | (Raise e, w') => handler e w'
  end.

Definition after_print (line : string) (w : world) : world :=
  mk_world (clock w) (ticks w) (entropy w) (drawn w)
    (stdout w ++ [line]) (committed w) (working w).

Definition print (line : string) : Py unit := fun w => (Ok tt, after_print line w).

(** Seconds since the epoch at this reading of the clock. *)
Definition now : Py Z := fun w =>
  (Ok (clock w (ticks w)),
   mk_world (clock w) (S (ticks w)) (entropy w) (drawn w)
     (stdout w) (committed w) (working w)).

(** [int(time.time())] *)
Definition time_time : Py Z := now.

(** [datetime.now().hour] and [series.dt.hour], the local time zone
    being UTC. *)
Definition hour_of (t : Z) : Z := ((t / 3600) mod 24)%Z.
Definition datetime_now_hour : Py Z := t ← now; mret (hour_of t).

(** One raw word from the generator. *)
Definition draw : Py Z := fun w =>
  (Ok (entropy w (drawn w)),
   mk_world (clock w) (ticks w) (entropy w) (S (drawn w))
     (stdout w) (committed w) (working w)).

(** [random.random()]: 53 random bits scaled into [[0, 1)]. *)
Definition random_random : Py Q :=
  r ← draw; mret (inject_Z (r mod 2 ^ 53) / inject_Z (2 ^ 53))%Q.

(** [random.randint(a, b)]: an integer of [[a, b]]. *)
Definition random_randint (a b : Z) : Py Z :=
  r ← draw; mret (a + r mod (b - a + 1))%Z.

(** [random.gauss(mu, sigma)] returns [mu + z * sigma] for a normal
    deviate [z], here whatever binary64 number the raw word encodes. *)
Definition random_gauss (mu sigma : Q) : Py Q :=
  r ← draw; mret (Float.fadd mu (Float.fmul (Float.double_of_bits r) sigma)).

(** [connection.commit()] and [connection.rollback()] *)
Definition after_commit (w : world) : world :=
  mk_world (clock w) (ticks w) (entropy w) (drawn w)
    (stdout w) (working w) (working w).

Definition after_rollback (w : world) : world :=
  mk_world (clock w) (ticks w) (entropy w) (drawn w)
    (stdout w) (committed w) (committed w).

Definition commit : Py unit := fun w => (Ok tt, after_commit w).
Definition rollback : Py unit := fun w => (Ok tt, after_rollback w).

Definition set_working (d : db) (w : world) : world :=
  mk_world (clock w) (ticks w) (entropy w) (drawn w) (stdout w) (committed w) d.

(** [str(uuid.uuid4())]: 128 random bits with the version and variant
    fields forced, printed as 8-4-4-4-12 hexadecimal digits. *)
Definition hex_digit (n : Z) : ascii :=
  nth (Z.to_nat n) (list_ascii_of_string "0123456789abcdef") "0"%char.

Fixpoint hex_digits (k : nat) (n : Z) : string :=
  match k with
  | O => EmptyString
  | S k' => String (hex_digit ((n / 16 ^ Z.of_nat k') mod 16)) (hex_digits k' n)
  end.

Definition uuid_str (n : Z) : string :=
  let h := hex_digits 32 n in
  substring 0 8 h +:+ "-" +:+ substring 8 4 h +:+ "-" +:+ substring 12 4 h
  +:+ "-" +:+ substring 16 4 h +:+ "-" +:+ substring 20 12 h.

Definition uuid4_int (r : Z) : Z :=
  let n := (r mod 2 ^ 128)%Z in
  let n := Z.land n (Z.lnot (Z.shiftl 0xc000 48)) in
  let n := Z.lor n (Z.shiftl 0x8000 48) in
  let n := Z.land n (Z.lnot (Z.shiftl 0xf000 64)) in
  Z.lor n (Z.shiftl 4 76).

Definition uuid4 : Py string := r ← draw; mret (uuid_str (uuid4_int r)).

(** The identifier the next call of [uuid4] returns, and the world after it. *)
Definition next_uuid (w : world) : string :=
  uuid_str (uuid4_int (entropy w (drawn w))).

Definition after_draw (w : world) : world :=
  mk_world (clock w) (ticks w) (entropy w) (S (drawn w))
    (stdout w) (committed w) (working w).

(** [for x in l: body], threading the variables the body assigns. *)
Fixpoint for_each {A S} (body : S -> A -> Py S) (s : S) (l : list A) : Py S :=
  match l with
  | [] => mret s
  | x :: t => s' ← body s x; for_each body s' t
  end.

(** [d[k]] on a dict with string keys. *)
Definition dict_getitem {V} (d : gmap string V) (k : string) : Py V :=
  match d !! k with
  | Some v => mret v
  | None => raise (KeyError k)
  end.

End Py.

(** ** [ingest/esp32_simulator.py] *)

Module ESP32Simulator.
Import Float Py.
Local Open Scope Q_scope.

(** One collected record, the dict built by [collect_data]. *)
Record record := mk_record {
  timestamp : Z;
  temperature : Q;
  humidity : Q;
  luminosity : Q;
  accel_x : Z; accel_y : Z; accel_z : Z;
  gyro_x : Z; gyro_y : Z; gyro_z : Z;
  datetime : string }.

(** The object state set up by [__init__]. *)
Record t := mk_simulator {
  sensors : list (string * list (string * Q));
  running : bool;
  data_buffer : list record }.

Definition init : t :=
  mk_simulator
    [("DHT22", [("temp", 25); ("humidity", 55)]);
     ("MPU6050", [("ax", 0); ("ay", 0); ("az", 1000); ("gx", 0); ("gy", 0); ("gz", 0)]);
     ("LDR", [("light", 50)])]
    false [].

(** The reading of [read_mpu6050]. *)
Record mpu := mk_mpu { ax : Z; ay : Z; az : Z; gx : Z; gy : Z; gz : Z }.

Definition ALERT_TEMPERATURE : string := "⚠️  ALERTA: Temperatura elevada!".
Definition ALERT_HUMIDITY : string := "⚠️  ALERTA: Umidade muito alta!".
Definition ALERT_LUMINOSITY : string := "⚠️  ALERTA: Luminosidade muito baixa!".
Definition ALERT_VIBRATION : string := "⚠️  ALERTA: Vibração excessiva detectada!".

(** [np.pi] *)
Definition np_pi : Q := 884279719003555 # 281474976710656.

(** The float literals [0.05] of [read_mpu6050] and [0.5] of [read_dht22]. *)
Definition lit_0_05 : Q := RN (1 # 20).
Definition lit_0_5 : Q := 1 # 2.

Section Simulator.

(** [np.sin] on floats and [datetime.isoformat] are library functions;
    nothing below depends on what they compute. *)
Variable np_sin : Q -> Q.
Variable isoformat : Z -> string.

Definition read_dht22 : Py (Q * Q) :=
  hour ← datetime_now_hour;
  let phase := fdiv (fmul (fmul 2 np_pi) (inject_Z hour)) 24 in
  let temp_base := fadd 25 (fmul 5 (np_sin phase)) in
  let humidity_base := fsub 55 (fmul 10 (np_sin phase)) in
  g ← random_gauss 0 lit_0_5;
  let temp := fadd temp_base g in
  g ← random_gauss 0 2;
  let humidity := fadd humidity_base g in
  let temp := if Qltb temp (-40) || Qltb 80 temp then 25 else temp in
  let humidity := if Qltb humidity 0 || Qltb 100 humidity then 55 else humidity in
  mret (temp, humidity).

Definition read_mpu6050 : Py mpu :=
  u ← random_random;
  '(ax, ay, az) ←
    (if Qltb u lit_0_05 then
       ax ← random_randint (-500) 500;
       ay ← random_randint (-500) 500;
       az ← random_randint 800 1200;
       mret (ax, ay, az)
     else
       ax ← random_randint (-50) 50;
       ay ← random_randint (-50) 50;
       az ← random_randint 950 1050;
       mret (ax, ay, az));
  gx ← random_randint (-100) 100;
  gy ← random_randint (-100) 100;
  gz ← random_randint (-100) 100;
  mret (mk_mpu ax ay az gx gy gz).

Definition read_ldr : Py Q :=
  hour ← datetime_now_hour;
  light ←
    (if (6 <=? hour)%Z && (hour <=? 18)%Z then
       g ← random_gauss 0 10; mret (fadd 70 g)
     else
       g ← random_gauss 0 5; mret (fadd 10 g));
  mret (py_max 0 (py_min 100 light)).

Definition collect_data (self : t) : Py record :=
  timestamp ← time_time;
  '(temp, humidity) ← read_dht22;
  mpu_data ← read_mpu6050;
  light ← read_ldr;
  utc ← now;
  mret (mk_record timestamp (py_round2 temp) (py_round2 humidity) (py_round2 light)
          (ax mpu_data) (ay mpu_data) (az mpu_data)
          (gx mpu_data) (gy mpu_data) (gz mpu_data)
          (isoformat utc)).

End Simulator.

Definition analyze_data (self : t) (data : record) : list string :=
  let alerts := [] in
  let alerts :=
    if Qltb 35 (temperature data) then alerts ++ [ALERT_TEMPERATURE] else alerts in
  let alerts :=
    if Qltb 80 (humidity data) then alerts ++ [ALERT_HUMIDITY] else alerts in
  let alerts :=
    if Qltb (luminosity data) 10 then alerts ++ [ALERT_LUMINOSITY] else alerts in
  let vibration :=
    np_sqrt (accel_x data ^ 2 + accel_y data ^ 2 + accel_z data ^ 2) in
  let alerts :=
    if Qltb 2000 vibration then alerts ++ [ALERT_VIBRATION] else alerts in
  alerts.

End ESP32Simulator.

(** ** [db/connection.py] and [db/sqlite_connection.py] *)

Module DB.
Import Schema Py.

Inductive table := TAsset | TSensor | TReading | TAlert | TPrediction.

Definition table_name (t : table) : string :=
  match t with
  | TAsset => "asset" | TSensor => "sensor" | TReading => "reading"
  | TAlert => "alert" | TPrediction => "prediction"
  end.

(** The statements the two classes send, with their parameters bound,
    indexed by the type of a result row.  An insert whose [id] is [None]
    leaves the id to the column default; [returning] is the
    [RETURNING id] clause.  [Rejected] stands for any text the server
    refuses. *)
Inductive stmt : Type -> Type :=
| InsertAsset (id : option string) (name location : string) (returning : bool)
  : stmt string
| InsertSensor (id : option string) (asset_id name type unit : string)
    (min_value max_value : Q) (returning : bool) : stmt string
| InsertReading (id : option string) (sensor_id : string) (ts : Z) (value : Q)
    (returning : bool) : stmt string
| InsertPrediction (id : option string) (sensor_id : option string)
    (predicted_value confidence : Q) (model_version : string) : stmt string
| SelectReadings (sensor_id : string) (limit : nat) : stmt (Z * Q)
| SelectReadingsByName (sensor_name : string) (limit : nat) : stmt (Z * Q)
| SelectLatestReadings : stmt (Z * Q * string * string * string)
| SelectSensorId (sensor_name : string) : stmt string
| SelectCount (t : table) : stmt Z
| SelectMaxTs : stmt (option Z)
| SelectMinTs : stmt (option Z)
| Rejected (msg : string) : stmt unit.

(** A query as [execute_query] receives it: the SQL text and what it means. *)
Record query (R : Type) := mk_query { text : string; sem : stmt R }.
Arguments mk_query {R} text sem.
Arguments text {R} q.
Arguments sem {R} q.

(** *** The engine *)

Fixpoint insert_sorted {A} (le : A -> A -> bool) (x : A) (l : list A) : list A :=
  match l with
  | [] => [x]
  | y :: t => if le x y then x :: y :: t else y :: insert_sorted le x t
  end.

(** [ORDER BY]: a stable sort (SQL leaves the order of ties open). *)
Definition order_by {A} (le : A -> A -> bool) (l : list A) : list A :=
  foldr (insert_sorted le) [] l.

Definition ts_desc (a b : reading_row) : bool := (reading_ts b <=? reading_ts a)%Z.

Definition has_id {A} (key : A -> string) (id : string) (rows : list A) : bool :=
  existsb (fun r => String.eqb (key r) id) rows.

(** Modelled from the spec: the PostgreSQL schema file ([db/schema.sql])
    is not among the sources.  Following "a simple
    asset/sensor/reading/alert/prediction schema", the PostgreSQL tables
    are taken to be the ones [SQLiteConnection.create_tables] creates,
    with the [id] column defaulting to a generated identifier, drawn as
    [uuid4] draws.  So the id of a new row is the one supplied, else
    that default. *)
Definition row_id (id : option string) : Py string :=
  match id with
  | Some i => mret i
  | None => uuid4
  end.

Definition get_working : Py db := fun w => (Ok (working w), w).
Definition put_working (d : db) : Py unit := fun w => (Ok tt, set_working d w).

Definition returned (returning : bool) (id : string) : option (list string) :=
  if returning then Some [id] else None.

Definition max_ts (rows : list reading_row) : option Z :=
  foldr (fun r acc => match acc with
                      | None => Some (reading_ts r)
                      | Some m => Some (Z.max (reading_ts r) m)
                      end) None rows.

Definition min_ts (rows : list reading_row) : option Z :=
  foldr (fun r acc => match acc with
                      | None => Some (reading_ts r)
                      | Some m => Some (Z.min (reading_ts r) m)
                      end) None rows.

Definition readings_of (sensor_id : string) (d : db) : list reading_row :=
  filter (fun r => reading_sensor r = sensor_id) (reading d).

(** [reading r JOIN sensor s ON r.sensor_id = s.id WHERE s.name = ?] *)
Definition readings_by_name (sensor_name : string) (d : db) : list reading_row :=
  r ← reading d;
  s ← filter (fun s => sensor_id s = reading_sensor r) (sensor d);
  if decide (Schema.sensor_name s = sensor_name) then [r] else [].

Definition table_size (t : table) (d : db) : nat :=
  match t with
  | TAsset => length (asset d) | TSensor => length (sensor d)
  | TReading => length (reading d) | TAlert => length (alert d)
  | TPrediction => length (prediction d)
  end.

Definition add_asset (r : asset_row) (d : db) : db :=
  mk_db (asset d ++ [r]) (sensor d) (reading d) (alert d) (prediction d).
Definition add_sensor (r : sensor_row) (d : db) : db :=
  mk_db (asset d) (sensor d ++ [r]) (reading d) (alert d) (prediction d).
Definition add_reading (r : reading_row) (d : db) : db :=
  mk_db (asset d) (sensor d) (reading d ++ [r]) (alert d) (prediction d).
Definition add_prediction (r : prediction_row) (d : db) : db :=
  mk_db (asset d) (sensor d) (reading d) (alert d) (prediction d ++ [r]).

(** [cursor.execute]: runs one statement inside the open transaction.
    The answer is [Some rows] when the statement has a result set
    ([cursor.description] is set) and [None] otherwise.  A statement that
    violates the primary key of its table, or that the server rejects,
    raises and changes nothing.  Foreign keys are not checked (the SQLite
    default). *)
Definition cursor_execute {R} (s : stmt R) : Py (option (list R)) :=
  match s in stmt R return Py (option (list R)) with
  | InsertAsset id name location returning =>
      i ← row_id id; d ← get_working;
      if has_id asset_id i (asset d)
      then raise (IntegrityError "UNIQUE constraint failed: asset.id")
      else
        _ ← put_working (add_asset (mk_asset i name location) d);
        mret (returned returning i)
  | InsertSensor id asset_id name type unit min_value max_value returning =>
      i ← row_id id; d ← get_working;
      if has_id sensor_id i (sensor d)
      then raise (IntegrityError "UNIQUE constraint failed: sensor.id")
      else
        _ ← put_working (add_sensor (mk_sensor i asset_id name type unit
                                       min_value max_value) d);
        mret (returned returning i)
  | InsertReading id sensor_id ts value returning =>
      i ← row_id id; d ← get_working;
      if has_id reading_id i (reading d)
      then raise (IntegrityError "UNIQUE constraint failed: reading.id")
      else
        _ ← put_working (add_reading (mk_reading i sensor_id ts value) d);
        mret (returned returning i)
  | InsertPrediction id sensor_id predicted_value confidence model_version =>
      i ← row_id id; d ← get_working;
      match sensor_id with
      | None => raise (IntegrityError "NOT NULL constraint failed: prediction.sensor_id")
      | Some sid =>
          if has_id prediction_id i (prediction d)
          then raise (IntegrityError "UNIQUE constraint failed: prediction.id")
          else
            _ ← put_working (add_prediction (mk_prediction i sid predicted_value
                                               confidence model_version) d);
            mret None
      end
  | SelectReadings sensor_id limit =>
      d ← get_working;
      mret (Some (take limit
                    (map (fun r => (reading_ts r, reading_value r))
                       (order_by ts_desc (readings_of sensor_id d)))))
  | SelectReadingsByName sensor_name limit =>
      d ← get_working;
      mret (Some (take limit
                    (map (fun r => (reading_ts r, reading_value r))
                       (order_by ts_desc (readings_by_name sensor_name d)))))
  | SelectLatestReadings =>
      d ← get_working;
      let joined :=
        r ← reading d;
        if decide (max_ts (readings_of (reading_sensor r) d) = Some (reading_ts r))
        then
          s ← filter (fun s => sensor_id s = reading_sensor r) (sensor d);
          [(r, s)]
        else [] in
      mret (Some (map (fun '(r, s) => (reading_ts r, reading_value r,
                                       Schema.sensor_name s, sensor_type s,
                                       sensor_unit s))
                    (order_by (fun a b => String.leb (Schema.sensor_name (snd a))
                                            (Schema.sensor_name (snd b)))
                       joined)))
  | SelectSensorId sensor_name =>
      d ← get_working;
      mret (Some (map sensor_id
                    (filter (fun s => Schema.sensor_name s = sensor_name) (sensor d))))
  | SelectCount t =>
      d ← get_working; mret (Some [Z.of_nat (table_size t d)])
  | SelectMaxTs =>
      d ← get_working; mret (Some [max_ts (reading d)])
  | SelectMinTs =>
      d ← get_working; mret (Some [min_ts (reading d)])
  | Rejected msg => raise (OperationalError msg)
  end.

(** *** What both classes share *)

(** A [pd.DataFrame] with the columns [ts] and [value]; the empty frame
    is the empty list. *)
Record sample := mk_sample { ts : Z; value : Q }.
Definition frame := list sample.

Definition DataFrame (results : list (Z * Q)) : frame :=
  map (fun '(t, v) => mk_sample t v) results.

(** A row of [get_latest_readings]. *)
Record latest := mk_latest {
  latest_ts : Z; latest_value : Q; latest_sensor_name : string;
  latest_type : string; latest_unit : string }.

(** The argument dicts of [create_asset] and [create_sensor]. *)
Record asset_data := mk_asset_data { name : string; location : string }.
Record sensor_data := mk_sensor_data {
  sd_name : string; sd_type : string; sd_unit : string;
  sd_min_value : Q; sd_max_value : Q }.

(** A value of the dict of [get_database_stats]. *)
Inductive stat :=
| SCount (n : Z)
| STime (t : option Z).

(** [result[0]] *)
Definition first_row {R} (result : list R) : Py R :=
  match result with
  | r :: _ => mret r
  | [] => raise IndexError
  end.

(** [str.strip], [str.upper] and [str.startswith], on ASCII. *)
Definition is_space (c : ascii) : bool :=
  let n := nat_of_ascii c in ((9 <=? n) && (n <=? 13))%nat || (n =? 32)%nat.

Fixpoint lstrip (s : string) : string :=
  match s with
  | String c t => if is_space c then lstrip t else s
  | EmptyString => EmptyString
  end.

Definition py_strip (s : string) : string :=
  String.rev (lstrip (String.rev (lstrip s))).

Definition upper_ascii (c : ascii) : ascii :=
  let n := nat_of_ascii c in
  if ((97 <=? n) && (n <=? 122))%nat then ascii_of_nat (n - 32) else c.

Fixpoint py_upper (s : string) : string :=
  match s with
  | String c t => String (upper_ascii c) (py_upper t)
  | EmptyString => EmptyString
  end.

Definition count_text (t : table) : string :=
  "SELECT COUNT(" +:+ "*) FROM " +:+ table_name t.

(** *** [class DatabaseConnection] (PostgreSQL) *)

Module DatabaseConnection.

Definition methods : list string :=
  ["connect"; "close"; "execute_query"; "create_asset"; "create_sensor";
   "create_reading"; "get_sensor_readings"; "get_all_readings";
   "get_sensor_summary"; "get_anomalies"; "get_latest_readings";
   "cleanup_old_data"; "get_database_stats"].

Definition execute_query {R} (q : query R) : Py (list R) :=
  try_except
    (description ← cursor_execute (sem q);
     match description with
     | Some rows => mret rows
     | None => _ ← commit; mret []
     end)
    (fun e =>
       _ ← print ("Erro ao executar query: " +:+ exn_str e);
       _ ← rollback;
       raise e).

Definition create_asset (asset_data : asset_data) : Py string :=
  let query := mk_query "
        INSERT INTO asset (name, location)
        VALUES (%s, %s)
        RETURNING id
        " (InsertAsset None (name asset_data) (location asset_data) true) in
  result ← execute_query query;
  first_row result.

Definition create_sensor (asset_id : string) (sensor_data : sensor_data) : Py string :=
  let query := mk_query "
        INSERT INTO sensor (asset_id, name, type, unit, min_value, max_value)
        VALUES (%s, %s, %s, %s, %s, %s)
        RETURNING id
        " (InsertSensor None asset_id (sd_name sensor_data) (sd_type sensor_data)
             (sd_unit sensor_data) (sd_min_value sensor_data)
             (sd_max_value sensor_data) true) in
  result ← execute_query query;
  first_row result.

Definition create_reading (sensor_id : string) (timestamp : Z) (value : Q) : Py string :=
  let query := mk_query "
        INSERT INTO reading (sensor_id, ts, value)
        VALUES (%s, %s, %s)
        RETURNING id
        " (InsertReading None sensor_id timestamp value true) in
  result ← execute_query query;
  first_row result.

Definition get_sensor_readings (sensor_id : string) (limit : nat) : Py frame :=
  let query := mk_query "
        SELECT ts, value
        FROM reading
        WHERE sensor_id = %s
        ORDER BY ts DESC
        LIMIT %s
        " (SelectReadings sensor_id limit) in
  results ← execute_query query;
  match results with
  | [] => mret []
  | _ => mret (DataFrame results)
  end.

Definition get_latest_readings : Py (list latest) :=
  let query := mk_query "
        WITH latest_readings AS (
            SELECT sensor_id, MAX(ts) as latest_ts
            FROM reading
            GROUP BY sensor_id
        )
        SELECT r.ts, r.value, s.name as sensor_name, s.type, s.unit
        FROM reading r
        JOIN latest_readings lr ON r.sensor_id = lr.sensor_id AND r.ts = lr.latest_ts
        JOIN sensor s ON r.sensor_id = s.id
        ORDER BY s.name
        " SelectLatestReadings in
  results ← execute_query query;
  match results with
  | [] => mret []
  | _ => mret (map (fun '(t, v, n, ty, u) => mk_latest t v n ty u) results)
  end.

Definition get_database_stats : Py (list (string * stat)) :=
  let stats := [] in
  counts ← mapM (fun table =>
                   result ← execute_query (mk_query (count_text table) (SelectCount table));
                   mret (table_name table +:+ "_count",
                         SCount (match result with r :: _ => r | [] => 0%Z end)))
            [TAsset; TSensor; TReading];
  let stats := stats ++ counts in
  result ← execute_query (mk_query "SELECT MAX(ts) FROM reading" SelectMaxTs);
  let stats := stats ++ [("last_reading",
                          STime (match result with r :: _ => r | [] => None end))] in
  result ← execute_query (mk_query "SELECT MIN(ts) FROM reading" SelectMinTs);
  let stats := stats ++ [("first_reading",
                          STime (match result with r :: _ => r | [] => None end))] in
  mret stats.

End DatabaseConnection.

(** *** [class SQLiteConnection] *)

Module SQLiteConnection.

Definition methods : list string :=
  ["connect"; "close"; "execute_query"; "create_tables"; "_insert_initial_data";
   "create_asset"; "create_sensor"; "create_reading"; "create_alert";
   "create_prediction"; "get_sensor_readings"; "get_sensor_readings_by_name";
   "get_latest_readings"; "get_sensor_id_by_name"; "get_database_stats";
   "get_active_alerts"; "get_recent_predictions"].

(** [cursor.fetchall()]; a statement without result set has no rows. *)
Definition fetchall {R} (description : option (list R)) : list R :=
  match description with
  | Some rows => rows
  | None => []
  end.

Definition execute_query {R} (q : query R) : Py (list R) :=
  try_except
    (description ← cursor_execute (sem q);
     if String.prefix "SELECT" (py_upper (py_strip (text q)))
     then mret (fetchall description)
     else _ ← commit; mret [])
    (fun e =>
       _ ← print ("Erro ao executar query: " +:+ exn_str e);
       _ ← rollback;
       raise e).

Definition create_asset (asset_data : asset_data) : Py string :=
  asset_id ← uuid4;
  let query := mk_query "INSERT INTO asset (id, name, location) VALUES (?, ?, ?)"
                 (InsertAsset (Some asset_id) (name asset_data) (location asset_data)
                    false) in
  _ ← execute_query query;
  mret asset_id.

Definition create_sensor (asset_id : string) (sensor_data : sensor_data) : Py string :=
  sensor_id ← uuid4;
  let query := mk_query "INSERT INTO sensor (id, asset_id, name, type, unit, min_value, max_value) 
                   VALUES (?, ?, ?, ?, ?, ?, ?)"
                 (InsertSensor (Some sensor_id) asset_id (sd_name sensor_data)
                    (sd_type sensor_data) (sd_unit sensor_data)
                    (sd_min_value sensor_data) (sd_max_value sensor_data) false) in
  _ ← execute_query query;
  mret sensor_id.

Definition create_reading (sensor_id : string) (timestamp : Z) (value : Q) : Py string :=
  reading_id ← uuid4;
  let query := mk_query "INSERT INTO reading (id, sensor_id, ts, value) VALUES (?, ?, ?, ?)"
                 (InsertReading (Some reading_id) sensor_id timestamp value false) in
  _ ← execute_query query;
  mret reading_id.

Definition create_prediction (sensor_id : option string) (predicted_value : Q)
    (confidence : Q) (model_version : string) : Py string :=
  prediction_id ← uuid4;
  let query := mk_query "INSERT INTO prediction (id, sensor_id, predicted_value, 
                   confidence, model_version) VALUES (?, ?, ?, ?, ?)"
                 (InsertPrediction (Some prediction_id) sensor_id predicted_value
                    confidence model_version) in
  _ ← execute_query query;
  mret prediction_id.

Definition get_sensor_readings (sensor_id : string) (limit : nat) : Py frame :=
  let query := mk_query "
        SELECT ts, value
        FROM reading
        WHERE sensor_id = ?
        ORDER BY ts DESC
        LIMIT ?
        " (SelectReadings sensor_id limit) in
  results ← execute_query query;
  match results with
  | [] => mret []
  | _ => mret (DataFrame results)
  end.

Definition get_sensor_readings_by_name (sensor_name : string) (limit : nat) : Py frame :=
  let query := mk_query "
        SELECT r.ts, r.value
        FROM reading r
        JOIN sensor s ON r.sensor_id = s.id
        WHERE s.name = ?
        ORDER BY r.ts DESC
        LIMIT ?
        " (SelectReadingsByName sensor_name limit) in
  results ← execute_query query;
  match results with
  | [] => mret []
  | _ => mret (DataFrame results)
  end.

Definition get_latest_readings : Py (list latest) :=
  let query := mk_query "
        WITH latest_readings AS (
            SELECT sensor_id, MAX(ts) as latest_ts
            FROM reading
            GROUP BY sensor_id
        )
        SELECT r.ts, r.value, s.name as sensor_name, s.type, s.unit
        FROM reading r
        JOIN latest_readings lr ON r.sensor_id = lr.sensor_id AND r.ts = lr.latest_ts
        JOIN sensor s ON r.sensor_id = s.id
        ORDER BY s.name
        " SelectLatestReadings in
  results ← execute_query query;
  match results with
  | [] => mret []
  | _ => mret (map (fun '(t, v, n, ty, u) => mk_latest t v n ty u) results)
  end.

Definition get_sensor_id_by_name (sensor_name : string) : Py (option string) :=
  let query := mk_query "SELECT id FROM sensor WHERE name = ?"
                 (SelectSensorId sensor_name) in
  results ← execute_query query;
  mret (match results with r :: _ => Some r | [] => None end).

Definition get_database_stats : Py (list (string * stat)) :=
  let stats := [] in
  counts ← mapM (fun table =>
                   result ← execute_query (mk_query (count_text table) (SelectCount table));
                   mret (table_name table +:+ "_count",
                         SCount (match result with r :: _ => r | [] => 0%Z end)))
            [TAsset; TSensor; TReading; TAlert; TPrediction];
  let stats := stats ++ counts in
  result ← execute_query (mk_query "SELECT MAX(ts) FROM reading" SelectMaxTs);
  let stats := stats ++ [("last_reading",
                          STime (match result with r :: _ => r | [] => None end))] in
  mret stats.

(** The rows of [_insert_initial_data]. *)
Definition initial_sensors : list (string * string * string * Q * Q) :=
  [("S_TEMP", "temperature", "°C", -40, 80);
   ("S_HUMIDITY", "humidity", "%", 0, 100);
   ("S_LIGHT", "luminosity", "%", 0, 100);
   ("S_VIBRATION", "vibration", "mg", 0, 5000)]%Q.

Definition _insert_initial_data : Py unit :=
  result ← execute_query (mk_query (count_text TAsset) (SelectCount TAsset));
  count ← first_row result;
  if (0 <? count)%Z then mret tt
  else
    asset_id ← uuid4;
    _ ← execute_query
          (mk_query "INSERT INTO asset (id, name, location) VALUES (?, ?, ?)"
             (InsertAsset (Some asset_id) "Linha de Produção Principal"
                "Setor A - Fábrica" false));
    for_each (fun _ '(name, sensor_type, unit, min_val, max_val) =>
        sensor_id ← uuid4;
        _ ← execute_query
              (mk_query "INSERT INTO sensor (id, asset_id, name, type, unit, min_value, max_value) 
                   VALUES (?, ?, ?, ?, ?, ?, ?)"
                 (InsertSensor (Some sensor_id) asset_id name sensor_type unit
                    min_val max_val false));
        mret tt)
      tt initial_sensors.

End SQLiteConnection.

(** *** Calls on a connection object of either class

    The other modules hold a connection in [self.db] and call methods on
    it; a method the object's class does not define raises
    [AttributeError]. *)

Inductive connection_class := PostgreSQL | SQLite.

Definition create_reading (c : connection_class)
  : string -> Z -> Q -> Py string :=
  match c with
  | PostgreSQL => DatabaseConnection.create_reading
  | SQLite => SQLiteConnection.create_reading
  end.

Definition get_sensor_readings_by_name (c : connection_class)
    (sensor_name : string) (limit : nat) : Py frame :=
  match c with
  | PostgreSQL => raise (AttributeError "get_sensor_readings_by_name")
  | SQLite => SQLiteConnection.get_sensor_readings_by_name sensor_name limit
  end.

Definition get_sensor_id_by_name (c : connection_class) (sensor_name : string)
  : Py (option string) :=
  match c with
  | PostgreSQL => raise (AttributeError "get_sensor_id_by_name")
  | SQLite => SQLiteConnection.get_sensor_id_by_name sensor_name
  end.

Definition create_prediction (c : connection_class) (sensor_id : option string)
    (predicted_value confidence : Q) (model_version : string) : Py string :=
  match c with
  | PostgreSQL => raise (AttributeError "create_prediction")
  | SQLite =>
      SQLiteConnection.create_prediction sensor_id predicted_value confidence
        model_version
  end.

Definition create_asset (c : connection_class) : asset_data -> Py string :=
  match c with
  | PostgreSQL => DatabaseConnection.create_asset
  | SQLite => SQLiteConnection.create_asset
  end.

Definition create_sensor (c : connection_class) : string -> sensor_data -> Py string :=
  match c with
  | PostgreSQL => DatabaseConnection.create_sensor
  | SQLite => SQLiteConnection.create_sensor
  end.

Definition get_sensor_readings (c : connection_class) : string -> nat -> Py frame :=
  match c with
  | PostgreSQL => DatabaseConnection.get_sensor_readings
  | SQLite => SQLiteConnection.get_sensor_readings
  end.

End DB.

(** ** [ingest/data_collector.py] *)

Module DataCollector.
Import Py DB.

(** The object state: the connection (always of the PostgreSQL class),
    the asset id and the name-to-id dict filled by
    [setup_assets_and_sensors]. *)
Record t := mk_collector {
  db : connection_class;
  asset_id : option string;
  sensor_ids : gmap string string }.

(** One processed reading, the dict appended to [processed_data]. *)
Record reading := mk_reading { sensor_id : string; ts : Z; value : Q }.

Section Collector.

(** [datetime.fromisoformat], [None] where it raises [ValueError], and
    the float power [x ** 0.5] on an [int] are library functions. *)
Variable fromisoformat : string -> option Z.
Variable pow_half : Z -> Q.

Definition datetime_fromisoformat (s : string) : Py Z :=
  match fromisoformat s with
  | Some t => mret t
  | None => raise (ValueError ("Invalid isoformat string: '" +:+ s +:+ "'"))
  end.

Definition process_esp32_data (self : t) (esp32_data : list ESP32Simulator.record)
  : Py (list reading) :=
  let processed_data := [] in
  for_each (fun processed_data record =>
      timestamp ← datetime_fromisoformat (ESP32Simulator.datetime record);
      sid ← dict_getitem (sensor_ids self) "S_TEMP";
      let processed_data :=
        processed_data ++ [mk_reading sid timestamp (ESP32Simulator.temperature record)] in
      sid ← dict_getitem (sensor_ids self) "S_HUMIDITY";
      let processed_data :=
        processed_data ++ [mk_reading sid timestamp (ESP32Simulator.humidity record)] in
      sid ← dict_getitem (sensor_ids self) "S_LIGHT";
      let processed_data :=
        processed_data ++ [mk_reading sid timestamp (ESP32Simulator.luminosity record)] in
      let vibration :=
        pow_half (ESP32Simulator.accel_x record ^ 2 + ESP32Simulator.accel_y record ^ 2
                  + ESP32Simulator.accel_z record ^ 2) in
      sid ← dict_getitem (sensor_ids self) "S_VIBRATION";
      let processed_data := processed_data ++ [mk_reading sid timestamp vibration] in
      mret processed_data)
    processed_data esp32_data.

Definition load_data_to_database (self : t) (processed_data : list reading) : Py unit :=
  _ ← print ("Carregando " +:+ pretty (length processed_data) +:+ " registros no banco...");
  _ ← for_each (fun _ record =>
         _ ← create_reading (db self) (sensor_id record) (ts record) (value record);
         mret tt)
       tt processed_data;
  print "Dados carregados com sucesso!".

End Collector.

(** The [sensors_config] list of [setup_assets_and_sensors]. *)
Definition sensors_config : list sensor_data :=
  [mk_sensor_data "S_TEMP" "temperature" "°C" (-40) 80;
   mk_sensor_data "S_HUMIDITY" "humidity" "%" 0 100;
   mk_sensor_data "S_LIGHT" "luminosity" "%" 0 100;
   mk_sensor_data "S_VIBRATION" "vibration" "mg" 0 5000]%Q.

(** The method assigns [self.asset_id] and [self.sensor_ids]; it returns
    the object as it is after the last statement. *)
Definition setup_assets_and_sensors (self : t) : Py t :=
  let asset_data := mk_asset_data "Linha de Produção Principal" "Setor A - Fábrica" in
  asset_id ← create_asset (db self) asset_data;
  let self := mk_collector (db self) (Some asset_id) (sensor_ids self) in
  _ ← print ("Asset criado: " +:+ asset_id);
  for_each (fun self sensor_config =>
      sensor_id ← create_sensor (db self) asset_id sensor_config;
      let self :=
        mk_collector (db self) (DataCollector.asset_id self)
          (<[sd_name sensor_config := sensor_id]> (sensor_ids self)) in
      _ ← print ("Sensor " +:+ sd_name sensor_config +:+ " criado: " +:+ sensor_id);
      mret self)
    self sensors_config.

Definition get_sensor_data (self : t) (sensor_name : string) (limit : nat) : Py frame :=
  match sensor_ids self !! sensor_name with
  | Some (String c rest as sensor_id) => get_sensor_readings (db self) sensor_id limit
  | Some EmptyString | None =>
      raise (ValueError ("Sensor " +:+ sensor_name +:+ " não encontrado"))
  end.

End DataCollector.

(** ** [ml/model_trainer.py] and [ml/predictor.py] *)

Module ML.
Import Float Py DB.
Local Open Scope Q_scope.

(** *** The pandas operations used on a frame of readings *)

(** [df.sort_values('ts').reset_index(drop=True)]: ascending by
    timestamp (rows with equal timestamps keep their order here; pandas
    leaves it open). *)
Definition sort_values (df : frame) : frame :=
  order_by (fun a b => (ts a <=? ts b)%Z) df.

(** [series.shift(k)]: every value moves down [k] rows, the first [k]
    rows become NaN ([None]) and the length is kept. *)
Definition shift (k : nat) (l : list Q) : list (option Q) :=
  take (length l) (replicate k None ++ map Some l).

(** [series.rolling(3).mean()]: NaN on the first two rows, then the mean
    of the row and the two rows before it.  The mean is the exact one;
    the rounding of the library's running sum is not represented. *)
Fixpoint rolling3_from (a b : Q) (l : list Q) : list (option Q) :=
  match l with
  | [] => []
  | c :: t => Some ((a + b + c) / 3) :: rolling3_from b c t
  end.

Definition rolling3_mean (l : list Q) : list (option Q) :=
  match l with
  | a :: b :: t => None :: None :: rolling3_from a b t
  | _ => map (fun _ => None) l
  end.

(** [series.mean()], exact as above. *)
Definition series_mean (l : list Q) : Q :=
  foldr Qplus 0 l / inject_Z (Z.of_nat (length l)).

(** A row of the frame once the feature columns are added. *)
Record row := mk_row {
  row_ts : Z; row_value : Q;
  lag1 : option Q; lag2 : option Q; roll3 : option Q; hour : Z }.

Fixpoint columns (df : frame) (l1 l2 r3 : list (option Q)) : list row :=
  match df, l1, l2, r3 with
  | s :: df, a :: l1, b :: l2, c :: r3 =>
      mk_row (ts s) (value s) a b c (hour_of (ts s)) :: columns df l1 l2 r3
  | _, _, _, _ => []
  end.

(** The four assignments [df['lag1'] = ...] to [df['hour'] = ...]. *)
Definition add_features (df : frame) : list row :=
  let values := map value df in
  columns df (shift 1 values) (shift 2 values) (rolling3_mean values).

(** A row without NaN. *)
Record full_row := mk_full {
  f_ts : Z; f_value : Q; f_lag1 : Q; f_lag2 : Q; f_roll3 : Q; f_hour : Z }.

(** [df.dropna()]: the rows without NaN, in order. *)
Definition dropna (df : list row) : list full_row :=
  r ← df;
  match lag1 r, lag2 r, roll3 r with
  | Some a, Some b, Some c => [mk_full (row_ts r) (row_value r) a b c (hour r)]
  | _, _, _ => []
  end.

(** [row[name]] for a numeric column; [ts] is not one. *)
Definition column (r : full_row) (name : string) : option Q :=
  if decide (name = "value") then Some (f_value r)
  else if decide (name = "lag1") then Some (f_lag1 r)
  else if decide (name = "lag2") then Some (f_lag2 r)
  else if decide (name = "roll3") then Some (f_roll3 r)
  else if decide (name = "hour") then Some (inject_Z (f_hour r))
  else None.

(** [df[names]]: the named columns of every row, [KeyError] on a name
    that is not a column. *)
Definition select (names : list string) (df : list full_row) : Py (list (list Q)) :=
  if forallb (fun name => bool_decide (name ∈ ["value"; "lag1"; "lag2"; "roll3"; "hour"]))
       names
  then mret (map (fun r => omap (column r) names) df)
  else raise (KeyError "not in index").

(** Python slices [l[:i]] and [l[i:]]; a negative index counts from the end. *)
Definition slice_to {A} (i : Z) (l : list A) : list A :=
  if (0 <=? i)%Z then take (Z.to_nat i) l
  else take (length l - Z.to_nat (- i)) l.

Definition slice_from {A} (i : Z) (l : list A) : list A :=
  if (0 <=? i)%Z then drop (Z.to_nat i) l
  else drop (length l - Z.to_nat (- i)) l.

(** [df.tail(k)] *)
Definition tail {A} (k : nat) (l : list A) : list A := drop (length l - k) l.

(** The float literals. *)
Definition lit_0_2 : Q := RN (1 # 5).
Definition lit_0_8 : Q := RN (4 # 5).
Definition lit_0_1 : Q := RN (1 # 10).
Definition lit_0_95 : Q := RN (19 # 20).

(** A numpy float that may be infinite or NaN. *)
Inductive npfloat :=
| Finite (q : Q)
| PosInf
| NegInf
| NaN.

(** [max(0.1, min(0.95, 1.0 - x))] for a numpy float [x]: [min] keeps
    0.95 unless the second argument is smaller, [max] keeps 0.1 unless
    the second argument is larger, and every comparison with NaN is
    false. *)
Definition confidence_of (x : npfloat) : Q :=
  let y := match x with
           | Finite q => Finite (fsub 1 q)
           | PosInf => NegInf
           | NegInf => PosInf
           | NaN => NaN
           end in
  let m := match y with
           | Finite q => if Qltb q lit_0_95 then Finite q else Finite lit_0_95
           | NegInf => NegInf
           | PosInf | NaN => Finite lit_0_95
           end in
  match m with
  | Finite q => if Qltb lit_0_1 q then q else lit_0_1
  | PosInf | NegInf | NaN => lit_0_1
  end.

(** Python's [sub in s] on strings. *)
Fixpoint contains (sub s : string) : bool :=
  String.prefix sub s ||
  match s with
  | EmptyString => false
  | String _ t => contains sub t
  end.

Section Learner.

(** scikit-learn, and the few library functions whose value the
    development does not look into: a fitted model type, the two
    estimators' [fit], [predict] on one row, the metrics, [coef_] and
    [feature_importances_], the ratio [std() / mean()] of a series, and
    [isoformat]. *)
Variable model : Type.
Variable fit_linear : list (list Q) -> list Q -> model.
Variable fit_forest : list (list Q) -> list Q -> model.
Variable predict_row : model -> list Q -> Q.
Variable mean_absolute_error : list Q -> list Q -> Q.
Variable r2_score : list Q -> list Q -> Q.
Variable mean_squared_error : list Q -> list Q -> Q.
Variable importances : model -> list Q.
Variable std_over_mean : list Q -> npfloat.
Variable isoformat : Z -> string.

(** [model.predict(X)] *)
Definition predict (m : model) (X : list (list Q)) : list Q := map (predict_row m) X.

(** scikit-learn refuses an empty array. *)
Definition check_array {A} (X : list A) : Py unit :=
  match X with
  | [] => raise (ValueError "Found array with 0 sample(s) while a minimum of 1 is required.")
  | _ => mret tt
  end.

(** The [self.models] dict: keys in insertion order. *)
Definition models_dict := list (string * model).

Definition dict_in (k : string) (d : models_dict) : bool :=
  existsb (fun kv => String.eqb (fst kv) k) d.

Fixpoint dict_get (k : string) (d : models_dict) : option model :=
  match d with
  | [] => None
  | (k', v) :: t => if String.eqb k' k then Some v else dict_get k t
  end.

Fixpoint dict_set (k : string) (v : model) (d : models_dict) : models_dict :=
  match d with
  | [] => [(k, v)]
  | (k', v') :: t => if String.eqb k' k then (k, v) :: t else (k', v') :: dict_set k v t
  end.

(** *** [class MLModelTrainer] *)

Record trainer := mk_trainer {
  trainer_db : connection_class;
  trainer_models : models_dict;
  trainer_feature_columns : list string }.

Definition trainer_init (db_connection : connection_class) : trainer :=
  mk_trainer db_connection [] ["lag1"; "lag2"; "roll3"; "hour"].

Definition prepare_training_data (self : trainer) (sensor_name : string) (limit : nat)
  : Py (list (list Q) * list Q) :=
  sensor_data ← get_sensor_readings_by_name (trainer_db self) sensor_name limit;
  match sensor_data with
  | [] => raise (ValueError ("Nenhum dado encontrado para o sensor " +:+ sensor_name))
  | _ =>
      let sensor_data := sort_values sensor_data in
      let df := add_features sensor_data in
      let df := dropna df in
      if (length df <? 10)%nat
      then raise (ValueError ("Dados insuficientes para treinamento: "
                              +:+ pretty (length df) +:+ " registros"))
      else
        X ← select (trainer_feature_columns self) df;
        let y := map f_value df in
        mret (X, y)
  end.

(** The dict returned by the two training methods. *)
Record training_results := mk_results {
  model_type : string;
  res_sensor_name : string;
  mae : Q; r2 : Q; rmse : Q;
  train_samples : nat; test_samples : nat;
  model_path : string;
  feature_importance : list (string * Q) }.

(** Writing the fitted model to [model_path] ([os.makedirs],
    [joblib.dump]) touches the file system only and is left out. *)
Definition train_linear_model (self : trainer) (sensor_name : string) (test_size : Q)
  : Py (training_results * trainer) :=
  _ ← print ("Treinando modelo linear para " +:+ sensor_name +:+ "...");
  '(X, y) ← prepare_training_data self sensor_name 1000;
  let split_idx := py_int (fmul (inject_Z (Z.of_nat (length X))) (fsub 1 test_size)) in
  let X_train := slice_to split_idx X in
  let X_test := slice_from split_idx X in
  let y_train := slice_to split_idx y in
  let y_test := slice_from split_idx y in
  _ ← check_array X_train;
  let model := fit_linear X_train y_train in
  _ ← check_array X_test;
  let y_pred := predict model X_test in
  let mae := mean_absolute_error y_test y_pred in
  let r2 := r2_score y_test y_pred in
  let rmse := fsqrt (mean_squared_error y_test y_pred) in
  let model_path := "models/" +:+ sensor_name +:+ "_linear_model.pkl" in
  let results :=
    mk_results "linear" sensor_name mae r2 rmse (length X_train) (length X_test)
      model_path (zip (trainer_feature_columns self) (importances model)) in
  let self :=
    mk_trainer (trainer_db self)
      (dict_set (sensor_name +:+ "_linear") model (trainer_models self))
      (trainer_feature_columns self) in
  mret (results, self).

Definition train_random_forest_model (self : trainer) (sensor_name : string)
    (test_size : Q) : Py (training_results * trainer) :=
  _ ← print ("Treinando modelo Random Forest para " +:+ sensor_name +:+ "...");
  '(X, y) ← prepare_training_data self sensor_name 1000;
  let split_idx := py_int (fmul (inject_Z (Z.of_nat (length X))) (fsub 1 test_size)) in
  let X_train := slice_to split_idx X in
  let X_test := slice_from split_idx X in
  let y_train := slice_to split_idx y in
  let y_test := slice_from split_idx y in
  _ ← check_array X_train;
  let model := fit_forest X_train y_train in
  _ ← check_array X_test;
  let y_pred := predict model X_test in
  let mae := mean_absolute_error y_test y_pred in
  let r2 := r2_score y_test y_pred in
  let rmse := fsqrt (mean_squared_error y_test y_pred) in
  let model_path := "models/" +:+ sensor_name +:+ "_rf_model.pkl" in
  let results :=
    mk_results "random_forest" sensor_name mae r2 rmse (length X_train) (length X_test)
      model_path (zip (trainer_feature_columns self) (importances model)) in
  let self :=
    mk_trainer (trainer_db self)
      (dict_set (sensor_name +:+ "_rf") model (trainer_models self))
      (trainer_feature_columns self) in
  mret (results, self).

Definition get_best_model (self : trainer) (sensor_name : string) : Py string :=
  let linear_key := sensor_name +:+ "_linear" in
  let rf_key := sensor_name +:+ "_rf" in
  if dict_in linear_key (trainer_models self) && dict_in rf_key (trainer_models self)
  then mret rf_key
  else if dict_in linear_key (trainer_models self) then mret linear_key
  else if dict_in rf_key (trainer_models self) then mret rf_key
  else raise (ValueError ("Nenhum modelo treinado para " +:+ sensor_name)).

(** The dict returned by the prediction methods; [confidence] is only in
    the predictor's. *)
Record prediction_result := mk_prediction_result {
  pr_sensor_name : string;
  pr_predicted_value : Q;
  pr_confidence : option Q;
  pr_model_used : string;
  pr_timestamp : string }.

(** [series.iloc[-k]] *)
Definition iloc_back {A} (k : nat) (l : list A) : Py A :=
  match l !! (length l - k)%nat with
  | Some x => if (k <=? length l)%nat then mret x else raise IndexError
  | None => raise IndexError
  end.

(** [model.predict(X)[0]] *)
Definition first_prediction (m : model) (X : list (list Q)) : Py Q :=
  _ ← check_array X;
  first_row (predict m X).

Definition predict_next_value (self : trainer) (sensor_name : string)
    (model_type : string) : Py prediction_result :=
  model_key ← (if String.eqb model_type "auto"
               then get_best_model self sensor_name
               else mret (sensor_name +:+ "_" +:+ model_type));
  match dict_get model_key (trainer_models self) with
  | None => raise (ValueError ("Modelo " +:+ model_key +:+ " não encontrado"))
  | Some model =>
      recent_data ← get_sensor_readings_by_name (trainer_db self) sensor_name 10;
      match recent_data with
      | [] => raise (ValueError ("Dados insuficientes para predição de " +:+ sensor_name))
      | _ =>
          let df := tail 3 (sort_values recent_data) in
          let values := map value df in
          l1 ← (if (1 <? length df)%nat then iloc_back 2 values else iloc_back 1 values);
          l2 ← (if (2 <? length df)%nat then iloc_back 3 values else iloc_back 1 values);
          let r3 := series_mean (tail 3 values) in
          h ← datetime_now_hour;
          let features := [[l1; l2; r3; inject_Z h]] in
          prediction ← first_prediction model features;
          sensor_id ← get_sensor_id_by_name (trainer_db self) sensor_name;
          _ ← create_prediction (trainer_db self) sensor_id prediction lit_0_8 "v1.0";
          utc ← now;
          mret (mk_prediction_result sensor_name prediction None model_key
                  (isoformat utc))
      end
  end.

(** *** [class MLPredictor] *)

Record predictor := mk_predictor {
  predictor_db : connection_class;
  predictor_models : models_dict;
  predictor_feature_columns : list string }.

Definition prepare_features (self : predictor) (sensor_name : string) (lookback : nat)
  : Py (list (list Q)) :=
  recent_data ← get_sensor_readings_by_name (predictor_db self) sensor_name lookback;
  match recent_data with
  | [] => raise (ValueError ("Nenhum dado encontrado para " +:+ sensor_name))
  | _ =>
      let df := sort_values recent_data in
      let df := add_features df in
      let df := dropna df in
      match df with
      | [] => raise (ValueError ("Features insuficientes para " +:+ sensor_name))
      | _ => select (predictor_feature_columns self) df
      end
  end.

Definition find_best_model (self : predictor) (sensor_name : string) : Py string :=
  let available_models :=
    filter (fun name => contains sensor_name name = true)
      (map fst (predictor_models self)) in
  match available_models with
  | [] => raise (ValueError ("Nenhum modelo encontrado para " +:+ sensor_name))
  | first :: _ =>
      let rf_models := filter (fun name => contains "rf" name = true) available_models in
      match rf_models with
      | rf :: _ => mret rf
      | [] => mret first
      end
  end.

Definition predict_single_value (self : predictor) (sensor_name : string)
    (model_name : option string) : Py prediction_result :=
  model_name ← (match model_name with
                | None => find_best_model self sensor_name
                | Some m => mret m
                end);
  match dict_get model_name (predictor_models self) with
  | None => raise (ValueError ("Modelo " +:+ model_name +:+ " não encontrado"))
  | Some model =>
      features ← prepare_features self sensor_name 5;
      prediction ← first_prediction model (tail 1 features);
      recent ← get_sensor_readings_by_name (predictor_db self) sensor_name 10;
      recent_values ← (match recent with
                       | [] => raise (KeyError "value")
                       | _ => mret (map value recent)
                       end);
      let confidence := confidence_of (std_over_mean recent_values) in
      sensor_id ← get_sensor_id_by_name (predictor_db self) sensor_name;
      _ ← create_prediction (predictor_db self) sensor_id prediction confidence "v1.0";
      utc ← now;
      mret (mk_prediction_result sensor_name prediction (Some confidence) model_name
              (isoformat utc))
  end.

End Learner.

Arguments predict {model} predict_row m X.
Arguments dict_in {model} k d.
Arguments dict_get {model} k d.
Arguments dict_set {model} k v d.
Arguments mk_trainer {model} _ _ _.
Arguments trainer_db {model} _.
Arguments trainer_models {model} _.
Arguments trainer_feature_columns {model} _.
Arguments trainer_init {model} db_connection.
Arguments prepare_training_data {model} self sensor_name limit.
Arguments train_linear_model {model} _ _ _ _ _ _ self sensor_name test_size.
Arguments train_random_forest_model {model} _ _ _ _ _ _ self sensor_name test_size.
Arguments get_best_model {model} self sensor_name.
Arguments first_prediction {model} predict_row m X.
Arguments predict_next_value {model} _ _ self sensor_name model_type.
Arguments mk_predictor {model} _ _ _.
Arguments predictor_db {model} _.
Arguments predictor_models {model} _.
Arguments predictor_feature_columns {model} _.
Arguments prepare_features {model} self sensor_name lookback.
Arguments find_best_model {model} self sensor_name.
Arguments predict_single_value {model} _ _ _ self sensor_name model_name.

Section Batch.

Variable model : Type.
Variable fit_linear : list (list Q) -> list Q -> model.
Variable fit_forest : list (list Q) -> list Q -> model.
Variable predict_row : model -> list Q -> Q.
Variable mean_absolute_error : list Q -> list Q -> Q.
Variable r2_score : list Q -> list Q -> Q.
Variable mean_squared_error : list Q -> list Q -> Q.
Variable importances : model -> list Q.
Variable std_over_mean : list Q -> npfloat.
Variable isoformat : Z -> string.

(** [MLModelTrainer.train_all_models].  The [results] dict holds a
    training result or, under [<sensor>_error], the message of the
    exception.  The handler runs with [results] and [self.models] as
    they are when the exception is raised: as before the [try] when the
    linear training raised, and with the linear entries when the Random
    Forest training raised. *)
Definition train_all_models (self : trainer model) (sensors : list string)
  : Py (list (string * (training_results + string)) * trainer model) :=
  let results := [] in
  for_each (fun '(results, self) sensor =>
      let handler (results : list (string * (training_results + string)))
                  (self : trainer model) (e : exn) :=
        _ ← print ("Erro ao treinar modelo para " +:+ sensor +:+ ": " +:+ exn_str e);
        mret (dict_set (sensor +:+ "_error") (inr (exn_str e)) results, self) in
      try_except
        ('(linear_results, self) ←
           train_linear_model fit_linear predict_row mean_absolute_error r2_score
             mean_squared_error importances self sensor lit_0_2;
         let results := dict_set (sensor +:+ "_linear") (inl linear_results) results in
         try_except
           ('(rf_results, self) ←
              train_random_forest_model fit_forest predict_row mean_absolute_error
                r2_score mean_squared_error importances self sensor lit_0_2;
            let results := dict_set (sensor +:+ "_rf") (inl rf_results) results in
            mret (results, self))
           (handler results self))
        (handler results self))
    (results, self) sensors.

(** [MLPredictor.predict_multiple_sensors]: per sensor name the
    prediction or [{'error': str(e)}]. *)
Definition predict_multiple_sensors (self : predictor model)
    (sensor_names : list string)
  : Py (list (string * (prediction_result + string))) :=
  let predictions := [] in
  for_each (fun predictions sensor_name =>
      try_except
        (pred ← predict_single_value predict_row std_over_mean isoformat self
                  sensor_name None;
         mret (dict_set sensor_name (inl pred) predictions))
        (fun e => mret (dict_set sensor_name (inr (exn_str e)) predictions)))
    predictions sensor_names.

(** A value of the dict returned by [evaluate_model_performance]. *)
Record evaluation := mk_evaluation {
  eval_mae : Q; eval_r2 : Q; eval_test_samples : nat }.

(** [MLModelTrainer.evaluate_model_performance]: every model whose key
    contains the sensor name is scored on the last fifth of the
    prepared rows. *)
Definition evaluate_model_performance (self : trainer model) (sensor_name : string)
  : Py (list (string * (evaluation + string))) :=
  recent_data ← get_sensor_readings_by_name (trainer_db self) sensor_name 100;
  match recent_data with
  | [] => mret []
  | _ =>
      let df := sort_values recent_data in
      let df := add_features df in
      let df := dropna df in
      if (length df <? 10)%nat then mret []
      else
        let test_size := py_int (fmul (inject_Z (Z.of_nat (length df))) lit_0_2) in
        let test_data := tail (Z.to_nat test_size) df in
        X_test ← select (trainer_feature_columns self) test_data;
        let y_test := map f_value test_data in
        let results := [] in
        for_each (fun results '(model_key, model) =>
            if contains sensor_name model_key
            then
              try_except
                (_ ← check_array X_test;
                 let y_pred := predict predict_row model X_test in
                 let mae := mean_absolute_error y_test y_pred in
                 let r2 := r2_score y_test y_pred in
                 mret (dict_set model_key (inl (mk_evaluation mae r2 (length y_test)))
                         results))
                (fun e => mret (dict_set model_key (inr (exn_str e)) results))
            else mret results)
          results (trainer_models self)
  end.

End Batch.

Arguments train_all_models {model} _ _ _ _ _ _ _ self sensors.
Arguments predict_multiple_sensors {model} _ _ _ self sensor_names.
Arguments evaluate_model_performance {model} _ _ _ self sensor_name.

End ML.

(** * Facts *)

(** ** Binary64 rounding is monotone *)

Module FloatFacts.
Import Float.
Local Open Scope Q_scope.

Lemma pow2_pos e : 0 < pow2 e.
Proof. apply Qpower_0_lt. reflexivity. Qed.

Lemma pow2_add a b : pow2 (a + b) == pow2 a * pow2 b.
Proof. apply Qpower_plus. discriminate. Qed.

Lemma pow2_sum a b c : (a + b = c)%Z -> pow2 c == pow2 a * pow2 b.
Proof. intros <-. apply pow2_add. Qed.

Lemma pow2_le a b : (a <= b)%Z -> pow2 a <= pow2 b.
Proof. intros H. apply Qpower_le_compat_l; [exact H | discriminate]. Qed.

Lemma pow2_lt a b : (a < b)%Z -> pow2 a < pow2 b.
Proof. intros H. apply Qpower_lt_compat_l; [exact H | reflexivity]. Qed.

Lemma pow2_lt_inv a b : pow2 a < pow2 b -> (a < b)%Z.
Proof. intros H. apply (Qpower_lt_compat_l_inv (2 # 1)); [exact H | reflexivity]. Qed.

Lemma pow2_Z e : (0 <= e)%Z -> pow2 e == inject_Z (2 ^ e).
Proof. intros H. unfold pow2. rewrite Zpower_Qpower by exact H. reflexivity. Qed.

Lemma pow2_inv k : pow2 k * pow2 (- k) == 1.
Proof. rewrite <- pow2_add. replace (k + - k)%Z with 0%Z by lia. reflexivity. Qed.

Lemma scale_le x y k : x * pow2 k <= y -> x <= y * pow2 (- k).
Proof.
  intros H. apply (Qmult_le_r _ _ (pow2 k)); [apply pow2_pos|].
  rewrite <- Qmult_assoc, (Qmult_comm (pow2 (- k))), pow2_inv, Qmult_1_r. exact H.
Qed.

Lemma scale_lt x y k : x * pow2 k < y -> x < y * pow2 (- k).
Proof.
  intros H. apply (Qmult_lt_r _ _ (pow2 k)); [apply pow2_pos|].
  rewrite <- Qmult_assoc, (Qmult_comm (pow2 (- k))), pow2_inv, Qmult_1_r. exact H.
Qed.

Lemma scale_ge x y k : y <= x * pow2 k -> y * pow2 (- k) <= x.
Proof.
  intros H. apply (Qmult_le_r _ _ (pow2 k)); [apply pow2_pos|].
  rewrite <- Qmult_assoc, (Qmult_comm (pow2 (- k))), pow2_inv, Qmult_1_r. exact H.
Qed.

Lemma ilog2_spec q : 0 < q -> pow2 (ilog2 q) <= q /\ q < pow2 (ilog2 q + 1).
Proof.
  intros Hq. destruct q as [n d].
  assert (Hn : (0 < n)%Z) by (unfold Qlt in Hq; simpl in Hq; lia).
  pose proof (Z.log2_spec n Hn) as [Ha1 Ha2].
  pose proof (Z.log2_spec (Zpos d) (Pos2Z.is_pos d)) as [Hb1 Hb2].
  pose proof (Z.log2_nonneg n) as Ha0.
  pose proof (Z.log2_nonneg (Zpos d)) as Hb0.
  set (a := Z.log2 n) in *. set (b := Z.log2 (Zpos d)) in *.
  assert (Hlo : pow2 (a - b - 1) <= n # d).
  { replace (a - b - 1)%Z with (a + - (b + 1))%Z by lia.
    rewrite pow2_add. apply scale_ge.
    rewrite !pow2_Z by lia.
    unfold Qle, Qmult, inject_Z; simpl.
    replace (Z.succ b) with (b + 1)%Z in Hb2 by lia. nia. }
  assert (Hhi : n # d < pow2 (a - b + 1)).
  { replace (a - b + 1)%Z with (a + 1 + - b)%Z by lia.
    rewrite pow2_add. apply scale_lt.
    rewrite !pow2_Z by lia.
    unfold Qlt, Qmult, inject_Z; simpl.
    replace (Z.succ a) with (a + 1)%Z in Ha2 by lia. nia. }
  unfold ilog2. cbn [Qnum Qden]. fold a b.
  destruct (Qle_bool (pow2 (a - b)) (n # d)) eqn:E.
  - split; [apply Qle_bool_iff; exact E | exact Hhi].
  - split; [exact Hlo|].
    replace (a - b - 1 + 1)%Z with (a - b)%Z by lia.
    apply Qnot_le_lt. intros Hc. apply Qle_bool_iff in Hc. congruence.
Qed.

Lemma ilog2_mono p q : 0 < p -> p <= q -> (ilog2 p <= ilog2 q)%Z.
Proof.
  intros Hp Hpq.
  destruct (ilog2_spec p Hp) as [H1 _].
  destruct (ilog2_spec q (Qlt_le_trans _ _ _ Hp Hpq)) as [_ H2].
  assert (H : pow2 (ilog2 p) < pow2 (ilog2 q + 1)).
  { eapply Qle_lt_trans; [exact H1|]. eapply Qle_lt_trans; [exact Hpq | exact H2]. }
  apply pow2_lt_inv in H. lia.
Qed.


Lemma rne_Z z : rne (inject_Z z) = z.
Proof.
  unfold rne. rewrite Qfloor_Z.
  destruct (Qcompare_spec (inject_Z z - inject_Z z) (1 # 2)) as [H|H|H]; try reflexivity.
  - exfalso. assert (E : inject_Z z - inject_Z z == 0) by ring.
    rewrite E in H. discriminate H.
  - exfalso. assert (E : inject_Z z - inject_Z z == 0) by ring.
    rewrite E in H. discriminate H.
Qed.

Lemma rne_floor q : (Qfloor q <= rne q <= Qfloor q + 1)%Z.
Proof.
  unfold rne. destruct (Qcompare _ _); [destruct (Z.even _)| |]; lia.
Qed.

Lemma rne_mono p q : p <= q -> (rne p <= rne q)%Z.
Proof.
  intros Hpq. pose proof (Qfloor_resp_le _ _ Hpq) as Hf.
  destruct (Z.eq_dec (Qfloor p) (Qfloor q)) as [E|NE].
  - unfold rne. rewrite E.
    destruct (Qcompare_spec (p - inject_Z (Qfloor q)) (1 # 2)) as [H1|H1|H1];
      destruct (Qcompare_spec (q - inject_Z (Qfloor q)) (1 # 2)) as [H2|H2|H2];
      try (destruct (Z.even (Qfloor q))); try lia; exfalso; lra.
  - pose proof (rne_floor p). pose proof (rne_floor q). lia.
Qed.

Lemma rne_nonneg q : 0 <= q -> (0 <= rne q)%Z.
Proof.
  intros H. apply (rne_mono (inject_Z 0) q) in H. rewrite rne_Z in H. exact H.
Qed.

Lemma RNpos_nonneg q : 0 <= q -> 0 <= RNpos q.
Proof.
  intros H. unfold RNpos. apply Qmult_le_0_compat.
  - change 0 with (inject_Z 0). rewrite <- Zle_Qle. apply rne_nonneg.
    apply Qmult_le_0_compat; [exact H | apply Qlt_le_weak, pow2_pos].
  - apply Qlt_le_weak, pow2_pos.
Qed.

(* a positive rational below [2^(e+1)] rounds, at exponent [e], to at most [2^(e+1)] *)
Lemma round_at_upper p e n :
  p <= pow2 (e + 1) -> (0 <= n)%Z ->
  inject_Z (rne (p * pow2 (n - e))) * pow2 (- (n - e)) <= pow2 (e + 1).
Proof.
  intros Hp Hn.
  assert (H1 : p * pow2 (n - e) <= inject_Z (2 ^ (n + 1))).
  { rewrite <- pow2_Z by lia. replace (n + 1)%Z with (e + 1 + (n - e))%Z by lia.
    rewrite pow2_add. apply Qmult_le_compat_r; [exact Hp | apply Qlt_le_weak, pow2_pos]. }
  apply rne_mono in H1. rewrite rne_Z in H1.
  rewrite Zle_Qle in H1. rewrite <- pow2_Z in H1 by lia.
  assert (E : pow2 (e + 1) == pow2 (n + 1) * pow2 (- (n - e))).
  { rewrite <- pow2_add. replace (n + 1 + - (n - e))%Z with (e + 1)%Z by lia. reflexivity. }
  rewrite E.
  apply Qmult_le_compat_r; [exact H1 | apply Qlt_le_weak, pow2_pos].
Qed.

Lemma round_at_lower q e n :
  pow2 e <= q -> (0 <= n)%Z ->
  pow2 e <= inject_Z (rne (q * pow2 (n - e))) * pow2 (- (n - e)).
Proof.
  intros Hq Hn.
  assert (H1 : inject_Z (2 ^ n) <= q * pow2 (n - e)).
  { rewrite <- pow2_Z by lia. replace n with (e + (n - e))%Z at 1 by lia.
    rewrite pow2_add. apply Qmult_le_compat_r; [exact Hq | apply Qlt_le_weak, pow2_pos]. }
  apply rne_mono in H1. rewrite rne_Z in H1.
  rewrite Zle_Qle in H1. rewrite <- pow2_Z in H1 by lia.
  assert (E : pow2 e == pow2 n * pow2 (- (n - e))).
  { rewrite <- pow2_add. replace (n + - (n - e))%Z with e by lia. reflexivity. }
  rewrite E.
  apply Qmult_le_compat_r; [exact H1 | apply Qlt_le_weak, pow2_pos].
Qed.

Lemma RNpos_mono p q : 0 < p -> p <= q -> RNpos p <= RNpos q.
Proof.
  intros Hp Hpq.
  assert (Hq : 0 < q) by (eapply Qlt_le_trans; eauto).
  pose proof (ilog2_mono p q Hp Hpq) as Hl.
  destruct (ilog2_spec p Hp) as [_ Hp2]. destruct (ilog2_spec q Hq) as [Hq1 _].
  unfold RNpos.
  set (ep := Z.max (ilog2 p) (-1022)). set (eq := Z.max (ilog2 q) (-1022)).
  destruct (Z.eq_dec ep eq) as [E|NE].
  - rewrite E. apply Qmult_le_compat_r; [|apply Qlt_le_weak, pow2_pos].
    rewrite <- Zle_Qle. apply rne_mono.
    apply Qmult_le_compat_r; [exact Hpq | apply Qlt_le_weak, pow2_pos].
  - assert (Hlt : (ep + 1 <= eq)%Z) by (unfold ep, eq in *; lia).
    assert (Heq : eq = ilog2 q) by (unfold ep, eq in *; lia).
    apply Qle_trans with (pow2 (ep + 1)).
    + apply round_at_upper; [|lia].
      apply Qlt_le_weak. eapply Qlt_le_trans; [exact Hp2|].
      apply pow2_le. unfold ep. lia.
    + apply Qle_trans with (pow2 eq); [apply pow2_le; exact Hlt|].
      apply round_at_lower; [|lia]. rewrite Heq. exact Hq1.
Qed.

Lemma RN_mono p q : p <= q -> RN p <= RN q.
Proof.
  intros Hpq. unfold RN.
  destruct (Qcompare_spec p 0) as [Hp|Hp|Hp];
    destruct (Qcompare_spec q 0) as [Hq|Hq|Hq]; try (exfalso; lra).
  - apply Qle_refl.
  - apply RNpos_nonneg. lra.
  - assert (0 <= RNpos (- p)) by (apply RNpos_nonneg; lra). lra.
  - assert (RNpos (- q) <= RNpos (- p)) by (apply RNpos_mono; lra). lra.
  - assert (0 <= RNpos (- p)) by (apply RNpos_nonneg; lra).
    assert (0 <= RNpos q) by (apply RNpos_nonneg; lra). lra.
  - apply RNpos_mono; assumption.
Qed.


Lemma sqrt_at_upper p e :
  p <= pow2 (2 * e + 2) ->
  inject_Z ((Z.sqrt (Qfloor (p * pow2 (2 * (52 - e) + 2))) + 1) / 2) * pow2 (- (52 - e))
    <= pow2 (e + 1).
Proof.
  intros Hp.
  assert (H1 : p * pow2 (2 * (52 - e) + 2) <= inject_Z (2 ^ 108)).
  { rewrite <- pow2_Z by lia.
    rewrite (pow2_sum (2 * e + 2) (2 * (52 - e) + 2) 108) by lia.
    apply Qmult_le_compat_r; [exact Hp | apply Qlt_le_weak, pow2_pos]. }
  apply Qfloor_resp_le in H1. rewrite Qfloor_Z in H1.
  apply Z.sqrt_le_mono in H1.
  replace (Z.sqrt (2 ^ 108)) with (2 ^ 54)%Z in H1 by (vm_compute; reflexivity).
  assert (H2 : ((Z.sqrt (Qfloor (p * pow2 (2 * (52 - e) + 2))) + 1) / 2 <= 2 ^ 53)%Z).
  { replace (2 ^ 53)%Z with ((2 ^ 54 + 1) / 2)%Z by (vm_compute; reflexivity).
    apply Z.div_le_mono; lia. }
  rewrite Zle_Qle in H2. rewrite <- pow2_Z in H2 by lia.
  assert (E : pow2 (e + 1) == pow2 53 * pow2 (- (52 - e))).
  { rewrite <- pow2_add. replace (53 + - (52 - e))%Z with (e + 1)%Z by lia. reflexivity. }
  rewrite E. apply Qmult_le_compat_r; [exact H2 | apply Qlt_le_weak, pow2_pos].
Qed.

Lemma sqrt_at_lower q e :
  pow2 (2 * e) <= q ->
  pow2 e <=
  inject_Z ((Z.sqrt (Qfloor (q * pow2 (2 * (52 - e) + 2))) + 1) / 2) * pow2 (- (52 - e)).
Proof.
  intros Hq.
  assert (H1 : inject_Z (2 ^ 106) <= q * pow2 (2 * (52 - e) + 2)).
  { rewrite <- pow2_Z by lia.
    rewrite (pow2_sum (2 * e) (2 * (52 - e) + 2) 106) by lia.
    apply Qmult_le_compat_r; [exact Hq | apply Qlt_le_weak, pow2_pos]. }
  apply Qfloor_resp_le in H1. rewrite Qfloor_Z in H1.
  apply Z.sqrt_le_mono in H1.
  replace (Z.sqrt (2 ^ 106)) with (2 ^ 53)%Z in H1 by (vm_compute; reflexivity).
  assert (H2 : (2 ^ 52 <= (Z.sqrt (Qfloor (q * pow2 (2 * (52 - e) + 2))) + 1) / 2)%Z).
  { replace (2 ^ 52)%Z with ((2 ^ 53 + 1) / 2)%Z by (vm_compute; reflexivity).
    apply Z.div_le_mono; lia. }
  rewrite Zle_Qle in H2. rewrite <- pow2_Z in H2 by lia.
  assert (E : pow2 e == pow2 52 * pow2 (- (52 - e))).
  { rewrite <- pow2_add. replace (52 + - (52 - e))%Z with e by lia. reflexivity. }
  rewrite E. apply Qmult_le_compat_r; [exact H2 | apply Qlt_le_weak, pow2_pos].
Qed.

Lemma fsqrt_nonneg q : 0 <= fsqrt q.
Proof.
  unfold fsqrt. destruct (Qle_bool q 0); [apply Qle_refl|].
  apply Qmult_le_0_compat; [|apply Qlt_le_weak, pow2_pos].
  change 0 with (inject_Z 0). rewrite <- Zle_Qle.
  apply Z.div_pos; [|lia].
  pose proof (Z.sqrt_nonneg (Qfloor (q * pow2 (2 * (52 - ilog2 q / 2) + 2)))). lia.
Qed.

Lemma fsqrt_mono p q : p <= q -> fsqrt p <= fsqrt q.
Proof.
  intros Hpq. pose proof (fsqrt_nonneg q) as Hnn. unfold fsqrt in *.
  destruct (Qle_bool p 0) eqn:Ep; [destruct (Qle_bool q 0); [apply Qle_refl | exact Hnn]|].
  assert (Hp : 0 < p).
  { apply Qnot_le_lt. intros Hc. apply Qle_bool_iff in Hc. congruence. }
  assert (Hq : 0 < q) by (eapply Qlt_le_trans; eauto).
  destruct (Qle_bool q 0) eqn:Eq; [apply Qle_bool_iff in Eq; exfalso; lra|].
  pose proof (ilog2_mono p q Hp Hpq) as Hl.
  destruct (ilog2_spec p Hp) as [_ Hp2]. destruct (ilog2_spec q Hq) as [Hq1 _].
  pose proof (Z.div_mod (ilog2 p) 2 ltac:(lia)) as Dp.
  pose proof (Z.mod_pos_bound (ilog2 p) 2 ltac:(lia)) as Bp.
  pose proof (Z.div_mod (ilog2 q) 2 ltac:(lia)) as Dq.
  pose proof (Z.mod_pos_bound (ilog2 q) 2 ltac:(lia)) as Bq.
  set (ep := (ilog2 p / 2)%Z) in *. set (eq := (ilog2 q / 2)%Z) in *.
  destruct (Z.eq_dec ep eq) as [E|NE].
  - rewrite E. apply Qmult_le_compat_r; [|apply Qlt_le_weak, pow2_pos].
    rewrite <- Zle_Qle. apply Z.div_le_mono; [lia|].
    apply Z.add_le_mono_r. apply Z.sqrt_le_mono. apply Qfloor_resp_le.
    apply Qmult_le_compat_r; [exact Hpq | apply Qlt_le_weak, pow2_pos].
  - assert (Hlt : (ep + 1 <= eq)%Z) by lia.
    apply Qle_trans with (pow2 (ep + 1)).
    + apply sqrt_at_upper. apply Qlt_le_weak. eapply Qlt_le_trans; [exact Hp2|].
      apply pow2_le. lia.
    + apply Qle_trans with (pow2 eq); [apply pow2_le; exact Hlt|].
      apply sqrt_at_lower. eapply Qle_trans; [|exact Hq1]. apply pow2_le. lia.
Qed.


Lemma Qltb_spec x y : Qltb x y = true <-> x < y.
Proof.
  unfold Qltb. destruct (Qle_bool y x) eqn:E; simpl.
  - apply Qle_bool_iff in E. split; [discriminate | intros; exfalso; lra].
  - split; [intros _|reflexivity]. apply Qnot_le_lt. intros H.
    apply Qle_bool_iff in H. congruence.
Qed.

Lemma Qltb_false x y : Qltb x y = false <-> y <= x.
Proof.
  unfold Qltb. destruct (Qle_bool y x) eqn:E; simpl.
  - apply Qle_bool_iff in E. split; [intros _; exact E | reflexivity].
  - split; [discriminate|]. intros H. apply Qle_bool_iff in H. congruence.
Qed.

Lemma np_sqrt_mono a b : (a <= b)%Z -> np_sqrt a <= np_sqrt b.
Proof.
  intros H. unfold np_sqrt. apply fsqrt_mono, RN_mono. rewrite <- Zle_Qle. exact H.
Qed.

(** The float root exceeds 2000 exactly when the integer exceeds [2000^2]. *)
Lemma np_sqrt_gt_2000 s : 2000 < np_sqrt s <-> (4000000 < s)%Z.
Proof.
  split.
  - intros H. destruct (Z_lt_le_dec 4000000 s) as [L|L]; [exact L|exfalso].
    apply np_sqrt_mono in L.
    assert (E : np_sqrt 4000000 == 2000) by (vm_compute; reflexivity).
    rewrite E in L. lra.
  - intros H. assert (L : (4000001 <= s)%Z) by lia.
    apply np_sqrt_mono in L.
    assert (E : 2000 < np_sqrt 4000001) by (vm_compute; reflexivity).
    lra.
Qed.

(** Rounding to two decimals keeps a value inside an interval whose
    ends are themselves binary64 numbers with at most two decimals. *)
Lemma py_round2_between lo hi x :
  RN (inject_Z lo) == inject_Z lo -> RN (inject_Z hi) == inject_Z hi ->
  inject_Z lo <= x -> x <= inject_Z hi ->
  inject_Z lo <= py_round2 x /\ py_round2 x <= inject_Z hi.
Proof.
  intros Elo Ehi Hlo Hhi. unfold py_round2.
  assert (L : (lo * 100 <= rne (x * 100))%Z).
  { rewrite <- (rne_Z (lo * 100)). apply rne_mono. rewrite inject_Z_mult.
    apply Qmult_le_compat_r; [exact Hlo | discriminate]. }
  assert (U : (rne (x * 100) <= hi * 100)%Z).
  { rewrite <- (rne_Z (hi * 100)). apply rne_mono. rewrite inject_Z_mult.
    apply Qmult_le_compat_r; [exact Hhi | discriminate]. }
  rewrite Zle_Qle, inject_Z_mult in L, U.
  split.
  - rewrite <- Elo. apply RN_mono. apply Qle_shift_div_l; [reflexivity | exact L].
  - rewrite <- Ehi. apply RN_mono. apply Qle_shift_div_r; [reflexivity | exact U].
Qed.

(** The real square root of an integer exceeds a non-negative integer
    bound exactly when the integer exceeds the square of the bound. *)
Lemma real_sqrt_gt (t s : Z) :
  (0 <= t)%Z -> (IZR t < sqrt (IZR s))%R <-> (t * t < s)%Z.
Proof.
  intros Ht.
  assert (E : sqrt (IZR (t * t)) = IZR t).
  { rewrite mult_IZR. apply sqrt_square. apply IZR_le. exact Ht. }
  split.
  - intros H. destruct (Z_lt_le_dec (t * t) s) as [L|L]; [exact L|exfalso].
    apply IZR_le in L. apply sqrt_le_1_alt in L. rewrite E in L.
    apply (Rlt_irrefl (IZR t)). eapply Rlt_le_trans; eauto.
  - intros H. rewrite <- E. apply sqrt_lt_1_alt. split.
    + apply IZR_le. nia.
    + apply IZR_lt. exact H.
Qed.

Lemma py_clamp_between x : 0 <= py_max 0 (py_min 100 x) /\ py_max 0 (py_min 100 x) <= 100.
Proof.
  unfold py_max, py_min.
  destruct (Qltb x 100) eqn:E1.
  - apply Qltb_spec in E1. destruct (Qltb 0 x) eqn:E2.
    + apply Qltb_spec in E2. lra.
    + lra.
  - destruct (Qltb 0 100) eqn:E2; lra.
Qed.

Lemma range_guard x lo hi d :
  lo <= d -> d <= hi ->
  lo <= (if Qltb x lo || Qltb hi x then d else x) /\
  (if Qltb x lo || Qltb hi x then d else x) <= hi.
Proof.
  intros Hlo Hhi.
  destruct (Qltb x lo) eqn:E1; simpl; [split; assumption|].
  destruct (Qltb hi x) eqn:E2; [split; assumption|].
  apply Qltb_false in E1, E2. split; assumption.
Qed.

Lemma range_guard_replaces x lo hi d :
  x < lo \/ hi < x -> (if Qltb x lo || Qltb hi x then d else x) = d.
Proof.
  intros [H|H]; apply Qltb_spec in H; rewrite H; [reflexivity|].
  destruct (Qltb x lo); reflexivity.
Qed.

End FloatFacts.

(** ** Running monadic code *)

Module PyFacts.
Import Schema Py.

(** Inversion of a bind that returned. *)
Lemma bind_Ok {A B} (m : Py A) (f : A -> Py B) w b w' :
  (m ≫= f) w = (Ok b, w') ->
  exists a w1, m w = (Ok a, w1) /\ f a w1 = (Ok b, w').
Proof.
  unfold mbind, Py_bind. destruct (m w) as [[a|e] w1]; intros H.
  - exists a, w1. split; [reflexivity | exact H].
  - discriminate H.
Qed.

Lemma bind_step {A B} (m : Py A) (f : A -> Py B) w a w1 :
  m w = (Ok a, w1) -> (m ≫= f) w = f a w1.
Proof. intros H. unfold mbind, Py_bind. rewrite H. reflexivity. Qed.

Lemma bind_raise {A B} (m : Py A) (f : A -> Py B) w e w1 :
  m w = (Raise e, w1) -> (m ≫= f) w = (Raise e, w1).
Proof. intros H. unfold mbind, Py_bind. rewrite H. reflexivity. Qed.

End PyFacts.

(** ** The simulator *)

Module ESP32SimulatorFacts.
Import Float FloatFacts Py PyFacts ESP32Simulator.
Local Open Scope Q_scope.

Lemma alerts_distinct :
  ALERT_TEMPERATURE <> ALERT_HUMIDITY /\ ALERT_TEMPERATURE <> ALERT_LUMINOSITY /\
  ALERT_TEMPERATURE <> ALERT_VIBRATION /\ ALERT_HUMIDITY <> ALERT_LUMINOSITY /\
  ALERT_HUMIDITY <> ALERT_VIBRATION /\ ALERT_LUMINOSITY <> ALERT_VIBRATION.
Proof. repeat split; discriminate. Qed.

(** The alert list, one optional entry per check, in the order of the checks. *)
Lemma analyze_data_eq self data :
  analyze_data self data =
    (if Qltb 35 (temperature data) then [ALERT_TEMPERATURE] else []) ++
    (if Qltb 80 (humidity data) then [ALERT_HUMIDITY] else []) ++
    (if Qltb (luminosity data) 10 then [ALERT_LUMINOSITY] else []) ++
    (if Qltb 2000 (np_sqrt (accel_x data ^ 2 + accel_y data ^ 2 + accel_z data ^ 2))
     then [ALERT_VIBRATION] else []).
Proof.
  unfold analyze_data.
  destruct (Qltb 35 _), (Qltb 80 _), (Qltb _ 10), (Qltb 2000 _); reflexivity.
Qed.


Section Runs.

Variable np_sin : Q -> Q.
Variable isoformat : Z -> string.

(** The three sensor reads always return. *)
Lemma read_dht22_runs w :
  exists temp humidity w',
    read_dht22 np_sin w = (Ok (temp, humidity), w') /\
    (-40 <= temp /\ temp <= 80) /\ (0 <= humidity /\ humidity <= 100).
Proof.
  unfold read_dht22, datetime_now_hour, random_gauss, now, draw.
  cbv [mbind mret Py_bind Py_ret]. cbn [clock ticks entropy drawn].
  eexists _, _, _. split; [reflexivity|]. split.
  - apply range_guard; lra.
  - apply range_guard; lra.
Qed.

Lemma randint_between a b r : (a <= b)%Z -> (a <= a + r mod (b - a + 1) <= b)%Z.
Proof. intros H. pose proof (Z.mod_pos_bound r (b - a + 1) ltac:(lia)). lia. Qed.

Lemma read_mpu6050_runs w :
  exists m w',
    read_mpu6050 w = (Ok m, w') /\
    (-500 <= ax m <= 500)%Z /\ (-500 <= ay m <= 500)%Z /\ (800 <= az m <= 1200)%Z.
Proof.
  unfold read_mpu6050, random_random, random_randint, draw.
  cbv [mbind mret Py_bind Py_ret]. cbn [clock ticks entropy drawn].
  destruct (Qltb _ lit_0_05); cbv [mbind mret Py_bind Py_ret];
    cbn [clock ticks entropy drawn ax ay az];
    eexists _, _; (split; [reflexivity|]); cbn [ax ay az].
  - split; [|split]; apply randint_between; lia.
  - pose proof (randint_between (-50) 50 (entropy w (S (drawn w))) ltac:(lia)).
    pose proof (randint_between (-50) 50 (entropy w (S (S (drawn w)))) ltac:(lia)).
    pose proof (randint_between 950 1050 (entropy w (S (S (S (drawn w))))) ltac:(lia)).
    lia.
Qed.

Lemma read_ldr_runs w :
  exists light w', read_ldr w = (Ok light, w') /\ 0 <= light /\ light <= 100.
Proof.
  unfold read_ldr, datetime_now_hour, random_gauss, now, draw.
  cbv [mbind mret Py_bind Py_ret]. cbn [clock ticks entropy drawn].
  destruct (_ && _); cbv [mbind mret Py_bind Py_ret];
    eexists _, _; (split; [reflexivity|]); apply py_clamp_between.
Qed.

(** [collect_data] as the sequence of its reads. *)
Lemma collect_data_runs self w :
  exists ts w1 temp humidity w2 m w3 light w4 utc w',
    time_time w = (Ok ts, w1) /\
    read_dht22 np_sin w1 = (Ok (temp, humidity), w2) /\
    read_mpu6050 w2 = (Ok m, w3) /\
    read_ldr w3 = (Ok light, w4) /\
    now w4 = (Ok utc, w') /\
    collect_data np_sin isoformat self w =
      (Ok (mk_record ts (py_round2 temp) (py_round2 humidity) (py_round2 light)
             (ax m) (ay m) (az m) (gx m) (gy m) (gz m) (isoformat utc)), w').
Proof.
  destruct (time_time w) as [r w1] eqn:E0.
  assert (exists ts, r = Ok ts) as [ts ->] by (inversion E0; eauto).
  destruct (read_dht22_runs w1) as (temp & humidity & w2 & E1 & _).
  destruct (read_mpu6050_runs w2) as (m & w3 & E2 & _).
  destruct (read_ldr_runs w3) as (light & w4 & E3 & _).
  destruct (now w4) as [r w'] eqn:E4.
  assert (exists utc, r = Ok utc) as [utc ->] by (inversion E4; eauto).
  exists ts, w1, temp, humidity, w2, m, w3, light, w4, utc, w'.
  do 5 (split; [first [assumption | reflexivity]|]).
  unfold collect_data.
  rewrite (bind_step _ _ _ _ _ E0), (bind_step _ _ _ _ _ E1).
  rewrite (bind_step _ _ _ _ _ E2), (bind_step _ _ _ _ _ E3).
  rewrite (bind_step _ _ _ _ _ E4). reflexivity.
Qed.

(** C9. Every record returned by [collect_data] has its temperature in
    [-40, 80], its humidity in [0, 100] and its luminosity in [0, 100],
    whatever the clock shows and whatever the generator draws. *)
Theorem collect_data_bounds self w :
  exists data w',
    collect_data np_sin isoformat self w = (Ok data, w') /\
    (-40 <= temperature data /\ temperature data <= 80) /\
    (0 <= humidity data /\ humidity data <= 100) /\
    (0 <= luminosity data /\ luminosity data <= 100).
Proof.
  destruct (collect_data_runs self w)
    as (ts & w1 & temp & hum & w2 & m & w3 & light & w4 & utc & w' &
        E0 & E1 & E2 & E3 & E4 & E).
  destruct (read_dht22_runs w1) as (temp' & hum' & w2' & E1' & Ht & Hh).
  rewrite E1 in E1'. inversion E1'; subst temp' hum' w2'. clear E1'.
  destruct (read_ldr_runs w3) as (light' & w4' & E3' & Hl).
  rewrite E3 in E3'. inversion E3'; subst light' w4'. clear E3'.
  eexists _, _. split; [exact E|]. cbn [temperature humidity luminosity].
  split; [|split].
  - apply (py_round2_between (-40) 80); try (vm_compute; reflexivity); tauto.
  - apply (py_round2_between 0 100); try (vm_compute; reflexivity); tauto.
  - apply (py_round2_between 0 100); try (vm_compute; reflexivity); tauto.
Qed.

(** C10. Every reading of [read_mpu6050] has ax, ay in [-500, 500] and az
    in [800, 1200], so its magnitude sqrt(ax^2 + ay^2 + az^2) is at most
    sqrt(500^2 + 500^2 + 1200^2), which is below 2000; hence on a record
    produced by [collect_data] the vibration branch of [analyze_data] is
    never taken. *)
Theorem vibration_alert_unreachable self w :
  (exists m w',
     read_mpu6050 w = (Ok m, w') /\
     (-500 <= ax m <= 500)%Z /\ (-500 <= ay m <= 500)%Z /\ (800 <= az m <= 1200)%Z /\
     (sqrt (IZR (ax m ^ 2 + ay m ^ 2 + az m ^ 2))
        <= sqrt (IZR (500 ^ 2 + 500 ^ 2 + 1200 ^ 2)))%R /\
     (sqrt (IZR (500 ^ 2 + 500 ^ 2 + 1200 ^ 2)) < 2000)%R /\
     np_sqrt (ax m ^ 2 + ay m ^ 2 + az m ^ 2) < 2000) /\
  (exists data w',
     collect_data np_sin isoformat self w = (Ok data, w') /\
     ~ In ALERT_VIBRATION (analyze_data self data)).
Proof.
  assert (Hmag : forall m : mpu,
    (-500 <= ax m <= 500)%Z -> (-500 <= ay m <= 500)%Z -> (800 <= az m <= 1200)%Z ->
    (ax m ^ 2 + ay m ^ 2 + az m ^ 2 <= 1940000)%Z).
  { intros m Hx Hy Hz. rewrite !Z.pow_2_r. nia. }
  assert (Hsmall : forall s, (s <= 1940000)%Z -> np_sqrt s < 2000).
  { intros s Hs. apply np_sqrt_mono in Hs.
    assert (np_sqrt 1940000 < 2000) by (vm_compute; reflexivity). lra. }
  split.
  - destruct (read_mpu6050_runs w) as (m & w' & E & Hx & Hy & Hz).
    exists m, w'. repeat (split; [assumption|]).
    pose proof (Hmag m Hx Hy Hz) as Hs.
    change (500 ^ 2 + 500 ^ 2 + 1200 ^ 2)%Z with 1940000%Z.
    split; [|split].
    + apply sqrt_le_1_alt, IZR_le, Hs.
    + apply Rnot_le_lt. intros Hc.
      assert (H2 : (IZR 1999 < sqrt (IZR 1940000))%R).
      { eapply Rlt_le_trans; [apply IZR_lt|exact Hc]. lia. }
      apply real_sqrt_gt in H2; lia.
    + apply Hsmall, Hs.
  - destruct (collect_data_runs self w)
      as (ts & w1 & temp & hum & w2 & m & w3 & light & w4 & utc & w' &
          E0 & E1 & E2 & E3 & E4 & E).
    destruct (read_mpu6050_runs w2) as (m' & w3' & E2' & Hx & Hy & Hz).
    rewrite E2 in E2'. inversion E2'; subst m' w3'. clear E2'.
    eexists _, _. split; [exact E|].
    rewrite analyze_data_eq. cbn [accel_x accel_y accel_z].
    pose proof (Hsmall _ (Hmag m Hx Hy Hz)) as Hlt.
    destruct (Qltb 2000 _) eqn:Ev.
    + apply Qltb_spec in Ev. exfalso. lra.
    + destruct alerts_distinct as (D1 & D2 & D3 & D4 & D5 & D6).
      rewrite !in_app_iff.
      destruct (Qltb 35 _), (Qltb 80 _), (Qltb _ 10); cbn [In]; intuition congruence.
Qed.

End Runs.

End ESP32SimulatorFacts.

(** ** The database classes *)

Module DBFacts.
Import Schema Py PyFacts DB.

Lemma uuid4_run w : uuid4 w = (Ok (next_uuid w), after_draw w).
Proof. reflexivity. Qed.

Lemma has_id_false {A} (key : A -> string) id rows :
  has_id key id rows = false <-> ~ In id (map key rows).
Proof.
  unfold has_id. induction rows as [|r rows IH]; simpl.
  - tauto.
  - rewrite orb_false_iff, IH. rewrite String.eqb_neq. tauto.
Qed.

(** The world after a failed [execute_query]: the message is printed and
    the transaction rolled back. *)
Definition failed (e : exn) (w : world) : world :=
  after_rollback (after_print ("Erro ao executar query: " +:+ exn_str e) w).

(** A statement never touches the committed state, the console or the
    clock, and a statement that raises leaves the transaction as it was. *)
Lemma cursor_execute_frame {R} (s : stmt R) w r w1 :
  cursor_execute s w = (r, w1) ->
  committed w1 = committed w /\ stdout w1 = stdout w /\
  clock w1 = clock w /\ ticks w1 = ticks w /\ entropy w1 = entropy w /\
  (forall e, r = Raise e -> working w1 = working w).
Proof.
  destruct s; unfold cursor_execute, row_id, get_working, put_working, uuid4, draw, raise;
    cbv [mbind mret Py_bind Py_ret]; cbn [working committed stdout clock ticks entropy drawn].
  all: repeat match goal with
         | |- context [match ?o with Some _ => _ | None => _ end] => destruct o
         | |- context [if ?b then _ else _] => destruct b
         end;
       cbv [mbind mret Py_bind Py_ret set_working];
       intros H; inversion H; subst; cbn; repeat split; intros; congruence.
Qed.

(** C4. Whenever the SQL execution inside [execute_query] raises, in
    either class, the method prints the exception, rolls the transaction
    back, so that the committed database state is what it was before the
    call and the connection sees exactly that state again, and re-raises
    the same exception; the statement is attempted once and nothing else
    is tried. *)
Theorem execute_query_failure {R} (q : query R) w e w1 :
  cursor_execute (sem q) w = (Raise e, w1) ->
  DatabaseConnection.execute_query q w = (Raise e, failed e w1) /\
  SQLiteConnection.execute_query q w = (Raise e, failed e w1) /\
  stdout (failed e w1) = stdout w ++ ["Erro ao executar query: " +:+ exn_str e] /\
  committed (failed e w1) = committed w /\
  working (failed e w1) = committed w.
Proof.
  intros H.
  destruct (cursor_execute_frame _ _ _ _ H) as (Hc & Ho & _).
  split; [|split].
  - unfold DatabaseConnection.execute_query, try_except.
    rewrite (bind_raise _ _ _ _ _ H). reflexivity.
  - unfold SQLiteConnection.execute_query, try_except.
    rewrite (bind_raise _ _ _ _ _ H). reflexivity.
  - unfold failed, after_rollback, after_print.
    cbn [stdout committed working]. rewrite Hc, Ho. auto.
Qed.

(** What one [create_reading] call does, in full. *)
Definition duplicate_id : exn := IntegrityError "UNIQUE constraint failed: reading.id".

Lemma pg_create_reading_run sid ts v w :
  DatabaseConnection.create_reading sid ts v w =
    if has_id reading_id (next_uuid w) (reading (working w))
    then (Raise duplicate_id, failed duplicate_id (after_draw w))
    else (Ok (next_uuid w),
          set_working (add_reading (mk_reading (next_uuid w) sid ts v) (working w))
            (after_draw w)).
Proof.
  unfold DatabaseConnection.create_reading, DatabaseConnection.execute_query,
    try_except, cursor_execute, row_id, get_working, put_working, first_row.
  cbn [sem]. cbv [mbind mret Py_bind Py_ret]. rewrite uuid4_run.
  cbn [working after_draw].
  destruct (has_id reading_id (next_uuid w) (reading (working w))); reflexivity.
Qed.

Lemma sqlite_create_reading_run sid ts v w :
  SQLiteConnection.create_reading sid ts v w =
    if has_id reading_id (next_uuid w) (reading (working w))
    then (Raise duplicate_id, failed duplicate_id (after_draw w))
    else (Ok (next_uuid w),
          after_commit
            (set_working (add_reading (mk_reading (next_uuid w) sid ts v) (working w))
               (after_draw w))).
Proof.
  unfold SQLiteConnection.create_reading, SQLiteConnection.execute_query,
    try_except, cursor_execute, row_id, get_working, put_working.
  cbn [sem text]. cbv [mbind mret Py_bind Py_ret]. rewrite uuid4_run.
  cbn [working after_draw].
  destruct (has_id reading_id (next_uuid w) (reading (working w))); reflexivity.
Qed.

(** A call returns as soon as the identifier it draws is new: no other
    row, whatever its sensor, timestamp and value, can make it fail. *)
Lemma create_reading_returns c sid ts v w :
  ~ In (next_uuid w) (map reading_id (reading (working w))) ->
  exists w', create_reading c sid ts v w = (Ok (next_uuid w), w').
Proof.
  intros H. apply has_id_false in H.
  destruct c; cbn [create_reading];
    rewrite ?pg_create_reading_run, ?sqlite_create_reading_run, H; eauto.
Qed.

Lemma create_reading_Ok c sid ts v w i w' :
  create_reading c sid ts v w = (Ok i, w') ->
  i = next_uuid w /\
  ~ In i (map reading_id (reading (working w))) /\
  working w' = add_reading (mk_reading i sid ts v) (working w) /\
  drawn w' = S (drawn w) /\ stdout w' = stdout w /\
  committed w' = match c with PostgreSQL => committed w | SQLite => working w' end.
Proof.
  intros H.
  destruct c; cbn [create_reading] in H;
    rewrite ?pg_create_reading_run, ?sqlite_create_reading_run in H;
    destruct (has_id reading_id (next_uuid w) (reading (working w))) eqn:E;
    try discriminate H; apply has_id_false in E;
    inversion H; subst; repeat split; auto.
Qed.


(** A connection with nothing stored. *)
Definition fresh_world : world :=
  mk_world (fun _ => 0%Z) 0 (fun n => Z.of_nat n) 0 [] empty_db empty_db.

(** A PostgreSQL connection with one reading inserted and not yet
    committed. *)
Definition pending_world : world :=
  snd (DatabaseConnection.create_reading "sensor-1" 0 (1 # 2) fresh_world).

Lemma execute_query_failure_witness :
  let q := mk_query "DROP TABLE" (Rejected "near DROP: syntax error") in
  let e := OperationalError "near DROP: syntax error" in
  cursor_execute (sem q) pending_world = (Raise e, pending_world) /\
  DatabaseConnection.execute_query q pending_world = (Raise e, failed e pending_world) /\
  SQLiteConnection.execute_query q pending_world = (Raise e, failed e pending_world) /\
  stdout (failed e pending_world) =
    stdout pending_world ++ ["Erro ao executar query: " +:+ exn_str e] /\
  committed (failed e pending_world) = committed pending_world /\
  working (failed e pending_world) = committed pending_world.
Proof.
  intros q e. split; [reflexivity|].
  exact (execute_query_failure q pending_world e pending_world eq_refl).
Defined.


(** The two classes side by side. *)

Lemma get_sensor_readings_same sid limit w :
  DatabaseConnection.get_sensor_readings sid limit w =
  SQLiteConnection.get_sensor_readings sid limit w.
Proof. reflexivity. Qed.

Lemma get_sensor_readings_run sid limit w :
  SQLiteConnection.get_sensor_readings sid limit w =
    (Ok (DataFrame (take limit
                      (map (fun r => (reading_ts r, reading_value r))
                         (order_by ts_desc (readings_of sid (working w)))))), w).
Proof.
  unfold SQLiteConnection.get_sensor_readings, SQLiteConnection.execute_query,
    try_except, cursor_execute, get_working.
  cbn [sem text]. cbv [mbind mret Py_bind Py_ret]. cbn [SQLiteConnection.fetchall].
  destruct w; cbn [working].
  destruct (take limit _); reflexivity.
Qed.

Definition duplicate_asset : exn := IntegrityError "UNIQUE constraint failed: asset.id".
Definition duplicate_sensor : exn := IntegrityError "UNIQUE constraint failed: sensor.id".

Lemma pg_create_asset_run a w :
  DatabaseConnection.create_asset a w =
    if has_id asset_id (next_uuid w) (asset (working w))
    then (Raise duplicate_asset, failed duplicate_asset (after_draw w))
    else (Ok (next_uuid w),
          set_working (add_asset (mk_asset (next_uuid w) (name a) (location a))
                         (working w)) (after_draw w)).
Proof.
  unfold DatabaseConnection.create_asset, DatabaseConnection.execute_query,
    try_except, cursor_execute, row_id, get_working, put_working, first_row.
  cbn [sem]. cbv [mbind mret Py_bind Py_ret]. rewrite uuid4_run.
  cbn [working after_draw].
  destruct (has_id asset_id (next_uuid w) (asset (working w))); reflexivity.
Qed.

Lemma sqlite_create_asset_run a w :
  SQLiteConnection.create_asset a w =
    if has_id asset_id (next_uuid w) (asset (working w))
    then (Raise duplicate_asset, failed duplicate_asset (after_draw w))
    else (Ok (next_uuid w),
          after_commit
            (set_working (add_asset (mk_asset (next_uuid w) (name a) (location a))
                            (working w)) (after_draw w))).
Proof.
  unfold SQLiteConnection.create_asset, SQLiteConnection.execute_query,
    try_except, cursor_execute, row_id, get_working, put_working.
  cbn [sem text]. cbv [mbind mret Py_bind Py_ret]. rewrite uuid4_run.
  cbn [working after_draw].
  destruct (has_id asset_id (next_uuid w) (asset (working w))); reflexivity.
Qed.

Lemma pg_create_sensor_run aid s w :
  DatabaseConnection.create_sensor aid s w =
    if has_id sensor_id (next_uuid w) (sensor (working w))
    then (Raise duplicate_sensor, failed duplicate_sensor (after_draw w))
    else (Ok (next_uuid w),
          set_working (add_sensor (mk_sensor (next_uuid w) aid (sd_name s) (sd_type s)
                                     (sd_unit s) (sd_min_value s) (sd_max_value s))
                         (working w)) (after_draw w)).
Proof.
  unfold DatabaseConnection.create_sensor, DatabaseConnection.execute_query,
    try_except, cursor_execute, row_id, get_working, put_working, first_row.
  cbn [sem]. cbv [mbind mret Py_bind Py_ret]. rewrite uuid4_run.
  cbn [working after_draw].
  destruct (has_id sensor_id (next_uuid w) (sensor (working w))); reflexivity.
Qed.

Lemma sqlite_create_sensor_run aid s w :
  SQLiteConnection.create_sensor aid s w =
    if has_id sensor_id (next_uuid w) (sensor (working w))
    then (Raise duplicate_sensor, failed duplicate_sensor (after_draw w))
    else (Ok (next_uuid w),
          after_commit
            (set_working (add_sensor (mk_sensor (next_uuid w) aid (sd_name s) (sd_type s)
                                        (sd_unit s) (sd_min_value s) (sd_max_value s))
                            (working w)) (after_draw w))).
Proof.
  unfold SQLiteConnection.create_sensor, SQLiteConnection.execute_query,
    try_except, cursor_execute, row_id, get_working, put_working.
  cbn [sem text]. cbv [mbind mret Py_bind Py_ret]. rewrite uuid4_run.
  cbn [working after_draw].
  destruct (has_id sensor_id (next_uuid w) (sensor (working w))); reflexivity.
Qed.

Lemma pg_get_database_stats_run w :
  DatabaseConnection.get_database_stats w =
    (Ok [("asset_count", SCount (Z.of_nat (length (asset (working w)))));
         ("sensor_count", SCount (Z.of_nat (length (sensor (working w)))));
         ("reading_count", SCount (Z.of_nat (length (reading (working w)))));
         ("last_reading", STime (max_ts (reading (working w))));
         ("first_reading", STime (min_ts (reading (working w))))], w).
Proof. destruct w. reflexivity. Qed.

Lemma sqlite_get_database_stats_run w :
  SQLiteConnection.get_database_stats w =
    (Ok [("asset_count", SCount (Z.of_nat (length (asset (working w)))));
         ("sensor_count", SCount (Z.of_nat (length (sensor (working w)))));
         ("reading_count", SCount (Z.of_nat (length (reading (working w)))));
         ("alert_count", SCount (Z.of_nat (length (alert (working w)))));
         ("prediction_count", SCount (Z.of_nat (length (prediction (working w)))));
         ("last_reading", STime (max_ts (reading (working w))))], w).
Proof. destruct w. reflexivity. Qed.

(** Two outcomes look the same from the connection: same result or
    exception, same visible tables, same console, same draws.  Which
    part of the visible state is durable is not compared. *)
Definition same_outcome {A} (x y : result A * world) : Prop :=
  fst x = fst y /\ working (snd x) = working (snd y) /\
  stdout (snd x) = stdout (snd y) /\ drawn (snd x) = drawn (snd y).


Lemma shared_methods :
  filter (.∈ DatabaseConnection.methods) SQLiteConnection.methods =
    ["connect"; "close"; "execute_query"; "create_asset"; "create_sensor";
     "create_reading"; "get_sensor_readings"; "get_latest_readings";
     "get_database_stats"].
Proof. vm_compute. reflexivity. Qed.


End DBFacts.

(** ** The data collector *)

Module DataCollectorFacts.
Import Py PyFacts DataCollector.

Section Collector.

Variable fromisoformat : string -> option Z.
Variable pow_half : Z -> Q.

(** The four readings made from one record, in the order they are appended. *)
Definition readings_of_record (st sh sl sv : string)
    (record : ESP32Simulator.record) (timestamp : Z) : list reading :=
  [mk_reading st timestamp (ESP32Simulator.temperature record);
   mk_reading sh timestamp (ESP32Simulator.humidity record);
   mk_reading sl timestamp (ESP32Simulator.luminosity record);
   mk_reading sv timestamp
     (pow_half (ESP32Simulator.accel_x record ^ 2 + ESP32Simulator.accel_y record ^ 2
                + ESP32Simulator.accel_z record ^ 2))].

Lemma length_concat_fours {A} (ll : list (list A)) :
  Forall (fun l => length l = 4) ll -> length (concat ll) = 4 * length ll.
Proof.
  induction 1 as [|l ll Hl _ IH]; cbn [concat length]; [reflexivity|].
  rewrite length_app, Hl, IH. lia.
Qed.


(** Before [setup_assets_and_sensors] has filled [sensor_ids], the first
    record already makes the method raise. *)
Lemma process_esp32_data_without_setup self record rest timestamp w :
  sensor_ids self !! "S_TEMP" = None ->
  fromisoformat (ESP32Simulator.datetime record) = Some timestamp ->
  process_esp32_data fromisoformat pow_half self (record :: rest) w
    = (Raise (KeyError "S_TEMP"), w).
Proof.
  intros Hid Hts. unfold process_esp32_data. cbn [for_each].
  apply bind_raise.
  unfold datetime_fromisoformat, dict_getitem. rewrite Hts, Hid. reflexivity.
Qed.

End Collector.

Definition demo_collector : t :=
  mk_collector DB.PostgreSQL (Some "asset-1")
    (<["S_TEMP" := "id-t"]> (<["S_HUMIDITY" := "id-h"]>
       (<["S_LIGHT" := "id-l"]> (<["S_VIBRATION" := "id-v"]> ∅)))).

Definition demo_record (t : Z) : ESP32Simulator.record :=
  ESP32Simulator.mk_record t 25 55 50 3 4 1000 0 0 0 "2024-01-20T10:00:00+00:00".


End DataCollectorFacts.

(** ** The ML components *)

Module MLFacts.
Import Float FloatFacts Schema Py PyFacts DB DBFacts ML.
Local Open Scope Q_scope.

(** *** Frames *)

Lemma insert_sorted_length {A} (le : A -> A -> bool) x l :
  length (insert_sorted le x l) = S (length l).
Proof.
  induction l as [|y l IH]; cbn [insert_sorted length]; [reflexivity|].
  destruct (le x y); cbn [length]; [reflexivity | rewrite IH; reflexivity].
Qed.

Lemma order_by_length {A} (le : A -> A -> bool) l :
  length (order_by le l) = length l.
Proof.
  unfold order_by. induction l as [|x l IH]; cbn [foldr length]; [reflexivity|].
  rewrite insert_sorted_length, IH. reflexivity.
Qed.

Lemma sort_values_length df : length (sort_values df) = length df.
Proof. apply order_by_length. Qed.

(** The rows that survive [dropna]: one per row from the third on, with
    the values of the two rows before it. *)
Fixpoint lag_rows_from (va vb : Q) (t : frame) : list full_row :=
  match t with
  | [] => []
  | c :: t' =>
      mk_full (ts c) (value c) vb va ((va + vb + value c) / 3) (hour_of (ts c))
      :: lag_rows_from vb (value c) t'
  end.

Fixpoint lag_rows (df : frame) : list full_row :=
  match df with
  | [] => []
  | a :: t =>
      match t with
      | b :: c :: _ =>
          mk_full (ts c) (value c) (value b) (value a)
            ((value a + value b + value c) / 3) (hour_of (ts c))
          :: lag_rows t
      | _ => []
      end
  end.

Lemma lag_rows_from_eq a b t :
  lag_rows (a :: b :: t) = lag_rows_from (value a) (value b) t.
Proof.
  revert a b. induction t as [|c t IH]; intros a b; [reflexivity|].
  cbn [lag_rows_from]. rewrite <- IH. reflexivity.
Qed.

Lemma dropna_columns_from va vb t :
  dropna (columns t
            (take (length t) (Some vb :: map Some (map value t)))
            (take (length t) (Some va :: Some vb :: map Some (map value t)))
            (rolling3_from va vb (map value t)))
  = lag_rows_from va vb t.
Proof.
  revert va vb. induction t as [|c t IH]; intros va vb; [reflexivity|].
  cbn [length map take firstn rolling3_from columns lag_rows_from].
  change (dropna (?r :: ?l)) with
    (match lag1 r, lag2 r, roll3 r with
     | Some a, Some b, Some c0 => [mk_full (row_ts r) (row_value r) a b c0 (hour r)]
     | _, _, _ => []
     end ++ dropna l).
  cbn [lag1 lag2 roll3 row_ts row_value hour app].
  f_equal. apply IH.
Qed.

Lemma dropna_add_features df : dropna (add_features df) = lag_rows df.
Proof.
  destruct df as [|a [|b t]]; try reflexivity.
  rewrite lag_rows_from_eq.
  unfold add_features, shift, rolling3_mean.
  cbn [map length replicate app take firstn columns].
  change (dropna (?r1 :: ?r2 :: ?l)) with
    (match lag1 r1, lag2 r1, roll3 r1 with
     | Some a, Some b, Some c0 => [mk_full (row_ts r1) (row_value r1) a b c0 (hour r1)]
     | _, _, _ => []
     end ++
     match lag1 r2, lag2 r2, roll3 r2 with
     | Some a, Some b, Some c0 => [mk_full (row_ts r2) (row_value r2) a b c0 (hour r2)]
     | _, _, _ => []
     end ++ dropna l).
  cbn [lag1 lag2 roll3 app].
  rewrite <- (dropna_columns_from (value a) (value b) t).
  rewrite !length_map. reflexivity.
Qed.

Lemma lag_rows_from_length va vb t : length (lag_rows_from va vb t) = length t.
Proof.
  revert va vb. induction t as [|c t IH]; intros; cbn; [reflexivity|].
  rewrite IH. reflexivity.
Qed.

Lemma lag_rows_length df : length (lag_rows df) = (length df - 2)%nat.
Proof.
  destruct df as [|a [|b t]]; try reflexivity.
  rewrite lag_rows_from_eq. cbn [length]. rewrite lag_rows_from_length. lia.
Qed.

(** Row [i] of the surviving rows is made from rows [i], [i+1], [i+2]
    of the frame. *)
Lemma lag_rows_lookup df i :
  lag_rows df !! i =
    match df !! i, df !! S i, df !! S (S i) with
    | Some a, Some b, Some c =>
        Some (mk_full (ts c) (value c) (value b) (value a)
                ((value a + value b + value c) / 3) (hour_of (ts c)))
    | _, _, _ => None
    end.
Proof.
  revert i. induction df as [|a t IH]; intros i; [reflexivity|].
  destruct i as [|i].
  - destruct t as [|b [|c t]]; reflexivity.
  - change ((a :: t) !! S i) with (t !! i).
    change ((a :: t) !! S (S i)) with (t !! S i).
    change ((a :: t) !! S (S (S i))) with (t !! S (S i)).
    rewrite <- IH. destruct t as [|b [|c t]]; destruct i; reflexivity.
Qed.

(** The kept rows are the frame without its first two rows. *)
Lemma lag_rows_samples df :
  map (fun r => mk_sample (f_ts r) (f_value r)) (lag_rows df) = drop 2 df.
Proof.
  induction df as [|a t IH]; [reflexivity|].
  destruct t as [|b [|c t]]; try reflexivity.
  change (lag_rows (a :: b :: c :: t)) with
    (mk_full (ts c) (value c) (value b) (value a)
       ((value a + value b + value c) / 3) (hour_of (ts c)) :: lag_rows (b :: c :: t)).
  cbn [map f_ts f_value]. rewrite IH. destruct c; reflexivity.
Qed.

(** The feature vector [lag1, lag2, roll3, hour] of a kept row. *)
Definition feature_vector (r : full_row) : list Q :=
  [f_lag1 r; f_lag2 r; f_roll3 r; inject_Z (f_hour r)].

Lemma select_features df w :
  select ["lag1"; "lag2"; "roll3"; "hour"] df w = (Ok (map feature_vector df), w).
Proof. reflexivity. Qed.

(** *** Reads on the SQLite connection *)

Lemma by_name_run name limit w :
  SQLiteConnection.get_sensor_readings_by_name name limit w =
    (Ok (DataFrame (take limit
                      (map (fun r => (reading_ts r, reading_value r))
                         (order_by ts_desc (readings_by_name name (working w)))))), w).
Proof.
  unfold SQLiteConnection.get_sensor_readings_by_name, SQLiteConnection.execute_query,
    try_except, cursor_execute, get_working.
  cbn [sem text]. cbv [mbind mret Py_bind Py_ret]. cbn [SQLiteConnection.fetchall].
  destruct w; cbn [working].
  destruct (take limit _); reflexivity.
Qed.

Lemma by_name_Ok c name limit w df w1 :
  get_sensor_readings_by_name c name limit w = (Ok df, w1) ->
  c = SQLite /\ w1 = w /\ (length df <= limit)%nat /\
  df = DataFrame (take limit
                    (map (fun r => (reading_ts r, reading_value r))
                       (order_by ts_desc (readings_by_name name (working w))))).
Proof.
  destruct c; cbn [get_sensor_readings_by_name]; [discriminate|].
  rewrite by_name_run. intros H. inversion H; subst.
  repeat split. unfold DataFrame. rewrite length_map, length_take. lia.
Qed.

Lemma sensor_id_run name w :
  SQLiteConnection.get_sensor_id_by_name name w =
    (Ok (head (map sensor_id
                 (filter (fun s => Schema.sensor_name s = name) (sensor (working w))))), w).
Proof.
  unfold SQLiteConnection.get_sensor_id_by_name, SQLiteConnection.execute_query,
    try_except, cursor_execute, get_working.
  cbn [sem text]. cbv [mbind mret Py_bind Py_ret]. cbn [SQLiteConnection.fetchall].
  destruct w; cbn [working].
  destruct (map sensor_id _); reflexivity.
Qed.

Definition duplicate_prediction : exn :=
  IntegrityError "UNIQUE constraint failed: prediction.id".
Definition null_sensor : exn :=
  IntegrityError "NOT NULL constraint failed: prediction.sensor_id".

Lemma create_prediction_run sid v conf ver w :
  SQLiteConnection.create_prediction sid v conf ver w =
    match sid with
    | None => (Raise null_sensor, failed null_sensor (after_draw w))
    | Some s =>
        if has_id prediction_id (next_uuid w) (prediction (working w))
        then (Raise duplicate_prediction, failed duplicate_prediction (after_draw w))
        else (Ok (next_uuid w),
              after_commit
                (set_working
                   (add_prediction (mk_prediction (next_uuid w) s v conf ver) (working w))
                   (after_draw w)))
    end.
Proof.
  unfold SQLiteConnection.create_prediction, SQLiteConnection.execute_query,
    try_except, cursor_execute, row_id, get_working, put_working.
  cbn [sem text]. cbv [mbind mret Py_bind Py_ret]. rewrite uuid4_run.
  cbn [working after_draw].
  destruct sid as [s|]; [|reflexivity].
  destruct (has_id prediction_id (next_uuid w) (prediction (working w))); reflexivity.
Qed.

(** *** The split index *)

(** [int(n * (1 - 0.2))], computed in binary64, is [floor (4 n / 5)] for
    every row count the training query can deliver. *)
Lemma split_index_default n :
  (n <= 1000)%nat ->
  py_int (fmul (inject_Z (Z.of_nat n)) (fsub 1 lit_0_2)) = (4 * Z.of_nat n / 5)%Z.
Proof.
  intros Hn.
  assert (H : forallb (fun n => (py_int (fmul (inject_Z (Z.of_nat n)) (fsub 1 lit_0_2))
                                 =? 4 * Z.of_nat n / 5)%Z) (seq 0 1001) = true)
    by (vm_compute; reflexivity).
  rewrite forallb_forall in H. apply Z.eqb_eq, H, in_seq. lia.
Qed.

Section Learner.

Variable model : Type.
Variable fit_linear : list (list Q) -> list Q -> model.
Variable fit_forest : list (list Q) -> list Q -> model.
Variable predict_row : model -> list Q -> Q.
Variable mean_absolute_error : list Q -> list Q -> Q.
Variable r2_score : list Q -> list Q -> Q.
Variable mean_squared_error : list Q -> list Q -> Q.
Variable importances : model -> list Q.
Variable std_over_mean : list Q -> npfloat.
Variable isoformat : Z -> string.

Lemma dict_get_set k (v : model) d : dict_get k (dict_set k v d) = Some v.
Proof.
  induction d as [|[k' v'] d IH]; cbn [dict_set dict_get].
  - rewrite String.eqb_refl. reflexivity.
  - destruct (String.eqb k' k) eqn:E; cbn [dict_get].
    + rewrite String.eqb_refl. reflexivity.
    + rewrite E. exact IH.
Qed.

Lemma check_array_nonempty {A} (l : list A) w :
  (0 < length l)%nat -> check_array l w = (Ok tt, w).
Proof. destruct l; cbn [length]; [lia | reflexivity]. Qed.

(** [prepare_training_data], once the readings are fetched. *)
Lemma prepare_training_data_run (self : trainer model) name limit w sensor_data w1 :
  trainer_feature_columns self = ["lag1"; "lag2"; "roll3"; "hour"] ->
  get_sensor_readings_by_name (trainer_db self) name limit w = (Ok sensor_data, w1) ->
  let kept := lag_rows (sort_values sensor_data) in
  prepare_training_data self name limit w =
    match sensor_data with
    | [] => (Raise (ValueError ("Nenhum dado encontrado para o sensor " +:+ name)), w1)
    | _ =>
        if (length kept <? 10)%nat
        then (Raise (ValueError ("Dados insuficientes para treinamento: "
                                 +:+ pretty (length kept) +:+ " registros")), w1)
        else (Ok (map feature_vector kept, map f_value kept), w1)
    end.
Proof.
  intros Hcols H kept. unfold prepare_training_data.
  rewrite (bind_step _ _ _ _ _ H).
  destruct sensor_data as [|s0 rest]; [reflexivity|].
  rewrite dropna_add_features. fold kept.
  destruct (length kept <? 10)%nat; [reflexivity|].
  rewrite Hcols. reflexivity.
Qed.

(** C1, as amended.  When the fetched readings of a sensor form a frame
    of n rows, [prepare_training_data] returns for n >= 12 a feature
    matrix X and a target y of exactly n - 2 rows each, made from the
    frame sorted by timestamp without its first two rows (the rows where
    lag1, lag2 or roll3 is undefined); for n < 12 it returns nothing and
    raises [ValueError]. *)
Theorem prepare_training_data_rows (self : trainer model) name limit w sensor_data w1 :
  trainer_feature_columns self = ["lag1"; "lag2"; "roll3"; "hour"] ->
  get_sensor_readings_by_name (trainer_db self) name limit w = (Ok sensor_data, w1) ->
  let n := length sensor_data in
  let kept := lag_rows (sort_values sensor_data) in
  if (12 <=? n)%nat
  then
    exists X y,
      prepare_training_data self name limit w = (Ok (X, y), w1) /\
      length X = (n - 2)%nat /\ length y = (n - 2)%nat /\
      X = map feature_vector kept /\ y = map f_value kept /\
      map (fun r => mk_sample (f_ts r) (f_value r)) kept =
        drop 2 (sort_values sensor_data)
  else
    exists msg, prepare_training_data self name limit w = (Raise (ValueError msg), w1).
Proof.
  intros Hcols H n kept.
  pose proof (prepare_training_data_run self name limit w sensor_data w1 Hcols H) as Hrun.
  cbv zeta in Hrun. fold kept in Hrun.
  assert (Hlen : length kept = (n - 2)%nat).
  { unfold kept. rewrite lag_rows_length, sort_values_length. reflexivity. }
  destruct (12 <=? n)%nat eqn:En.
  - apply Nat.leb_le in En.
    destruct sensor_data as [|s0 rest]; [cbn in n; lia|].
    assert (E10 : (length kept <? 10)%nat = false) by (apply Nat.ltb_ge; lia).
    rewrite E10 in Hrun.
    eexists _, _. split; [exact Hrun|].
    rewrite !length_map. repeat split; try assumption.
    apply lag_rows_samples.
  - apply Nat.leb_gt in En.
    destruct sensor_data as [|s0 rest]; [eexists; exact Hrun|].
    assert (E10 : (length kept <? 10)%nat = true) by (apply Nat.ltb_lt; lia).
    rewrite E10 in Hrun. eexists; exact Hrun.
Qed.


(** *** Persisting a prediction *)

Lemma sensor_id_Ok c name w sid w1 :
  get_sensor_id_by_name c name w = (Ok sid, w1) ->
  w1 = w /\
  sid = head (map sensor_id
                (filter (fun s => Schema.sensor_name s = name) (sensor (working w)))).
Proof.
  destruct c; cbn [get_sensor_id_by_name]; [discriminate|].
  rewrite sensor_id_run. intros H. inversion H; subst. split; reflexivity.
Qed.

Lemma create_prediction_Ok c sid v conf ver w pid w1 :
  create_prediction c sid v conf ver w = (Ok pid, w1) ->
  exists s,
    sid = Some s /\
    w1 = after_commit
           (set_working (add_prediction (mk_prediction pid s v conf ver) (working w))
              (after_draw w)).
Proof.
  destruct c; cbn [create_prediction]; [discriminate|].
  rewrite create_prediction_run. destruct sid as [s|]; [|discriminate].
  destruct (has_id _ _ _); [discriminate|].
  intros H. inversion H; subst. exists s. split; reflexivity.
Qed.

Lemma first_prediction_Ok (m : model) X w p w1 :
  first_prediction predict_row m X w = (Ok p, w1) ->
  w1 = w /\ exists x, head X = Some x /\ p = predict_row m x.
Proof.
  unfold first_prediction. destruct X as [|x X]; [discriminate|].
  cbv [check_array first_row predict mbind mret Py_bind Py_ret]. cbn [map].
  intros H. inversion H; subst. split; [reflexivity|]. exists x. split; reflexivity.
Qed.

Lemma select_world names df w X w1 : select names df w = (Ok X, w1) -> w1 = w.
Proof.
  unfold select. destruct (forallb _ names); [|discriminate].
  intros H. inversion H. reflexivity.
Qed.

Lemma prepare_features_Ok (self : predictor model) name lookback w feats w1 :
  prepare_features self name lookback w = (Ok feats, w1) -> w1 = w.
Proof.
  unfold prepare_features. intros H.
  apply bind_Ok in H as (df & w0 & H0 & H).
  apply by_name_Ok in H0 as (_ & -> & _).
  destruct df; [discriminate|].
  destruct (dropna _); [discriminate|].
  eapply select_world; eauto.
Qed.

Lemma find_best_model_world (self : predictor model) name w r w1 :
  find_best_model self name w = (r, w1) -> w1 = w.
Proof.
  unfold find_best_model.
  destruct (filter _ (map fst (predictor_models self))) as [|first rest];
    [intros H; inversion H; reflexivity|].
  destruct (filter _ (first :: rest)); intros H; inversion H; reflexivity.
Qed.

Lemma get_best_model_world (self : trainer model) name w r w1 :
  get_best_model self name w = (r, w1) -> w1 = w.
Proof.
  unfold get_best_model.
  repeat match goal with
         | |- context [if ?b then _ else _] => destruct b
         end; intros H; inversion H; reflexivity.
Qed.

Lemma iloc_back_world {A} k (l : list A) w x w1 :
  iloc_back k l w = (Ok x, w1) -> w1 = w.
Proof.
  unfold iloc_back. destruct (l !! _); [|discriminate].
  destruct (k <=? length l)%nat; [|discriminate].
  intros H. inversion H. reflexivity.
Qed.

Lemma now_Ok w t w1 :
  now w = (Ok t, w1) -> working w1 = working w /\ committed w1 = committed w.
Proof. intros H. inversion H. split; reflexivity. Qed.

(** C8.  Every prediction that [MLPredictor.predict_single_value] or
    [MLModelTrainer.predict_next_value] persists is one new row of the
    prediction table, committed with the call, tied to the id of the
    (first) sensor of that name, carrying exactly the value the model
    used predicted, a confidence (0.8 for the trainer) and the model
    version "v1.0"; the returned dict reports that same predicted value
    for the same sensor name.  No other table changes. *)
Theorem predictions_persisted :
  (forall (self : predictor model) name model_name w res w1,
     predict_single_value predict_row std_over_mean isoformat self name model_name w
       = (Ok res, w1) ->
     exists pid sid conf m x,
       working w1 =
         add_prediction (mk_prediction pid sid (pr_predicted_value res) conf "v1.0")
           (working w) /\
       committed w1 = working w1 /\
       head (map sensor_id
               (filter (fun s => Schema.sensor_name s = name) (sensor (working w))))
         = Some sid /\
       dict_get (pr_model_used res) (predictor_models self) = Some m /\
       pr_predicted_value res = predict_row m x /\
       pr_confidence res = Some conf /\
       pr_sensor_name res = name) /\
  (forall (self : trainer model) name model_type w res w1,
     predict_next_value predict_row isoformat self name model_type w = (Ok res, w1) ->
     exists pid sid m x,
       working w1 =
         add_prediction (mk_prediction pid sid (pr_predicted_value res) lit_0_8 "v1.0")
           (working w) /\
       committed w1 = working w1 /\
       head (map sensor_id
               (filter (fun s => Schema.sensor_name s = name) (sensor (working w))))
         = Some sid /\
       dict_get (pr_model_used res) (trainer_models self) = Some m /\
       pr_predicted_value res = predict_row m x /\
       pr_sensor_name res = name).
Proof.
  split.
  - intros self name model_name w res w1 H. unfold predict_single_value in H.
    apply bind_Ok in H as (key & w0 & Hkey & H).
    assert (w0 = w) as ->.
    { destruct model_name; [inversion Hkey; reflexivity|].
      eapply find_best_model_world; eauto. }
    destruct (dict_get key (predictor_models self)) as [m|] eqn:Em; [|discriminate].
    apply bind_Ok in H as (feats & w2 & Hf & H).
    apply prepare_features_Ok in Hf as ->.
    apply bind_Ok in H as (p & w3 & Hp & H).
    apply first_prediction_Ok in Hp as (-> & x & _ & ->).
    apply bind_Ok in H as (recent & w4 & Hr & H).
    apply by_name_Ok in Hr as (_ & -> & _).
    apply bind_Ok in H as (values & w5 & Hv & H).
    assert (w5 = w) as -> by (destruct recent; inversion Hv; reflexivity).
    apply bind_Ok in H as (sid & w6 & Hs & H).
    apply sensor_id_Ok in Hs as (-> & Hsid).
    apply bind_Ok in H as (pid & w7 & Hc & H).
    apply create_prediction_Ok in Hc as (s & -> & ->).
    apply bind_Ok in H as (utc & w8 & Hn & H).
    apply now_Ok in Hn as (Hw & Hcm).
    inversion H; subst res w1. clear H.
    exists pid, s, (confidence_of (std_over_mean values)), m, x.
    cbn [pr_predicted_value pr_model_used pr_confidence pr_sensor_name].
    rewrite Hcm, Hw. cbn [after_commit set_working working committed after_draw].
    repeat split; auto.
  - intros self name model_type w res w1 H. unfold predict_next_value in H.
    apply bind_Ok in H as (key & w0 & Hkey & H).
    assert (w0 = w) as ->.
    { destruct (String.eqb model_type "auto"); [|inversion Hkey; reflexivity].
      eapply get_best_model_world; eauto. }
    destruct (dict_get key (trainer_models self)) as [m|] eqn:Em; [|discriminate].
    apply bind_Ok in H as (recent & w2 & Hr & H).
    apply by_name_Ok in Hr as (_ & -> & _).
    destruct recent as [|r0 recent]; [discriminate|].
    apply bind_Ok in H as (l1 & w3 & Hl1 & H).
    assert (w3 = w) as ->.
    { destruct (1 <? _)%nat; eapply iloc_back_world; eauto. }
    apply bind_Ok in H as (l2 & w4 & Hl2 & H).
    assert (w4 = w) as ->.
    { destruct (2 <? _)%nat; eapply iloc_back_world; eauto. }
    apply bind_Ok in H as (h & w5 & Hh & H).
    apply bind_Ok in Hh as (t & w6 & Hnow & Hret).
    apply now_Ok in Hnow as (Hw6 & Hc6). inversion Hret; subst h w5. clear Hret.
    apply bind_Ok in H as (p & w7 & Hp & H).
    apply first_prediction_Ok in Hp as (-> & x & _ & ->).
    apply bind_Ok in H as (sid & w8 & Hs & H).
    apply sensor_id_Ok in Hs as (-> & Hsid).
    apply bind_Ok in H as (pid & w9 & Hc & H).
    apply create_prediction_Ok in Hc as (s & -> & ->).
    apply bind_Ok in H as (utc & w10 & Hn & H).
    apply now_Ok in Hn as (Hw & Hcm).
    inversion H; subst res w1. clear H.
    exists pid, s, m, x.
    cbn [pr_predicted_value pr_model_used pr_confidence pr_sensor_name].
    rewrite Hcm, Hw. cbn [after_commit set_working working committed after_draw].
    rewrite Hw6 in Hsid |- *. repeat split; auto.
Qed.

End Learner.

(** *** Concrete runs *)

(** An SQLite database with one sensor, [S_TEMP], and [n] readings of
    it, one per minute, already committed. *)
Definition demo_db (n : nat) : db :=
  mk_db [mk_asset "asset-1" "Linha" "Setor A"]
    [mk_sensor "sensor-1" "asset-1" "S_TEMP" "temperature" "C" (-40) 80]
    (map (fun i => Schema.mk_reading (pretty i) "sensor-1" (Z.of_nat i * 60)
                     (inject_Z (Z.of_nat i)))
       (seq 0 n))
    [] [].

Definition demo_world (n : nat) : world :=
  mk_world (fun _ => 0%Z) 0 (fun n => Z.of_nat n) 0 [] (demo_db n) (demo_db n).

(** The frame the by-name query returns on [demo_world n]: newest first. *)
Definition demo_frame (n : nat) : frame :=
  map (fun i => mk_sample (Z.of_nat i * 60) (inject_Z (Z.of_nat i))) (rev (seq 0 n)).

(** A stand-in learner: the fitted model is the mean of the targets and
    predicts it for every row. *)
Definition demo_fit (X : list (list Q)) (y : list Q) : Q := series_mean y.
Definition demo_predict_row (m : Q) (x : list Q) : Q := m.
Definition demo_metric (a b : list Q) : Q := 0.
Definition demo_importances (m : Q) : list Q := [].
Definition demo_ratio (l : list Q) : npfloat := NaN.
Definition demo_isoformat (t : Z) : string := pretty t.

(** C1, as stated, fails: with five readings fetched the lag features
    are defined on three rows, and the method returns no X and y at all
    but raises. *)
Lemma prepare_training_data_five_rows :
  get_sensor_readings_by_name SQLite "S_TEMP" 1000 (demo_world 5)
    = (Ok (demo_frame 5), demo_world 5) /\
  length (demo_frame 5) = 5%nat /\
  length (dropna (add_features (sort_values (demo_frame 5)))) = 3%nat /\
  prepare_training_data (trainer_init (model := Q) SQLite) "S_TEMP" 1000 (demo_world 5)
    = (Raise (ValueError "Dados insuficientes para treinamento: 3 registros"),
       demo_world 5) /\
  ~ exists X y w1,
      prepare_training_data (trainer_init (model := Q) SQLite) "S_TEMP" 1000
        (demo_world 5) = (Ok (X, y), w1) /\
      length X = (5 - 2)%nat /\ length y = (5 - 2)%nat.
Proof.
  assert (H : prepare_training_data (trainer_init (model := Q) SQLite) "S_TEMP" 1000
                (demo_world 5)
              = (Raise (ValueError "Dados insuficientes para treinamento: 3 registros"),
                 demo_world 5)) by (vm_compute; reflexivity).
  split; [vm_compute; reflexivity|]. split; [reflexivity|].
  split; [vm_compute; reflexivity|]. split; [exact H|].
  intros (X & y & w1 & HOk & _). rewrite H in HOk. discriminate HOk.
Qed.

Lemma prepare_training_data_rows_witness :
  trainer_feature_columns (trainer_init (model := Q) SQLite)
    = ["lag1"; "lag2"; "roll3"; "hour"] /\
  get_sensor_readings_by_name SQLite "S_TEMP" 1000 (demo_world 12)
    = (Ok (demo_frame 12), demo_world 12) /\
  exists X y,
    prepare_training_data (trainer_init (model := Q) SQLite) "S_TEMP" 1000 (demo_world 12)
      = (Ok (X, y), demo_world 12) /\
    length X = 10%nat /\ length y = 10%nat.
Proof.
  assert (H : get_sensor_readings_by_name SQLite "S_TEMP" 1000 (demo_world 12)
              = (Ok (demo_frame 12), demo_world 12)) by (vm_compute; reflexivity).
  split; [reflexivity|]. split; [exact H|].
  pose proof (prepare_training_data_rows Q (trainer_init SQLite) "S_TEMP" 1000
                (demo_world 12) (demo_frame 12) (demo_world 12) eq_refl H) as P.
  cbv zeta in P.
  change (12 <=? length (demo_frame 12))%nat with true in P. cbv iota in P.
  destruct P as (X & y & HOk & HX & Hy & _).
  exists X, y. split; [exact HOk|]. split; [exact HX | exact Hy].
Defined.


Definition demo_predictor : predictor Q :=
  mk_predictor SQLite [("S_TEMP_linear", 21)] ["lag1"; "lag2"; "roll3"; "hour"].

Definition demo_trainer : trainer Q :=
  mk_trainer SQLite [("S_TEMP_linear", 21)] ["lag1"; "lag2"; "roll3"; "hour"].

Lemma predictions_persisted_witness :
  (exists res w1 pid conf,
     predict_single_value demo_predict_row demo_ratio demo_isoformat demo_predictor
       "S_TEMP" None (demo_world 5) = (Ok res, w1) /\
     working w1 =
       add_prediction (mk_prediction pid "sensor-1" (pr_predicted_value res) conf "v1.0")
         (demo_db 5)) /\
  (exists res w1 pid,
     predict_next_value demo_predict_row demo_isoformat demo_trainer
       "S_TEMP" "auto" (demo_world 5) = (Ok res, w1) /\
     working w1 =
       add_prediction (mk_prediction pid "sensor-1" (pr_predicted_value res) lit_0_8 "v1.0")
         (demo_db 5)).
Proof.
  split.
  - destruct (predict_single_value demo_predict_row demo_ratio demo_isoformat
                demo_predictor "S_TEMP" None (demo_world 5))
      as [[res|e] w1] eqn:H; [|vm_compute in H; discriminate H].
    destruct (proj1 (predictions_persisted Q demo_predict_row demo_ratio demo_isoformat)
                demo_predictor "S_TEMP" None (demo_world 5) res w1 H)
      as (pid & sid & conf & m & x & Hw & _ & Hsid & _).
    assert (sid = "sensor-1") as -> by (vm_compute in Hsid; congruence).
    exists res, w1, pid, conf. split; [reflexivity | exact Hw].
  - destruct (predict_next_value demo_predict_row demo_isoformat demo_trainer
                "S_TEMP" "auto" (demo_world 5))
      as [[res|e] w1] eqn:H; [|vm_compute in H; discriminate H].
    destruct (proj2 (predictions_persisted Q demo_predict_row demo_ratio demo_isoformat)
                demo_trainer "S_TEMP" "auto" (demo_world 5) res w1 H)
      as (pid & sid & m & x & Hw & _ & Hsid & _).
    assert (sid = "sensor-1") as -> by (vm_compute in Hsid; congruence).
    exists res, w1, pid. split; [reflexivity | exact Hw].
Defined.

End MLFacts.

(** * Further properties *)

(** ** [ORDER BY] sorts and only reorders *)

Module OrderFacts.
Import DB.

Section Order.

Context {A : Type} (le : A -> A -> bool).
Hypothesis le_total : forall a b, le a b = true \/ le b a = true.
Hypothesis le_trans : forall a b c, le a b = true -> le b c = true -> le a c = true.

Lemma insert_sorted_perm x l : Permutation (insert_sorted le x l) (x :: l).
Proof.
  induction l as [|y l IH]; cbn [insert_sorted]; [reflexivity|].
  destruct (le x y); [reflexivity|].
  rewrite IH. apply perm_swap.
Qed.

Lemma order_by_perm l : Permutation (order_by le l) l.
Proof.
  unfold order_by. induction l as [|x l IH]; cbn [foldr]; [reflexivity|].
  rewrite insert_sorted_perm, IH. reflexivity.
Qed.

Lemma insert_sorted_sorted x l :
  StronglySorted (fun a b => le a b = true) l ->
  StronglySorted (fun a b => le a b = true) (insert_sorted le x l).
Proof.
  induction 1 as [|y l Hl IH Hy]; cbn [insert_sorted].
  - repeat constructor.
  - destruct (le x y) eqn:E.
    + constructor; [constructor; assumption|].
      constructor; [exact E|].
      eapply Forall_impl; [exact Hy|]. intros z Hz. cbn in *. eauto.
    + constructor; [exact IH|].
      rewrite (insert_sorted_perm x l). constructor; [|exact Hy].
      destruct (le_total x y) as [H|H]; [congruence | exact H].
Qed.

Lemma order_by_sorted l : StronglySorted (fun a b => le a b = true) (order_by le l).
Proof.
  unfold order_by. induction l as [|x l IH]; cbn [foldr]; [constructor|].
  apply insert_sorted_sorted, IH.
Qed.

End Order.

Lemma StronglySorted_firstn {A} (R : A -> A -> Prop) n l :
  StronglySorted R l -> StronglySorted R (take n l).
Proof.
  intros H. revert n. induction H as [|x l Hl IH Hx]; intros [|n]; cbn [take firstn];
    try constructor; auto.
  eapply Forall_forall. intros y Hy. rewrite Forall_forall in Hx. apply Hx.
  eapply subseteq_take, Hy.
Qed.

Lemma StronglySorted_map {A B} (f : A -> B) (R : B -> B -> Prop) l :
  StronglySorted (fun a b => R (f a) (f b)) l -> StronglySorted R (map f l).
Proof.
  induction 1 as [|x l Hl IH Hx]; cbn [map]; constructor; [exact IH|].
  rewrite Forall_forall in Hx. apply Forall_forall. intros y Hy.
  apply list_elem_of_In, in_map_iff in Hy as (z & <- & Hz).
  apply Hx, list_elem_of_In, Hz.
Qed.

End OrderFacts.

(** ** The connections: reading back, transactions, initial data *)

Module ConnectionFacts.
Import Schema Py PyFacts DB DBFacts MLFacts OrderFacts.

Lemma ts_desc_total a b : ts_desc a b = true \/ ts_desc b a = true.
Proof. unfold ts_desc. rewrite !Z.leb_le. lia. Qed.

Lemma ts_desc_trans a b c :
  ts_desc a b = true -> ts_desc b c = true -> ts_desc a c = true.
Proof. unfold ts_desc. rewrite !Z.leb_le. lia. Qed.

(** The row of the frame a reading becomes. *)
Definition sample_of (r : reading_row) : sample :=
  mk_sample (reading_ts r) (reading_value r).

Lemma DataFrame_take n (l : list reading_row) :
  DataFrame (take n (map (fun r => (reading_ts r, reading_value r)) l)) =
  take n (map sample_of l).
Proof.
  unfold DataFrame. rewrite <- !firstn_map, map_map. reflexivity.
Qed.

Lemma sensor_readings_frame c sid limit w :
  get_sensor_readings c sid limit w =
    (Ok (take limit (map sample_of (order_by ts_desc (readings_of sid (working w))))), w).
Proof.
  destruct c; cbn [get_sensor_readings];
    rewrite ?get_sensor_readings_same, get_sensor_readings_run, DataFrame_take;
    reflexivity.
Qed.

Lemma StronglySorted_app_inv {A} (R : A -> A -> Prop) l1 l2 :
  StronglySorted R (l1 ++ l2) ->
  forall x y, x ∈ l1 -> y ∈ l2 -> R x y.
Proof.
  induction l1 as [|a l1 IH]; cbn [app]; intros H x y Hx Hy.
  - inversion Hx.
  - inversion H as [|? ? Hs Hall]; subst.
    apply elem_of_cons in Hx as [->|Hx].
    + rewrite Forall_forall in Hall. apply Hall.
      apply elem_of_app. right. exact Hy.
    + eapply IH; eauto.
Qed.

Lemma StronglySorted_weaken {A} (R S : A -> A -> Prop) l :
  (forall a b, R a b -> S a b) -> StronglySorted R l -> StronglySorted S l.
Proof.
  intros HRS. induction 1 as [|a l Hl IH Hall]; constructor; auto.
  eapply Forall_impl; eauto.
Qed.

Lemma sorted_samples sid d :
  StronglySorted (fun a b => (ts b <= ts a)%Z)
    (map sample_of (order_by ts_desc (readings_of sid d))).
Proof.
  apply StronglySorted_map.
  eapply StronglySorted_weaken;
    [|apply (order_by_sorted ts_desc ts_desc_total ts_desc_trans)].
  intros a b H. cbn [sample_of ts]. unfold ts_desc in H. apply Z.leb_le in H. exact H.
Qed.


Lemma readings_of_add sid r d :
  readings_of sid (add_reading r d) =
  readings_of sid d ++ (if decide (reading_sensor r = sid) then [r] else []).
Proof.
  unfold readings_of, add_reading. cbn [reading]. rewrite filter_app.
  reflexivity.
Qed.



(** X3. [SQLiteConnection.get_latest_readings] returns an empty frame
    whatever the database holds: its text starts with [WITH], so
    [execute_query] takes it for a statement without result set, commits
    and answers with an empty list. *)
Theorem sqlite_get_latest_readings_empty w :
  SQLiteConnection.get_latest_readings w = (Ok [], after_commit w).
Proof.
  unfold SQLiteConnection.get_latest_readings, SQLiteConnection.execute_query,
    try_except, cursor_execute, get_working.
  cbn [sem text]. cbv [mbind mret Py_bind Py_ret].
  match goal with
  | |- context [String.prefix ?a ?b] =>
      replace (String.prefix a b) with false by (vm_compute; reflexivity)
  end.
  reflexivity.
Qed.

(** *** What a run keeps true of the connection *)

(** [m] keeps [I]: started in a world where [I] holds, it ends, with a
    result or an exception, in a world where [I] holds. *)
Definition keeps (I : world -> Prop) {A} (m : Py A) : Prop :=
  forall w r w', I w -> m w = (r, w') -> I w'.

Section Keeps.
Variable I : world -> Prop.

Lemma keeps_ret {A} (a : A) : keeps I (mret a).
Proof. intros w r w' H E. inversion E; subst. exact H. Qed.

Lemma keeps_raise {A} e : keeps I (@raise A e).
Proof. intros w r w' H E. inversion E; subst. exact H. Qed.

Lemma keeps_bind {A B} (m : Py A) (f : A -> Py B) :
  keeps I m -> (forall a, keeps I (f a)) -> keeps I (m ≫= f).
Proof.
  intros Hm Hf w r w' H E. cbv [mbind Py_bind] in E.
  destruct (m w) as [[a|e] w1] eqn:Em.
  - exact (Hf a w1 r w' (Hm _ _ _ H Em) E).
  - inversion E; subst. exact (Hm _ _ _ H Em).
Qed.

Lemma keeps_try_except {A} (m : Py A) h :
  keeps I m -> (forall e, keeps I (h e)) -> keeps I (try_except m h).
Proof.
  intros Hm Hh w r w' H E. unfold try_except in E.
  destruct (m w) as [[a|e] w1] eqn:Em.
  - inversion E; subst. exact (Hm _ _ _ H Em).
  - exact (Hh e w1 r w' (Hm _ _ _ H Em) E).
Qed.

Lemma keeps_for_each {A S} (body : S -> A -> Py S) l :
  (forall s x, keeps I (body s x)) -> forall s, keeps I (for_each body s l).
Proof.
  intros Hb. induction l as [|x l IH]; intros s; cbn [for_each].
  - apply keeps_ret.
  - apply keeps_bind; auto.
Qed.

Lemma keeps_mapM {A B} (f : A -> Py B) l :
  (forall x, keeps I (f x)) -> keeps I (mapM f l).
Proof.
  intros Hf. induction l as [|x l IH]; cbn [mapM].
  - apply keeps_ret.
  - apply keeps_bind; [apply Hf|]. intros y.
    apply keeps_bind; [apply IH|]. intros k. apply keeps_ret.
Qed.

End Keeps.

(** Nothing is pending: the open transaction holds no change. *)
Definition nothing_pending (w : world) : Prop := working w = committed w.

Lemma keeps_uuid4_pending : keeps nothing_pending uuid4.
Proof. intros w r w' H E. inversion E; subst. exact H. Qed.

Lemma keeps_print_pending line : keeps nothing_pending (print line).
Proof. intros w r w' H E. inversion E; subst. exact H. Qed.

Lemma keeps_now_pending : keeps nothing_pending now.
Proof. intros w r w' H E. inversion E; subst. exact H. Qed.

(** A statement that only reads. *)
Definition reads_only {R} (s : stmt R) : Prop :=
  forall w r w', cursor_execute s w = (r, w') -> w' = w.

Lemma sqlite_execute_query_pending {R} (q : query R) :
  (String.prefix "SELECT" (py_upper (py_strip (text q))) = true -> reads_only (sem q)) ->
  keeps nothing_pending (SQLiteConnection.execute_query q).
Proof.
  intros Hro w r w' H E.
  unfold SQLiteConnection.execute_query, try_except in E.
  cbv [mbind mret Py_bind Py_ret] in E.
  destruct (cursor_execute (sem q) w) as [[d|e] w1] eqn:Ec.
  - destruct (String.prefix _ _).
    + inversion E; subst. rewrite (Hro eq_refl _ _ _ Ec). exact H.
    + inversion E; subst. reflexivity.
  - inversion E; subst. reflexivity.
Qed.

Lemma select_reads_only :
  (forall sid n, reads_only (SelectReadings sid n)) /\
  (forall name n, reads_only (SelectReadingsByName name n)) /\
  (forall name, reads_only (SelectSensorId name)) /\
  (forall t, reads_only (SelectCount t)) /\
  reads_only SelectMaxTs /\ reads_only SelectMinTs /\
  reads_only SelectLatestReadings.
Proof.
  repeat split; intros; intros w r w' E; inversion E; reflexivity.
Qed.

Ltac pending :=
  repeat first
    [ apply keeps_ret | apply keeps_raise | apply keeps_uuid4_pending
    | apply keeps_print_pending | apply keeps_now_pending
    | apply keeps_bind | apply keeps_for_each | apply keeps_mapM
    | apply sqlite_execute_query_pending; cbn [text sem]; intros _;
      apply select_reads_only
    | apply sqlite_execute_query_pending; cbn [text sem]; intros Hp;
      vm_compute in Hp; discriminate Hp
    | match goal with |- forall _, _ => intros ? end ].

(** The outcome of a call leaves no uncommitted change. *)
Definition settled {A} (x : result A * world) : Prop :=
  working (snd x) = committed (snd x).

(** X4. Nothing a method of [SQLiteConnection] does stays pending: when
    the connection has no uncommitted change before a call of
    [create_asset], [create_sensor], [create_reading],
    [create_prediction], [get_sensor_readings],
    [get_sensor_readings_by_name], [get_latest_readings],
    [get_sensor_id_by_name], [get_database_stats] or
    [_insert_initial_data], it has none after it, whether the call
    returns or raises: every insert is committed or rolled back before
    the method returns. *)
Theorem sqlite_leaves_nothing_pending w :
  working w = committed w ->
  (forall a, settled (SQLiteConnection.create_asset a w)) /\
  (forall aid s, settled (SQLiteConnection.create_sensor aid s w)) /\
  (forall sid t v, settled (SQLiteConnection.create_reading sid t v w)) /\
  (forall sid p c m, settled (SQLiteConnection.create_prediction sid p c m w)) /\
  (forall sid n, settled (SQLiteConnection.get_sensor_readings sid n w)) /\
  (forall name n, settled (SQLiteConnection.get_sensor_readings_by_name name n w)) /\
  settled (SQLiteConnection.get_latest_readings w) /\
  (forall name, settled (SQLiteConnection.get_sensor_id_by_name name w)) /\
  settled (SQLiteConnection.get_database_stats w) /\
  settled (SQLiteConnection._insert_initial_data w).
Proof.
  intros H.
  assert (K : forall A (m : Py A), keeps nothing_pending m -> settled (m w)).
  { intros A m Hm. unfold settled. destruct (m w) as [r w'] eqn:E.
    exact (Hm w r w' H E). }
  repeat match goal with |- _ /\ _ => split end; intros; apply K.
  - unfold SQLiteConnection.create_asset. pending.
  - unfold SQLiteConnection.create_sensor. pending.
  - unfold SQLiteConnection.create_reading. pending.
  - unfold SQLiteConnection.create_prediction. pending.
  - unfold SQLiteConnection.get_sensor_readings. pending. destruct a; pending.
  - unfold SQLiteConnection.get_sensor_readings_by_name. pending. destruct a; pending.
  - unfold SQLiteConnection.get_latest_readings. pending. destruct a; pending.
  - unfold SQLiteConnection.get_sensor_id_by_name. pending.
  - unfold SQLiteConnection.get_database_stats. pending.
  - unfold SQLiteConnection._insert_initial_data. pending.
    + unfold first_row. destruct a; pending.
    + destruct (0 <? a0)%Z; pending.
Qed.

Lemma sqlite_leaves_nothing_pending_witness :
  working fresh_world = committed fresh_world /\
  settled (SQLiteConnection.create_reading "sensor-1" 0 (1 # 2) fresh_world).
Proof.
  split; [reflexivity|].
  exact (proj1 (proj2 (proj2 (sqlite_leaves_nothing_pending fresh_world eq_refl)))
           "sensor-1" 0%Z (1 # 2)).
Defined.

(** The durable state is [d]. *)
Definition durable_is (d : db) (w : world) : Prop := committed w = d.

Lemma keeps_uuid4_durable d : keeps (durable_is d) uuid4.
Proof. intros w r w' H E. inversion E; subst. exact H. Qed.

Lemma keeps_print_durable d line : keeps (durable_is d) (print line).
Proof. intros w r w' H E. inversion E; subst. exact H. Qed.

(** A statement with a result set: [cursor.description] is set whenever
    it runs. *)
Definition has_result_set {R} (s : stmt R) : Prop :=
  forall w w', cursor_execute s w <> (Ok None, w').

Lemma pg_execute_query_durable {R} (q : query R) d :
  has_result_set (sem q) ->
  keeps (durable_is d) (DatabaseConnection.execute_query q).
Proof.
  intros Hrs w r w' H E.
  unfold DatabaseConnection.execute_query, try_except in E.
  cbv [mbind mret Py_bind Py_ret] in E.
  destruct (cursor_execute (sem q) w) as [[[rows|]|e] w1] eqn:Ec.
  - inversion E; subst. unfold durable_is.
    rewrite (proj1 (cursor_execute_frame _ _ _ _ Ec)). exact H.
  - destruct (Hrs _ _ Ec).
  - inversion E; subst. unfold durable_is. cbn [committed after_rollback after_print].
    rewrite (proj1 (cursor_execute_frame _ _ _ _ Ec)). exact H.
Qed.

Lemma pg_statements_have_result_set :
  (forall n l, has_result_set (InsertAsset None n l true)) /\
  (forall a n t u mn mx, has_result_set (InsertSensor None a n t u mn mx true)) /\
  (forall sid t v, has_result_set (InsertReading None sid t v true)) /\
  (forall sid n, has_result_set (SelectReadings sid n)) /\
  (forall t, has_result_set (SelectCount t)) /\
  has_result_set SelectMaxTs /\ has_result_set SelectMinTs /\
  has_result_set SelectLatestReadings.
Proof.
  repeat split; intros; intros w w';
    unfold cursor_execute, row_id, get_working, put_working, uuid4, draw, raise;
    cbv [mbind mret Py_bind Py_ret]; cbn [working];
    repeat match goal with
      | |- context [if ?b then _ else _] => destruct b
      end; cbn; congruence.
Qed.

Ltac durable :=
  repeat first
    [ apply keeps_ret | apply keeps_raise | apply keeps_uuid4_durable
    | apply keeps_print_durable
    | apply keeps_bind | apply keeps_for_each | apply keeps_mapM
    | apply pg_execute_query_durable; cbn [sem]; apply pg_statements_have_result_set
    | match goal with |- forall _, _ => intros ? end ].

Lemma pg_create_keeps_durable d :
  (forall a, keeps (durable_is d) (DatabaseConnection.create_asset a)) /\
  (forall aid s, keeps (durable_is d) (DatabaseConnection.create_sensor aid s)) /\
  (forall sid t v, keeps (durable_is d) (DatabaseConnection.create_reading sid t v)).
Proof.
  repeat match goal with |- _ /\ _ => split end; intros.
  - unfold DatabaseConnection.create_asset. durable. unfold first_row. destruct a0; durable.
  - unfold DatabaseConnection.create_sensor. durable. unfold first_row. destruct a; durable.
  - unfold DatabaseConnection.create_reading. durable. unfold first_row. destruct a; durable.
Qed.

(** X5. No method of the PostgreSQL class [DatabaseConnection] that
    inserts ever commits: [execute_query] commits only after a statement
    without result set, and [create_asset], [create_sensor] and
    [create_reading] all send [INSERT ... RETURNING id].  Whether they
    return or raise, the durable state after the call is the one before
    it; the same holds for the reading methods [get_sensor_readings],
    [get_latest_readings] and [get_database_stats]. *)
Theorem pg_never_commits w :
  (forall a, committed (snd (DatabaseConnection.create_asset a w)) = committed w) /\
  (forall aid s, committed (snd (DatabaseConnection.create_sensor aid s w)) = committed w) /\
  (forall sid t v,
     committed (snd (DatabaseConnection.create_reading sid t v w)) = committed w) /\
  (forall sid n,
     committed (snd (DatabaseConnection.get_sensor_readings sid n w)) = committed w) /\
  committed (snd (DatabaseConnection.get_latest_readings w)) = committed w /\
  committed (snd (DatabaseConnection.get_database_stats w)) = committed w.
Proof.
  assert (K : forall A (m : Py A), keeps (durable_is (committed w)) m ->
                committed (snd (m w)) = committed w).
  { intros A m Hm. destruct (m w) as [r w'] eqn:E. exact (Hm w r w' eq_refl E). }
  repeat match goal with |- _ /\ _ => split end; intros; apply K.
  - apply pg_create_keeps_durable.
  - apply pg_create_keeps_durable.
  - apply pg_create_keeps_durable.
  - unfold DatabaseConnection.get_sensor_readings. durable. destruct a; durable.
  - unfold DatabaseConnection.get_latest_readings. durable. destruct a; durable.
  - unfold DatabaseConnection.get_database_stats. durable.
Qed.

(** X6. A reading created through the PostgreSQL class is visible on the
    connection but not durable, and the next query that fails on the
    connection discards it: after the rollback of the failed
    [execute_query] the connection sees the tables as they were before
    [create_reading]. *)
Theorem pg_uncommitted_reading_lost {R} sid t v w i w1 (q : query R) e w2 :
  working w = committed w ->
  DatabaseConnection.create_reading sid t v w = (Ok i, w1) ->
  cursor_execute (sem q) w1 = (Raise e, w2) ->
  reading (working w1) = reading (working w) ++ [mk_reading i sid t v] /\
  committed w1 = committed w /\
  exists w3,
    DatabaseConnection.execute_query q w1 = (Raise e, w3) /\
    working w3 = working w /\ committed w3 = committed w.
Proof.
  intros H Hc Hq.
  pose proof (create_reading_Ok PostgreSQL sid t v w i w1 Hc)
    as (_ & _ & Hw & _ & _ & Hd).
  split; [rewrite Hw; reflexivity|]. split; [exact Hd|].
  exists (failed e w2). split.
  - unfold DatabaseConnection.execute_query, try_except.
    rewrite (bind_raise _ _ _ _ _ Hq). reflexivity.
  - unfold failed. cbn [working committed after_rollback after_print].
    rewrite (proj1 (cursor_execute_frame _ _ _ _ Hq)), Hd. auto.
Qed.

Lemma pg_uncommitted_reading_lost_witness :
  let q := mk_query "DROP TABLE" (Rejected "near DROP: syntax error") in
  exists i w1 w3,
    DatabaseConnection.create_reading "sensor-1" 0 (1 # 2) fresh_world = (Ok i, w1) /\
    reading (working w1) = [mk_reading i "sensor-1" 0 (1 # 2)] /\
    fst (DatabaseConnection.execute_query q w1) =
      Raise (OperationalError "near DROP: syntax error") /\
    snd (DatabaseConnection.execute_query q w1) = w3 /\
    working w3 = empty_db.
Proof.
  intros q.
  destruct (DatabaseConnection.create_reading "sensor-1" 0 (1 # 2) fresh_world)
    as [[i|e] w1] eqn:H; [|vm_compute in H; discriminate H].
  destruct (pg_uncommitted_reading_lost "sensor-1" 0%Z (1 # 2) fresh_world i w1 q
              (OperationalError "near DROP: syntax error") w1 eq_refl H eq_refl)
    as (Hr & _ & w3 & Hq & Hw & _).
  exists i, w1, w3. split; [reflexivity|]. split; [exact Hr|].
  rewrite Hq. split; [reflexivity|]. split; [reflexivity|exact Hw].
Defined.

Lemma head_snoc {A} (l : list A) x : head (l ++ [x]) = Some (default x (head l)).
Proof. destruct l; reflexivity. Qed.

Lemma sqlite_create_sensor_Ok aid sd w i w1 :
  SQLiteConnection.create_sensor aid sd w = (Ok i, w1) ->
  i = next_uuid w /\
  ~ In i (map sensor_id (sensor (working w))) /\
  working w1 = add_sensor (mk_sensor i aid (sd_name sd) (sd_type sd) (sd_unit sd)
                             (sd_min_value sd) (sd_max_value sd)) (working w) /\
  committed w1 = working w1 /\ stdout w1 = stdout w.
Proof.
  rewrite sqlite_create_sensor_run.
  destruct (has_id sensor_id (next_uuid w) (sensor (working w))) eqn:E;
    intros H; inversion H; subst.
  apply has_id_false in E. repeat split; auto.
Qed.

(** X7. Round trip on the SQLite class: after [create_sensor] has
    returned the new id, [get_sensor_id_by_name] for the sensor's name
    returns that id when no sensor of that name existed, and otherwise
    still the id it returned before, since names are not unique and the
    lookup takes the first row; the lookup of any other name is not
    affected. *)
Theorem sensor_id_after_create_sensor aid sd w i w1 :
  SQLiteConnection.create_sensor aid sd w = (Ok i, w1) ->
  exists before,
    SQLiteConnection.get_sensor_id_by_name (sd_name sd) w = (Ok before, w) /\
    SQLiteConnection.get_sensor_id_by_name (sd_name sd) w1 =
      (Ok (Some (default i before)), w1) /\
    forall other, other <> sd_name sd ->
      fst (SQLiteConnection.get_sensor_id_by_name other w1) =
      fst (SQLiteConnection.get_sensor_id_by_name other w).
Proof.
  intros H. apply sqlite_create_sensor_Ok in H as (_ & _ & Hw & _).
  eexists. split; [apply sensor_id_run|].
  rewrite !sensor_id_run, Hw. cbn [add_sensor sensor].
  split.
  - rewrite filter_app, map_app. cbn [filter list_filter].
    rewrite decide_True by reflexivity.
    cbn [map sensor_id]. rewrite head_snoc. reflexivity.
  - intros other Hne. rewrite !sensor_id_run, Hw. cbn [fst add_sensor sensor].
    rewrite filter_app.
    cbn [filter list_filter].
    rewrite decide_False by (cbn [Schema.sensor_name]; congruence).
    rewrite app_nil_r. reflexivity.
Qed.

Lemma sensor_id_after_create_sensor_witness :
  let sd := mk_sensor_data "S_TEMP" "temperature" "C" (-40) 80 in
  exists i w1,
    SQLiteConnection.create_sensor "asset-1" sd fresh_world = (Ok i, w1) /\
    SQLiteConnection.get_sensor_id_by_name "S_TEMP" w1 = (Ok (Some i), w1).
Proof.
  intros sd.
  destruct (SQLiteConnection.create_sensor "asset-1" sd fresh_world)
    as [[i|e] w1] eqn:H; [|vm_compute in H; discriminate H].
  destruct (sensor_id_after_create_sensor "asset-1" sd fresh_world i w1 H)
    as (before & Hb & Ha & _).
  exists i, w1. split; [reflexivity|].
  vm_compute in Hb. inversion Hb; subst before. exact Ha.
Defined.

Lemma sqlite_count_run t w :
  SQLiteConnection.execute_query (mk_query (count_text t) (SelectCount t)) w =
    (Ok [Z.of_nat (table_size t (working w))], w).
Proof. destruct t, w; reflexivity. Qed.

Lemma sqlite_insert_asset_Ok txt i n l w rows w1 :
  String.prefix "SELECT" (py_upper (py_strip txt)) = false ->
  SQLiteConnection.execute_query (mk_query txt (InsertAsset (Some i) n l false)) w
    = (Ok rows, w1) ->
  working w1 = add_asset (mk_asset i n l) (working w) /\
  committed w1 = working w1.
Proof.
  unfold SQLiteConnection.execute_query, try_except, cursor_execute, row_id,
    get_working, put_working.
  cbn [sem text]. cbv [mbind mret Py_bind Py_ret]. cbn [working].
  intros ->.
  destruct (has_id asset_id i (asset (working w))); intros H; inversion H; subst.
  split; reflexivity.
Qed.

Lemma sqlite_insert_sensor_Ok txt i a n t u mn mx w rows w1 :
  String.prefix "SELECT" (py_upper (py_strip txt)) = false ->
  SQLiteConnection.execute_query
    (mk_query txt (InsertSensor (Some i) a n t u mn mx false)) w = (Ok rows, w1) ->
  working w1 = add_sensor (mk_sensor i a n t u mn mx) (working w) /\
  committed w1 = working w1.
Proof.
  unfold SQLiteConnection.execute_query, try_except, cursor_execute, row_id,
    get_working, put_working.
  cbn [sem text]. cbv [mbind mret Py_bind Py_ret]. cbn [working].
  intros ->.
  destruct (has_id sensor_id i (sensor (working w))); intros H; inversion H; subst.
  split; reflexivity.
Qed.

Lemma insert_initial_data_skips w :
  asset (working w) <> [] -> SQLiteConnection._insert_initial_data w = (Ok tt, w).
Proof.
  intros H. unfold SQLiteConnection._insert_initial_data.
  rewrite (bind_step _ _ _ _ _ (sqlite_count_run TAsset w)).
  cbn [first_row table_size]. cbv [mbind mret Py_bind Py_ret].
  destruct (asset (working w)); [congruence|]. reflexivity.
Qed.

(** X8. [_insert_initial_data], which the constructor of
    [SQLiteConnection] runs, inserts only into a database without
    assets.  When it returns on such a database it has added, and
    committed, one asset and the four sensors [S_TEMP], [S_HUMIDITY],
    [S_LIGHT] and [S_VIBRATION] belonging to it, with their units and
    ranges; on a database that holds an asset it changes nothing.  So
    running it again after a successful run adds nothing. *)
Theorem insert_initial_data_once w w1 :
  SQLiteConnection._insert_initial_data w = (Ok tt, w1) ->
  (asset (working w) <> [] -> w1 = w) /\
  (asset (working w) = [] ->
   exists a i1 i2 i3 i4,
     asset (working w1) =
       [mk_asset a "Linha de Produção Principal" "Setor A - Fábrica"] /\
     sensor (working w1) =
       sensor (working w) ++
       [mk_sensor i1 a "S_TEMP" "temperature" "°C" (-40) 80;
        mk_sensor i2 a "S_HUMIDITY" "humidity" "%" 0 100;
        mk_sensor i3 a "S_LIGHT" "luminosity" "%" 0 100;
        mk_sensor i4 a "S_VIBRATION" "vibration" "mg" 0 5000] /\
     reading (working w1) = reading (working w) /\
     committed w1 = working w1) /\
  SQLiteConnection._insert_initial_data w1 = (Ok tt, w1).
Proof.
  intros H.
  destruct (asset (working w)) as [|a0 rest] eqn:Ea.
  - split; [congruence|].
    unfold SQLiteConnection._insert_initial_data in H.
    rewrite (bind_step _ _ _ _ _ (sqlite_count_run TAsset w)) in H.
    cbn [first_row table_size] in H. rewrite Ea in H.
    cbv [mbind mret Py_bind Py_ret] in H. cbn [length Z.of_nat Z.ltb Z.compare] in H.
    change (0 <? Z.of_nat 0)%Z with false in H. cbv beta iota in H.
    rewrite uuid4_run in H.
    set (a := next_uuid w) in *.
    match type of H with
    | match ?q ?w' with _ => _ end = _ =>
        destruct (q w') as [[r0 | e0] w2] eqn:E0; [|discriminate H]
    end.
    apply sqlite_insert_asset_Ok in E0 as [Hw2 _]; [|vm_compute; reflexivity].
    cbn [SQLiteConnection.initial_sensors for_each] in H.
    cbv [mbind mret Py_bind Py_ret] in H.
    repeat match type of H with
    | match (match uuid4 ?w' with _ => _ end) with _ => _ end = _ =>
        rewrite (uuid4_run w') in H
    | match (match ?q ?w' with _ => _ end) with _ => _ end = _ =>
        let E := fresh "E" in
        let Ec := fresh "Ec" in
        let r := fresh "r" in
        let w'' := fresh "w" in
        destruct (q w') as [[r | ?] w''] eqn:E; [|discriminate H];
        apply sqlite_insert_sensor_Ok in E as [E Ec]; [|vm_compute; reflexivity]
    end.
    inversion H; subst w1. clear H.
    assert (Hrows :
      exists i1 i2 i3 i4,
        asset (working w5) =
          [mk_asset a "Linha de Produção Principal" "Setor A - Fábrica"] /\
        sensor (working w5) =
          sensor (working w) ++
          [mk_sensor i1 a "S_TEMP" "temperature" "°C" (-40) 80;
           mk_sensor i2 a "S_HUMIDITY" "humidity" "%" 0 100;
           mk_sensor i3 a "S_LIGHT" "luminosity" "%" 0 100;
           mk_sensor i4 a "S_VIBRATION" "vibration" "mg" 0 5000] /\
        reading (working w5) = reading (working w)).
    { eexists _, _, _, _.
      repeat (cbn [add_sensor add_asset asset sensor reading working after_draw];
              match goal with E : working _ = _ |- _ => rewrite E end).
      cbn [add_sensor add_asset asset sensor reading working after_draw].
      rewrite Ea, <- !app_assoc. cbn [app].
      split; [reflexivity|]. split; reflexivity. }
    destruct Hrows as (i1 & i2 & i3 & i4 & Hr1 & Hr2 & Hr3).
    split.
    + intros _. exists a, i1, i2, i3, i4.
      split; [exact Hr1|]. split; [exact Hr2|]. split; [exact Hr3|]. assumption.
    + apply insert_initial_data_skips. rewrite Hr1. discriminate.
  - assert (Hne : asset (working w) <> []) by (rewrite Ea; discriminate).
    rewrite (insert_initial_data_skips w Hne) in H. inversion H; subst w1.
    split; [reflexivity|]. split; [congruence|].
    apply insert_initial_data_skips; exact Hne.
Qed.

Lemma insert_initial_data_once_witness :
  exists w1,
    SQLiteConnection._insert_initial_data fresh_world = (Ok tt, w1) /\
    map sensor_name (sensor (working w1)) =
      ["S_TEMP"; "S_HUMIDITY"; "S_LIGHT"; "S_VIBRATION"] /\
    SQLiteConnection._insert_initial_data w1 = (Ok tt, w1).
Proof.
  destruct (SQLiteConnection._insert_initial_data fresh_world)
    as [[[]|e] w1] eqn:H; [|vm_compute in H; discriminate H].
  exists w1.
  destruct (insert_initial_data_once fresh_world w1 H) as (_ & Hn & Hs).
  destruct (Hn eq_refl) as (a & i1 & i2 & i3 & i4 & _ & Hsens & _).
  split; [reflexivity|]. split; [rewrite Hsens; reflexivity | exact Hs].
Defined.

(** *** The latest reading of each sensor *)

Lemma ascii_compare_refl a : Ascii.compare a a = Eq.
Proof. unfold Ascii.compare. apply N.compare_refl. Qed.

Lemma ascii_compare_lt_trans a b c :
  Ascii.compare a b = Lt -> Ascii.compare b c = Lt -> Ascii.compare a c = Lt.
Proof. unfold Ascii.compare. rewrite !N.compare_lt_iff. lia. Qed.

Lemma string_leb_trans a b c :
  String.leb a b = true -> String.leb b c = true -> String.leb a c = true.
Proof.
  unfold String.leb. revert b c.
  induction a as [|x a IH]; intros [|y b] [|z c]; cbn [String.compare];
    try congruence.
  destruct (Ascii.compare x y) eqn:E1; destruct (Ascii.compare y z) eqn:E2;
    try congruence.
  - apply Ascii.compare_eq_iff in E1, E2. subst. rewrite ascii_compare_refl. apply IH.
  - apply Ascii.compare_eq_iff in E1. subst. rewrite E2. reflexivity.
  - apply Ascii.compare_eq_iff in E2. subst. rewrite E1. reflexivity.
  - rewrite (ascii_compare_lt_trans _ _ _ E1 E2). reflexivity.
Qed.

Lemma max_ts_spec rows m :
  max_ts rows = Some m <->
  (exists r, r ∈ rows /\ reading_ts r = m) /\
  (forall r, r ∈ rows -> (reading_ts r <= m)%Z).
Proof.
  revert m. induction rows as [|x rows IH]; intros m; cbn [max_ts foldr].
  - split; [discriminate|]. intros [(r & Hr & _) _]. inversion Hr.
  - change (foldr _ None rows) with (max_ts rows).
    destruct (max_ts rows) as [m'|] eqn:E.
    + destruct (proj1 (IH m') eq_refl) as [(r' & Hr' & Hm') Hle].
      split.
      * intros H. inversion H; subst m. split.
        -- destruct (Z.max_spec (reading_ts x) m') as [[_ ->]|[_ ->]].
           ++ exists r'. split; [right; exact Hr' | exact Hm'].
           ++ exists x. split; [left | reflexivity].
        -- intros r Hr. apply elem_of_cons in Hr as [->|Hr]; [lia|].
           specialize (Hle _ Hr). lia.
      * intros [(r & Hr & Hm) Hall]. f_equal.
        assert (reading_ts x <= m)%Z by (apply Hall; left).
        assert (reading_ts r' <= m)%Z by (apply Hall; right; exact Hr').
        apply elem_of_cons in Hr as [->|Hr]; [lia|].
        specialize (Hle _ Hr). lia.
    + assert (rows = []) as ->.
      { destruct rows as [|y rows]; [reflexivity|].
        cbn [max_ts foldr] in E. destruct (foldr _ None rows); discriminate E. }
      split.
      * intros H. inversion H; subst m. split.
        -- exists x. split; [left | reflexivity].
        -- intros r Hr. apply list_elem_of_singleton in Hr. subst. lia.
      * intros [(r & Hr & Hm) _]. apply list_elem_of_singleton in Hr. subst. reflexivity.
Qed.

(** The pairs of the join in [get_latest_readings]. *)
Definition latest_pairs (d : db) : list (reading_row * sensor_row) :=
  r ← reading d;
  if decide (max_ts (readings_of (reading_sensor r) d) = Some (reading_ts r))
  then s ← filter (fun s => sensor_id s = reading_sensor r) (sensor d); [(r, s)]
  else [].

Definition latest_of (p : reading_row * sensor_row) : latest :=
  mk_latest (reading_ts (fst p)) (reading_value (fst p)) (sensor_name (snd p))
    (sensor_type (snd p)) (sensor_unit (snd p)).

Definition name_le (a b : reading_row * sensor_row) : bool :=
  String.leb (sensor_name (snd a)) (sensor_name (snd b)).

Lemma pg_get_latest_readings_run w :
  DatabaseConnection.get_latest_readings w =
    (Ok (map latest_of (order_by name_le (latest_pairs (working w)))), w).
Proof.
  unfold DatabaseConnection.get_latest_readings, DatabaseConnection.execute_query,
    try_except, cursor_execute, get_working.
  cbn [sem]. cbv [mbind mret Py_bind Py_ret].
  match goal with |- context [order_by ?f ?j] => set (l := order_by f j) end.
  change (order_by name_le (latest_pairs (working w))) with l.
  destruct l as [|[r s] l]; [reflexivity|].
  rewrite map_map. f_equal. f_equal. apply map_ext. intros [? ?]. reflexivity.
Qed.

Lemma latest_pairs_spec d r s :
  (r, s) ∈ latest_pairs d <->
  r ∈ reading d /\ s ∈ sensor d /\ sensor_id s = reading_sensor r /\
  (forall r', r' ∈ reading d -> reading_sensor r' = reading_sensor r ->
              (reading_ts r' <= reading_ts r)%Z).
Proof.
  unfold latest_pairs. rewrite list_elem_of_bind. split.
  - intros (r0 & Hin & Hr0).
    destruct (decide _) as [Hmax|]; [|inversion Hin].
    apply list_elem_of_bind in Hin as (s0 & Hin & Hs0).
    apply list_elem_of_singleton in Hin. inversion Hin; subst r0 s0.
    apply list_elem_of_filter in Hs0 as [Hid Hs0].
    apply max_ts_spec in Hmax as [_ Hle].
    repeat split; auto.
    intros r' Hr' Hsame. apply Hle. apply list_elem_of_filter. auto.
  - intros (Hr & Hs & Hid & Hle). exists r. split; [|exact Hr].
    rewrite decide_True.
    + apply list_elem_of_bind. exists s. split; [left|].
      apply list_elem_of_filter. auto.
    + apply max_ts_spec. split.
      * exists r. split; [|reflexivity]. apply list_elem_of_filter. auto.
      * intros r' Hr'. apply list_elem_of_filter in Hr' as [Hsame Hr'].
        apply Hle; auto.
Qed.

(** X9. [DatabaseConnection.get_latest_readings] never raises and
    changes nothing.  Its rows are exactly the readings that no reading
    of the same sensor is newer than, joined with their sensor rows: a
    sensor without readings, and a reading whose sensor id matches no
    sensor row, give no row, while two readings of one sensor sharing
    the latest timestamp give two rows.  The rows come ordered by sensor
    name. *)
Theorem pg_get_latest_readings_rows w :
  exists rows,
    DatabaseConnection.get_latest_readings w = (Ok rows, w) /\
    StronglySorted
      (fun a b => String.leb (latest_sensor_name a) (latest_sensor_name b) = true)
      rows /\
    forall row,
      row ∈ rows <->
      exists r s,
        r ∈ reading (working w) /\ s ∈ sensor (working w) /\
        sensor_id s = reading_sensor r /\
        (forall r', r' ∈ reading (working w) ->
                    reading_sensor r' = reading_sensor r ->
                    (reading_ts r' <= reading_ts r)%Z) /\
        row = mk_latest (reading_ts r) (reading_value r) (sensor_name s)
                (sensor_type s) (sensor_unit s).
Proof.
  eexists. split; [apply pg_get_latest_readings_run|]. split.
  - apply StronglySorted_map. cbn [latest_of latest_sensor_name].
    apply (order_by_sorted name_le).
    + intros a b. apply String.leb_total.
    + intros a b c. apply string_leb_trans.
  - intros row. rewrite list_elem_of_fmap. split.
    + intros ([r s] & -> & Hin).
      rewrite (order_by_perm name_le) in Hin.
      apply latest_pairs_spec in Hin as (Hr & Hs & Hid & Hle).
      exists r, s. repeat split; auto.
    + intros (r & s & Hr & Hs & Hid & Hle & ->).
      exists (r, s). split; [reflexivity|].
      rewrite (order_by_perm name_le). apply latest_pairs_spec. auto.
Qed.

(** *** Primary keys *)

(** No two rows of a table share their id. *)
Definition keys_unique (d : db) : Prop :=
  NoDup (map asset_id (asset d)) /\ NoDup (map sensor_id (sensor d)) /\
  NoDup (map reading_id (reading d)) /\ NoDup (map prediction_id (prediction d)).

Definition keys_kept (w : world) : Prop :=
  keys_unique (working w) /\ keys_unique (committed w).

Lemma NoDup_snoc {A} (l : list A) x : ~ In x l -> NoDup l -> NoDup (l ++ [x]).
Proof.
  intros Hx Hl. apply NoDup_app. split; [exact Hl|]. split.
  - intros y Hy Hy'. apply list_elem_of_singleton in Hy'. subst.
    apply Hx, list_elem_of_In, Hy.
  - apply NoDup_singleton.
Qed.

Lemma cursor_execute_keys {R} (s : stmt R) w r w' :
  keys_unique (working w) -> cursor_execute s w = (r, w') ->
  keys_unique (working w').
Proof.
  intros (Ha & Hs & Hr & Hp).
  destruct s; unfold cursor_execute, row_id, get_working, put_working, raise;
    cbv [mbind mret Py_bind Py_ret]; rewrite ?uuid4_run;
    cbn [working after_draw];
    repeat match goal with
      | |- context [match ?o with Some _ => _ | None => _ end] => destruct o
      end;
    rewrite ?uuid4_run; cbn [working after_draw];
    try match goal with
      | |- context [if has_id ?k ?i ?l then _ else _] =>
          let E := fresh "E" in
          destruct (has_id k i l) eqn:E; [|apply has_id_false in E]
      end;
    intros H; inversion H; subst; cbn [working set_working after_draw];
    unfold keys_unique; cbn [add_asset add_sensor add_reading add_prediction
                               asset sensor reading prediction];
    rewrite ?map_app; cbn [map];
    repeat match goal with |- _ /\ _ => split end;
    auto using NoDup_snoc.
Qed.

Lemma execute_query_keys {R} (q : query R) :
  keeps keys_kept (DatabaseConnection.execute_query q) /\
  keeps keys_kept (SQLiteConnection.execute_query q).
Proof.
  split; intros w r w' [Hw Hc] E;
    unfold DatabaseConnection.execute_query, SQLiteConnection.execute_query,
      try_except in E;
    cbv [mbind mret Py_bind Py_ret] in E;
    destruct (cursor_execute (sem q) w) as [[d|e] w1] eqn:Ec;
    pose proof (cursor_execute_keys _ _ _ _ Hw Ec) as Hk;
    pose proof (proj1 (cursor_execute_frame _ _ _ _ Ec)) as Hcm;
    repeat match type of E with
      | context [match ?o with Some _ => _ | None => _ end] => destruct o
      | context [if ?b then _ else _] => destruct b
      end;
    inversion E; subst; unfold keys_kept;
    cbn [working committed after_commit after_rollback after_print];
    rewrite ?Hcm; auto.
Qed.

Lemma keeps_uuid4_keys : keeps keys_kept uuid4.
Proof. intros w r w' H E. inversion E; subst. exact H. Qed.

Lemma keeps_print_keys line : keeps keys_kept (print line).
Proof. intros w r w' H E. inversion E; subst. exact H. Qed.

Ltac keys :=
  repeat first
    [ apply keeps_ret | apply keeps_raise | apply keeps_uuid4_keys
    | apply keeps_print_keys
    | apply keeps_bind | apply keeps_for_each | apply keeps_mapM
    | apply execute_query_keys
    | match goal with |- forall _, _ => intros ? end
    | match goal with
      | |- keeps _ (match ?x with _ => _ end) => destruct x
      | |- keeps _ (if ?x then _ else _) => destruct x
      end ].

(** X10. Identifiers stay unique: when no two rows of a table share
    their id, in what the connection sees and in what is durable, this
    is still so after any of [create_asset], [create_sensor],
    [create_reading], in either class, and [create_prediction] and
    [_insert_initial_data] of the SQLite class, whether the call
    returns or raises.  An insert whose id is taken raises and adds
    nothing. *)
Theorem identifiers_stay_unique c w :
  keys_unique (working w) -> keys_unique (committed w) ->
  (forall a, keys_kept (snd (create_asset c a w))) /\
  (forall aid s, keys_kept (snd (create_sensor c aid s w))) /\
  (forall sid t v, keys_kept (snd (create_reading c sid t v w))) /\
  (forall sid p cf m, keys_kept (snd (SQLiteConnection.create_prediction sid p cf m w))) /\
  keys_kept (snd (SQLiteConnection._insert_initial_data w)).
Proof.
  intros Hw Hc.
  assert (K : forall A (m : Py A), keeps keys_kept m -> keys_kept (snd (m w))).
  { intros A m Hm. destruct (m w) as [r w'] eqn:E.
    exact (Hm w r w' (conj Hw Hc) E). }
  repeat match goal with |- _ /\ _ => split end; intros; apply K.
  - destruct c; cbn [create_asset];
      unfold DatabaseConnection.create_asset, SQLiteConnection.create_asset, first_row;
      keys.
  - destruct c; cbn [create_sensor];
      unfold DatabaseConnection.create_sensor, SQLiteConnection.create_sensor, first_row;
      keys.
  - destruct c; cbn [create_reading];
      unfold DatabaseConnection.create_reading, SQLiteConnection.create_reading,
        first_row; keys.
  - unfold SQLiteConnection.create_prediction. keys.
  - unfold SQLiteConnection._insert_initial_data, first_row. keys.
Qed.

Lemma identifiers_stay_unique_witness :
  keys_unique (working fresh_world) /\ keys_unique (committed fresh_world) /\
  keys_kept (snd (create_reading SQLite "sensor-1" 0 (1 # 2) fresh_world)).
Proof.
  assert (H : keys_unique empty_db) by (repeat split; apply NoDup_nil_2).
  split; [exact H|]. split; [exact H|].
  exact (proj1 (proj2 (proj2 (identifiers_stay_unique SQLite fresh_world H H)))
           "sensor-1" 0%Z (1 # 2)).
Defined.

Lemma filter_none {A} (P : A -> Prop) `{!forall x, Decision (P x)} (l : list A) :
  (forall x, x ∈ l -> ~ P x) -> filter P l = [].
Proof.
  induction l as [|y l IH]; intros Hall; [reflexivity|].
  rewrite filter_cons, decide_False by (apply Hall; left).
  apply IH. intros x Hx. apply Hall. right. exact Hx.
Qed.

Lemma bind_none {A B} (f : A -> list B) (l : list A) :
  (forall x, x ∈ l -> f x = []) -> l ≫= f = [].
Proof.
  induction l as [|y l IH]; intros H; [reflexivity|].
  cbn [mbind list_bind]. rewrite (H y) by left. cbn [app].
  apply IH. intros x Hx. apply H. right. exact Hx.
Qed.

Lemma filter_unique_key {A} (key : A -> string) (l : list A) x :
  NoDup (map key l) -> x ∈ l -> filter (fun y => key y = key x) l = [x].
Proof.
  induction l as [|y l IH]; intros Hnd Hx; [inversion Hx|].
  cbn [map] in Hnd. apply NoDup_cons in Hnd as [Hy Hnd].
  rewrite filter_cons.
  apply elem_of_cons in Hx as [->|Hx].
  - rewrite decide_True by reflexivity. f_equal.
    apply filter_none. intros z Hz Hk.
    apply Hy. rewrite <- Hk. apply (list_elem_of_fmap_2 key). exact Hz.
  - rewrite decide_False; [apply IH; auto|].
    intros Hk. apply Hy. rewrite Hk. apply (list_elem_of_fmap_2 key). exact Hx.
Qed.

Lemma readings_by_name_unique name s d :
  NoDup (map sensor_id (sensor d)) ->
  s ∈ sensor d -> sensor_name s = name ->
  (forall s', s' ∈ sensor d -> sensor_name s' = name -> s' = s) ->
  readings_by_name name d = readings_of (sensor_id s) d.
Proof.
  intros Hnd Hs Hname Huniq.
  unfold readings_by_name, readings_of.
  induction (reading d) as [|r l IH]; [reflexivity|].
  cbn [mbind list_bind]. change (list_bind _ _ ?f l) with (l ≫= f).
  rewrite IH, filter_cons. clear IH.
  destruct (decide (reading_sensor r = sensor_id s)) as [E|E].
  - rewrite E, (filter_unique_key sensor_id _ s Hnd Hs).
    rewrite bind_singleton, decide_True by exact Hname. reflexivity.
  - match goal with |- ?x ++ _ = _ => assert (x = []) as -> end; [|reflexivity].
    apply (bind_none (fun s0 => if decide (sensor_name s0 = name) then [r] else [])).
    intros s' Hs'. apply list_elem_of_filter in Hs' as [Hid Hs'].
    rewrite decide_False; [reflexivity|].
    intros Hn. apply E. rewrite <- (Huniq s' Hs' Hn). symmetry. exact Hid.
Qed.

(** X11. When sensor ids are unique and exactly one sensor carries the
    name, reading by name is reading by id: [get_sensor_id_by_name]
    returns the id of that sensor, and [get_sensor_readings_by_name]
    returns the frame that [get_sensor_readings] returns for it. *)
Theorem readings_by_name_is_by_id name s limit w :
  NoDup (map sensor_id (sensor (working w))) ->
  s ∈ sensor (working w) -> sensor_name s = name ->
  (forall s', s' ∈ sensor (working w) -> sensor_name s' = name -> s' = s) ->
  SQLiteConnection.get_sensor_id_by_name name w = (Ok (Some (sensor_id s)), w) /\
  SQLiteConnection.get_sensor_readings_by_name name limit w =
    SQLiteConnection.get_sensor_readings (sensor_id s) limit w.
Proof.
  intros Hnd Hs Hname Huniq. split.
  - rewrite sensor_id_run. f_equal. f_equal.
    assert (Hin : s ∈ filter (fun s0 => sensor_name s0 = name) (sensor (working w)))
      by (apply list_elem_of_filter; auto).
    destruct (filter _ _) as [|s0 l] eqn:Ef; [inversion Hin|].
    cbn [map head]. f_equal. f_equal.
    apply Huniq.
    + assert (H0 : s0 ∈ filter (fun s0 => sensor_name s0 = name) (sensor (working w)))
        by (rewrite Ef; left).
      apply list_elem_of_filter in H0. tauto.
    + assert (H0 : s0 ∈ filter (fun s0 => sensor_name s0 = name) (sensor (working w)))
        by (rewrite Ef; left).
      apply list_elem_of_filter in H0. tauto.
  - rewrite by_name_run, get_sensor_readings_run.
    rewrite (readings_by_name_unique name s _ Hnd Hs Hname Huniq). reflexivity.
Qed.

Lemma readings_by_name_is_by_id_witness :
  let s := mk_sensor "id-1" "asset-1" "S_TEMP" "temperature" "C" (-40) 80 in
  let w := set_working (mk_db [] [s] [mk_reading "r-1" "id-1" 7 (1 # 2)] [] [])
             fresh_world in
  SQLiteConnection.get_sensor_id_by_name "S_TEMP" w = (Ok (Some "id-1"), w) /\
  SQLiteConnection.get_sensor_readings_by_name "S_TEMP" 5 w =
    SQLiteConnection.get_sensor_readings "id-1" 5 w.
Proof.
  intros s w.
  apply (readings_by_name_is_by_id "S_TEMP" s 5 w).
  - cbn. apply NoDup_singleton.
  - cbn. left.
  - reflexivity.
  - intros s' Hs' _. cbn in Hs'. apply list_elem_of_singleton in Hs'. exact Hs'.
Defined.

(** *** Statistics *)

Lemma max_ts_snoc rows r :
  max_ts (rows ++ [r]) =
    Some (match max_ts rows with
          | Some m => Z.max m (reading_ts r)
          | None => reading_ts r
          end).
Proof.
  induction rows as [|x rows IH]; [reflexivity|].
  cbn [app]. unfold max_ts in *. cbn [foldr]. rewrite IH.
  destruct (foldr _ None rows) as [m|]; f_equal; lia.
Qed.

(** The value under [key] in the dict a call of [get_database_stats]
    returned. *)
Definition stat_value (key : string) (run : result (list (string * stat)) * world)
  : option stat :=
  match fst run with
  | Ok stats => snd <$> head (filter (fun kv => fst kv = key) stats)
  | Raise _ => None
  end.



End ConnectionFacts.

(** ** The data collector on its connection *)

Module CollectorRunFacts.
Import Schema Py PyFacts DB DBFacts OrderFacts ConnectionFacts.

(** The row a processed reading is stored as. *)
Definition row_of (i : string) (r : DataCollector.reading) : reading_row :=
  mk_reading i (DataCollector.sensor_id r) (DataCollector.ts r) (DataCollector.value r).

Definition load_loop (c : connection_class) (data : list DataCollector.reading)
  : Py unit :=
  for_each (fun _ record =>
      _ ← create_reading c (DataCollector.sensor_id record) (DataCollector.ts record)
            (DataCollector.value record);
      mret tt) tt data.

Lemma load_loop_Ok c data : forall w w1,
  load_loop c data w = (Ok tt, w1) ->
  exists ids,
    length ids = length data /\
    reading (working w1) = reading (working w) ++ zip_with row_of ids data /\
    asset (working w1) = asset (working w) /\
    sensor (working w1) = sensor (working w) /\
    prediction (working w1) = prediction (working w) /\
    stdout w1 = stdout w /\
    (c = PostgreSQL -> committed w1 = committed w).
Proof.
  unfold load_loop.
  induction data as [|r data IH]; intros w w1 H; cbn [for_each] in H.
  - inversion H; subst. exists []. rewrite app_nil_r. repeat split.
  - apply bind_Ok in H as ([] & w2 & H1 & H2).
    apply bind_Ok in H1 as (i & w3 & H1 & H3). inversion H3; subst w3.
    apply create_reading_Ok in H1 as (_ & _ & Hw & _ & Ho & Hc).
    destruct (IH _ _ H2) as (ids & Hlen & Hr & Ha & Hs & Hp & Hout & Hcm).
    exists (i :: ids). cbn [length zip_with].
    rewrite Hr, Ha, Hs, Hp, Hout, Hw. cbn [add_reading reading asset sensor prediction].
    rewrite <- app_assoc. repeat split; auto.
    intros ->. rewrite Hcm by reflexivity. exact Hc.
Qed.

Lemma load_loop_Raise data : forall w e w1,
  load_loop PostgreSQL data w = (Raise e, w1) ->
  e = duplicate_id /\
  working w1 = committed w /\ committed w1 = committed w /\
  stdout w1 = stdout w ++ ["Erro ao executar query: " +:+ exn_str duplicate_id].
Proof.
  unfold load_loop.
  induction data as [|r data IH]; intros w e w1 H; cbn [for_each] in H.
  - inversion H.
  - cbv [mbind Py_bind] in H. cbn [create_reading] in H.
    rewrite pg_create_reading_run in H.
    destruct (has_id reading_id (next_uuid w) (reading (working w))).
    + inversion H; subst. repeat split.
    + cbv [mret Py_ret] in H.
      apply IH in H as (-> & Hw & Hc & Ho). repeat split; auto.
Qed.

(** X12. When [load_data_to_database] returns, every processed reading
    has been stored as one row, in the order of the list and after the
    rows already there, with its sensor id, timestamp and value; no
    other table has changed, and the two progress lines have been
    printed.  On the PostgreSQL connection that [DataCollector] opens,
    none of it has been committed. *)
Theorem load_data_to_database_stores_all self data w w1 :
  DataCollector.load_data_to_database self data w = (Ok tt, w1) ->
  exists ids,
    length ids = length data /\
    reading (working w1) = reading (working w) ++ zip_with row_of ids data /\
    asset (working w1) = asset (working w) /\
    sensor (working w1) = sensor (working w) /\
    stdout w1 = stdout w ++
      ["Carregando " +:+ pretty (length data) +:+ " registros no banco...";
       "Dados carregados com sucesso!"] /\
    (DataCollector.db self = PostgreSQL -> committed w1 = committed w).
Proof.
  intros H. unfold DataCollector.load_data_to_database in H.
  apply bind_Ok in H as ([] & w2 & H1 & H). inversion H1; subst w2. clear H1.
  apply bind_Ok in H as ([] & w3 & H2 & H). inversion H; subst w1. clear H.
  apply load_loop_Ok in H2 as (ids & Hlen & Hr & Ha & Hs & _ & Ho & Hc).
  exists ids. cbn [working stdout committed after_print] in *.
  rewrite Ho, <- app_assoc. repeat split; auto.
Qed.

Lemma load_data_to_database_stores_all_witness :
  let data := [DataCollector.mk_reading "id-t" 7 (1 # 2);
               DataCollector.mk_reading "id-h" 7 (3 # 2)] in
  exists w1 i1 i2,
    DataCollector.load_data_to_database DataCollectorFacts.demo_collector data
      fresh_world = (Ok tt, w1) /\
    reading (working w1) =
      [mk_reading i1 "id-t" 7 (1 # 2); mk_reading i2 "id-h" 7 (3 # 2)] /\
    committed w1 = empty_db.
Proof.
  intros data.
  destruct (DataCollector.load_data_to_database DataCollectorFacts.demo_collector
              data fresh_world) as [[[]|e] w1] eqn:H;
    [|vm_compute in H; discriminate H].
  destruct (load_data_to_database_stores_all _ _ _ _ H)
    as (ids & Hlen & Hr & _ & _ & _ & Hc).
  destruct ids as [|i1 [|i2 [|]]]; try discriminate Hlen.
  exists w1, i1, i2. split; [reflexivity|]. split; [exact Hr|].
  apply Hc. reflexivity.
Defined.



Lemma create_asset_Ok c a w i w1 :
  create_asset c a w = (Ok i, w1) ->
  working w1 = add_asset (mk_asset i (name a) (location a)) (working w) /\
  stdout w1 = stdout w /\
  committed w1 = match c with PostgreSQL => committed w | SQLite => working w1 end.
Proof.
  intros H.
  destruct c; cbn [create_asset] in H;
    rewrite ?pg_create_asset_run, ?sqlite_create_asset_run in H;
    destruct (has_id asset_id (next_uuid w) (asset (working w)));
    try discriminate H; inversion H; subst; repeat split.
Qed.

Lemma create_sensor_Ok c aid sd w i w1 :
  create_sensor c aid sd w = (Ok i, w1) ->
  working w1 = add_sensor (mk_sensor i aid (sd_name sd) (sd_type sd) (sd_unit sd)
                             (sd_min_value sd) (sd_max_value sd)) (working w) /\
  stdout w1 = stdout w /\
  committed w1 = match c with PostgreSQL => committed w | SQLite => working w1 end.
Proof.
  intros H.
  destruct c; cbn [create_sensor] in H;
    rewrite ?pg_create_sensor_run, ?sqlite_create_sensor_run in H;
    destruct (has_id sensor_id (next_uuid w) (sensor (working w)));
    try discriminate H; inversion H; subst; repeat split.
Qed.

(** X14. When [setup_assets_and_sensors] returns, the object holds the
    id of a new asset row and maps each of [S_TEMP], [S_HUMIDITY],
    [S_LIGHT] and [S_VIBRATION] to the id of a new sensor row of that
    asset, so that [process_esp32_data] finds all four.  The rows are
    appended without looking for existing ones: every call adds one
    asset and four sensors.  On the PostgreSQL connection nothing of it
    is committed. *)
Theorem setup_registers_sensors self w self' w1 :
  DataCollector.setup_assets_and_sensors self w = (Ok self', w1) ->
  exists a i1 i2 i3 i4,
    DataCollector.asset_id self' = Some a /\
    DataCollector.db self' = DataCollector.db self /\
    DataCollector.sensor_ids self' !! "S_TEMP" = Some i1 /\
    DataCollector.sensor_ids self' !! "S_HUMIDITY" = Some i2 /\
    DataCollector.sensor_ids self' !! "S_LIGHT" = Some i3 /\
    DataCollector.sensor_ids self' !! "S_VIBRATION" = Some i4 /\
    asset (working w1) =
      asset (working w) ++
      [mk_asset a "Linha de Produção Principal" "Setor A - Fábrica"] /\
    sensor (working w1) =
      sensor (working w) ++
      [mk_sensor i1 a "S_TEMP" "temperature" "°C" (-40) 80;
       mk_sensor i2 a "S_HUMIDITY" "humidity" "%" 0 100;
       mk_sensor i3 a "S_LIGHT" "luminosity" "%" 0 100;
       mk_sensor i4 a "S_VIBRATION" "vibration" "mg" 0 5000] /\
    reading (working w1) = reading (working w) /\
    (DataCollector.db self = PostgreSQL -> committed w1 = committed w).
Proof.
  intros H. unfold DataCollector.setup_assets_and_sensors in H.
  apply bind_Ok in H as (a & w2 & Ha & H).
  apply create_asset_Ok in Ha as (Ha & _ & Hca).
  apply bind_Ok in H as ([] & w3 & Hp & H). inversion Hp; subst w3. clear Hp.
  cbn [DataCollector.sensors_config for_each DataCollector.db
       DataCollector.asset_id DataCollector.sensor_ids] in H.
  repeat match type of H with
  | (_ ≫= _) _ = (Ok _, _) =>
      let i := fresh "i" in
      let w' := fresh "w" in
      let Hs := fresh "Hs" in
      let Hc := fresh "Hc" in
      let Hp := fresh "Hp" in
      let u := fresh "u" in
      let Hr := fresh "Hr" in
      apply bind_Ok in H as (? & ? & Hs & H);
      apply bind_Ok in Hs as (i & w' & Hs & Hp);
      apply create_sensor_Ok in Hs as (Hs & _ & Hc);
      apply bind_Ok in Hp as (u & ? & Hp & Hr);
      destruct u; inversion Hp; subst; clear Hp;
      inversion Hr; subst; clear Hr;
      cbn [DataCollector.db DataCollector.asset_id DataCollector.sensor_ids
           sd_name sd_type sd_unit sd_min_value sd_max_value
           working committed after_print] in *
  end.
  inversion H; subst self' w1. clear H.
  cbn [DataCollector.db DataCollector.asset_id DataCollector.sensor_ids
       working committed after_print] in *.
  exists a, i, i0, i1, i2.
  split; [reflexivity|]. split; [reflexivity|].
  do 4 (split; [simplify_map_eq; reflexivity|]).
  rewrite Hs2, Hs1, Hs0, Hs, Ha.
  cbn [add_sensor add_asset asset sensor reading name location].
  rewrite <- !app_assoc. cbn [app].
  do 3 (split; [reflexivity|]).
  intros Hdb. rewrite Hdb in *. congruence.
Qed.

Lemma setup_registers_sensors_witness :
  let self := DataCollector.mk_collector PostgreSQL None ∅ in
  exists self' w1,
    DataCollector.setup_assets_and_sensors self fresh_world = (Ok self', w1) /\
    map sensor_name (sensor (working w1)) =
      ["S_TEMP"; "S_HUMIDITY"; "S_LIGHT"; "S_VIBRATION"] /\
    committed w1 = empty_db.
Proof.
  intros self.
  destruct (DataCollector.setup_assets_and_sensors self fresh_world)
    as [[self'|e] w1] eqn:H; [|vm_compute in H; discriminate H].
  destruct (setup_registers_sensors self fresh_world self' w1 H)
    as (a & i1 & i2 & i3 & i4 & _ & _ & _ & _ & _ & _ & _ & Hs & _ & Hc).
  exists self', w1. split; [reflexivity|].
  split; [rewrite Hs; reflexivity | apply Hc; reflexivity].
Defined.

Lemma stored_rows_of_sensor sid data : forall ids,
  length ids = length data ->
  length (filter (fun r => reading_sensor r = sid) (zip_with row_of ids data)) =
    length (filter (fun r => DataCollector.sensor_id r = sid) data) /\
  forall r, r ∈ data -> DataCollector.sensor_id r = sid ->
    exists i, row_of i r ∈ filter (fun r => reading_sensor r = sid)
                              (zip_with row_of ids data).
Proof.
  induction data as [|x data IH]; intros [|i ids] Hlen; try discriminate Hlen.
  - split; [reflexivity|]. intros r Hr. inversion Hr.
  - cbn [zip_with]. rewrite !filter_cons. cbn [row_of reading_sensor].
    injection Hlen as Hlen. destruct (IH ids Hlen) as [IH1 IH2].
    split.
    + destruct (decide (DataCollector.sensor_id x = sid)); cbn [length];
        rewrite IH1; reflexivity.
    + intros r Hr Hsid. apply elem_of_cons in Hr as [->|Hr].
      * exists i. rewrite decide_True by exact Hsid. left.
      * destruct (IH2 r Hr Hsid) as [j Hj]. exists j.
        destruct (decide _); [right|]; exact Hj.
Qed.

(** X15. Round trip through the collector: after
    [load_data_to_database] has returned, [get_sensor_data] for a
    registered sensor name returns, newest first, the readings stored
    for the id the name maps to, those of the batch included.  The frame
    has [min limit n] rows, [n] counting the sensor's earlier readings
    and the batch's readings with that id, and when [n] is at most
    [limit] every such reading of the batch is a row of it. *)
Theorem loaded_readings_are_read self data w w1 sensor_name sid limit :
  DataCollector.load_data_to_database self data w = (Ok tt, w1) ->
  DataCollector.sensor_ids self !! sensor_name = Some sid -> sid <> "" ->
  let n := length (readings_of sid (working w)) +
           length (filter (fun r => DataCollector.sensor_id r = sid) data) in
  exists df,
    DataCollector.get_sensor_data self sensor_name limit w1 = (Ok df, w1) /\
    StronglySorted (fun a b => (ts b <= ts a)%Z) df /\
    length df = min limit n /\
    (n <= limit ->
     forall r, r ∈ data -> DataCollector.sensor_id r = sid ->
               mk_sample (DataCollector.ts r) (DataCollector.value r) ∈ df).
Proof.
  intros H Hid Hne n.
  unfold DataCollector.load_data_to_database in H.
  apply bind_Ok in H as ([] & w2 & H1 & H). inversion H1; subst w2. clear H1.
  apply bind_Ok in H as ([] & w3 & H2 & H). inversion H; subst w1. clear H.
  apply load_loop_Ok in H2 as (ids & Hlen & Hr & _).
  cbn [working after_print] in Hr.
  unfold DataCollector.get_sensor_data. rewrite Hid.
  destruct sid as [|ch rest]; [congruence|].
  set (sid := String ch rest) in *.
  rewrite sensor_readings_frame. eexists. split; [reflexivity|].
  cbn [working after_print].
  destruct (stored_rows_of_sensor sid data ids Hlen) as [Hcount Hmem].
  assert (Hrows : readings_of sid (working w3) =
                  readings_of sid (working w) ++
                  filter (fun r => reading_sensor r = sid) (zip_with row_of ids data)).
  { unfold readings_of. rewrite Hr. apply filter_app. }
  assert (Hn : length (order_by ts_desc (readings_of sid (working w3))) = n).
  { rewrite (Permutation_length (order_by_perm ts_desc _)), Hrows, length_app, Hcount.
    reflexivity. }
  split; [apply StronglySorted_firstn, sorted_samples|].
  split; [rewrite length_take, length_map, Hn; reflexivity|].
  intros Hle r Hin Hsid. rewrite take_ge by (rewrite length_map, Hn; exact Hle).
  destruct (Hmem r Hin Hsid) as [i Hi].
  apply (list_elem_of_fmap_2 sample_of _ (row_of i r)).
  rewrite (order_by_perm ts_desc), Hrows. apply elem_of_app. right. exact Hi.
Qed.

Lemma loaded_readings_are_read_witness :
  let data := [DataCollector.mk_reading "id-t" 7 (1 # 2);
               DataCollector.mk_reading "id-h" 7 (3 # 2)] in
  exists w1 df,
    DataCollector.load_data_to_database DataCollectorFacts.demo_collector data
      fresh_world = (Ok tt, w1) /\
    DataCollector.get_sensor_data DataCollectorFacts.demo_collector "S_TEMP" 100 w1
      = (Ok df, w1) /\
    length df = 1.
Proof.
  intros data.
  destruct (DataCollector.load_data_to_database DataCollectorFacts.demo_collector
              data fresh_world) as [[[]|e] w1] eqn:H;
    [|vm_compute in H; discriminate H].
  assert (Hid : DataCollector.sensor_ids DataCollectorFacts.demo_collector !! "S_TEMP"
                = Some "id-t") by (vm_compute; reflexivity).
  assert (Hne : "id-t" <> "") by discriminate.
  destruct (loaded_readings_are_read DataCollectorFacts.demo_collector data
              fresh_world w1 "S_TEMP" "id-t" 100 H Hid Hne)
    as (df & Hdf & _ & Hlen & _).
  exists w1, df. split; [reflexivity|]. split; [exact Hdf | exact Hlen].
Defined.

Section Process.

Variable fromisoformat : string -> option Z.
Variable pow_half : Z -> Q.

(** Every sensor name [process_esp32_data] looks up is registered. *)
Definition registered (self : DataCollector.t) : Prop :=
  forall k, k ∈ ["S_TEMP"; "S_HUMIDITY"; "S_LIGHT"; "S_VIBRATION"] ->
            DataCollector.sensor_ids self !! k <> None.

(** The exceptions [process_esp32_data] can raise on [data]. *)
Definition process_error (self : DataCollector.t)
    (data : list ESP32Simulator.record) (e : exn) : Prop :=
  (exists k, e = KeyError k /\
             k ∈ ["S_TEMP"; "S_HUMIDITY"; "S_LIGHT"; "S_VIBRATION"] /\
             DataCollector.sensor_ids self !! k = None) \/
  (exists r, r ∈ data /\ fromisoformat (ESP32Simulator.datetime r) = None /\
             e = ValueError ("Invalid isoformat string: '" +:+
                             ESP32Simulator.datetime r +:+ "'")).

(** The body of the loop of [process_esp32_data]. *)
Definition process_body (self : DataCollector.t)
    (processed_data : list DataCollector.reading) (record : ESP32Simulator.record)
  : Py (list DataCollector.reading) :=
  timestamp ← DataCollector.datetime_fromisoformat fromisoformat
                (ESP32Simulator.datetime record);
  sid ← dict_getitem (DataCollector.sensor_ids self) "S_TEMP";
  let processed_data :=
    processed_data ++ [DataCollector.mk_reading sid timestamp
                         (ESP32Simulator.temperature record)] in
  sid ← dict_getitem (DataCollector.sensor_ids self) "S_HUMIDITY";
  let processed_data :=
    processed_data ++ [DataCollector.mk_reading sid timestamp
                         (ESP32Simulator.humidity record)] in
  sid ← dict_getitem (DataCollector.sensor_ids self) "S_LIGHT";
  let processed_data :=
    processed_data ++ [DataCollector.mk_reading sid timestamp
                         (ESP32Simulator.luminosity record)] in
  let vibration :=
    pow_half (ESP32Simulator.accel_x record ^ 2 + ESP32Simulator.accel_y record ^ 2
              + ESP32Simulator.accel_z record ^ 2) in
  sid ← dict_getitem (DataCollector.sensor_ids self) "S_VIBRATION";
  let processed_data :=
    processed_data ++ [DataCollector.mk_reading sid timestamp vibration] in
  mret processed_data.

Lemma process_esp32_data_loop self data :
  DataCollector.process_esp32_data fromisoformat pow_half self data =
  for_each (process_body self) [] data.
Proof. reflexivity. Qed.

Lemma process_body_outcome self acc record w :
  snd (process_body self acc record w) = w /\
  match fst (process_body self acc record w) with
  | Ok out =>
      length out = length acc + 4 /\ registered self /\
      fromisoformat (ESP32Simulator.datetime record) <> None
  | Raise e => process_error self [record] e
  end.
Proof.
  unfold process_body, DataCollector.datetime_fromisoformat, dict_getitem.
  cbv [mbind Py_bind].
  destruct (fromisoformat (ESP32Simulator.datetime record)) as [t|] eqn:Et.
  2:{ split; [reflexivity|]. right. exists record. split; [left|]. auto. }
  cbv [mret Py_ret].
  destruct (DataCollector.sensor_ids self !! "S_TEMP") as [st|] eqn:E1.
  2:{ split; [reflexivity|]. left. exists "S_TEMP". repeat split; auto.
      apply (bool_decide_unpack _); vm_compute; exact I. }
  destruct (DataCollector.sensor_ids self !! "S_HUMIDITY") as [sh|] eqn:E2.
  2:{ split; [reflexivity|]. left. exists "S_HUMIDITY". repeat split; auto.
      apply (bool_decide_unpack _); vm_compute; exact I. }
  destruct (DataCollector.sensor_ids self !! "S_LIGHT") as [sl|] eqn:E3.
  2:{ split; [reflexivity|]. left. exists "S_LIGHT". repeat split; auto.
      apply (bool_decide_unpack _); vm_compute; exact I. }
  destruct (DataCollector.sensor_ids self !! "S_VIBRATION") as [sv|] eqn:E4.
  2:{ split; [reflexivity|]. left. exists "S_VIBRATION". repeat split; auto.
      apply (bool_decide_unpack _); vm_compute; exact I. }
  cbn [fst snd]. split; [reflexivity|]. split; [|split; [|congruence]].
  - rewrite !length_app. cbn [length]. lia.
  - intros k Hk.
    repeat (apply elem_of_cons in Hk as [->|Hk]; [congruence|]).
    inversion Hk.
Qed.

Lemma process_body_runs self acc record w :
  registered self -> fromisoformat (ESP32Simulator.datetime record) <> None ->
  exists out, process_body self acc record w = (Ok out, w).
Proof.
  intros Hreg Hts.
  unfold process_body, DataCollector.datetime_fromisoformat, dict_getitem.
  cbv [mbind Py_bind mret Py_ret].
  destruct (fromisoformat (ESP32Simulator.datetime record)); [|congruence].
  destruct (DataCollector.sensor_ids self !! "S_TEMP") eqn:E1;
    [|destruct (Hreg "S_TEMP"); [apply (bool_decide_unpack _); vm_compute; exact I|exact E1]].
  destruct (DataCollector.sensor_ids self !! "S_HUMIDITY") eqn:E2;
    [|destruct (Hreg "S_HUMIDITY"); [apply (bool_decide_unpack _); vm_compute; exact I|exact E2]].
  destruct (DataCollector.sensor_ids self !! "S_LIGHT") eqn:E3;
    [|destruct (Hreg "S_LIGHT"); [apply (bool_decide_unpack _); vm_compute; exact I|exact E3]].
  destruct (DataCollector.sensor_ids self !! "S_VIBRATION") eqn:E4;
    [|destruct (Hreg "S_VIBRATION"); [apply (bool_decide_unpack _); vm_compute; exact I|exact E4]].
  eexists. reflexivity.
Qed.

Lemma process_loop_outcome self data : forall acc w,
  snd (for_each (process_body self) acc data w) = w /\
  match fst (for_each (process_body self) acc data w) with
  | Ok out =>
      length out = length acc + 4 * length data /\
      (data = [] \/
       (registered self /\
        Forall (fun r => fromisoformat (ESP32Simulator.datetime r) <> None) data))
  | Raise e => process_error self data e
  end.
Proof.
  induction data as [|record data IH]; intros acc w.
  - cbn. split; [reflexivity|]. split; [lia | left; reflexivity].
  - cbn [for_each]. unfold mbind, Py_bind.
    destruct (process_body_outcome self acc record w) as [Hw Hb].
    destruct (process_body self acc record w) as [[acc'|e] w'].
    + cbn [fst snd] in Hw, Hb. subst w'. destruct Hb as (Hlen & Hreg & Hts).
      destruct (IH acc' w) as [IH1 IH2]. split; [exact IH1|].
      destruct (fst (for_each (process_body self) acc' data w)) as [out|e].
      * destruct IH2 as [Hlen' Hok]. split; [cbn [length]; lia|].
        right. split; [exact Hreg|]. constructor; [exact Hts|].
        destruct Hok as [->|[_ Hall]]; [constructor | exact Hall].
      * destruct IH2 as [IH2|(r & Hr & Hn & ->)]; [left; exact IH2|].
        right. exists r. split; [right; exact Hr|]. auto.
    + cbn [fst snd] in Hw, Hb |- *. split; [exact Hw|].
      destruct Hb as [Hb|(r & Hr & Hn & ->)]; [left; exact Hb|].
      right. exists r. split; [|auto].
      apply list_elem_of_singleton in Hr. subst. left.
Qed.

Lemma process_loop_runs self data : forall acc w,
  registered self ->
  Forall (fun r => fromisoformat (ESP32Simulator.datetime r) <> None) data ->
  exists out, for_each (process_body self) acc data w = (Ok out, w).
Proof.
  induction data as [|record data IH]; intros acc w Hreg Hall.
  - eexists. reflexivity.
  - inversion Hall as [|? ? Hts Hall']; subst.
    destruct (process_body_runs self acc record w Hreg Hts) as [acc' Hb].
    cbn [for_each]. rewrite (bind_step _ _ _ _ _ Hb). apply IH; assumption.
Qed.


End Process.

End CollectorRunFacts.

(** ** Training and prediction runs *)

Module LearnerRunFacts.
Import Float FloatFacts Schema Py PyFacts DB DBFacts ML MLFacts OrderFacts ConnectionFacts.
Local Open Scope Q_scope.

(** X17. The confidence [max(0.1, min(0.95, 1.0 - std / mean))] of
    [predict_single_value] lies between 0.1 and 0.95 for every value of
    the ratio, infinite or NaN included.  A NaN ratio gives the highest
    confidence, 0.95, because every comparison with NaN is false. *)
Theorem confidence_within_bounds :
  (forall x, lit_0_1 <= confidence_of x /\ confidence_of x <= lit_0_95) /\
  confidence_of NaN == lit_0_95 /\
  confidence_of PosInf == lit_0_1 /\
  confidence_of NegInf == lit_0_95.
Proof.
  assert (H19 : lit_0_1 < lit_0_95) by (vm_compute; reflexivity).
  split; [|repeat split; vm_compute; reflexivity].
  intros x. unfold confidence_of.
  destruct x as [q| | |].
  - destruct (Qltb (fsub 1 q) lit_0_95) eqn:E1.
    + apply Qltb_spec in E1.
      destruct (Qltb lit_0_1 (fsub 1 q)) eqn:E2.
      * apply Qltb_spec in E2. lra.
      * lra.
    + destruct (Qltb lit_0_1 lit_0_95) eqn:E2.
      * lra.
      * apply Qltb_false in E2. lra.
  - lra.
  - destruct (Qltb lit_0_1 lit_0_95) eqn:E2; [lra|]. apply Qltb_false in E2. lra.
  - destruct (Qltb lit_0_1 lit_0_95) eqn:E2; [lra|]. apply Qltb_false in E2. lra.
Qed.

Lemma dict_get_key {V} k (d : list (string * V)) :
  k ∈ map fst d -> exists v, dict_get k d = Some v.
Proof.
  induction d as [|[k' v'] d IH]; cbn [map fst dict_get]; intros H.
  - inversion H.
  - destruct (String.eqb k' k) eqn:E; [eauto|].
    apply String.eqb_neq in E.
    apply elem_of_cons in H as [H|H]; [congruence | auto].
Qed.

Lemma dict_in_key {V} k (d : list (string * V)) :
  dict_in k d = true <-> k ∈ map fst d.
Proof.
  unfold dict_in. induction d as [|[k' v'] d IH]; cbn [existsb map fst].
  - split; [discriminate | intros H; inversion H].
  - rewrite orb_true_iff, IH, elem_of_cons, String.eqb_eq. split; intros [H|H]; auto.
Qed.

Lemma dict_set_keys {V} k (v : V) d k' :
  k' ∈ map fst (dict_set k v d) <-> k' = k \/ k' ∈ map fst d.
Proof.
  induction d as [|[k0 v0] d IH]; cbn [dict_set map fst].
  - rewrite list_elem_of_singleton. split; [auto|]. intros [H|H]; [auto | inversion H].
  - destruct (String.eqb k0 k) eqn:E; cbn [map fst].
    + apply String.eqb_eq in E. subst k0. rewrite !elem_of_cons. tauto.
    + rewrite !elem_of_cons, IH. tauto.
Qed.

Lemma dict_get_other {V} k (v : V) d k' :
  k' <> k -> dict_get k' (dict_set k v d) = dict_get k' d.
Proof.
  intros Hne. induction d as [|[k0 v0] d IH]; cbn [dict_set dict_get].
  - destruct (String.eqb k k') eqn:E; [|reflexivity].
    apply String.eqb_eq in E. congruence.
  - destruct (String.eqb k0 k) eqn:E; cbn [dict_get].
    + apply String.eqb_eq in E. subst k0.
      destruct (String.eqb k k') eqn:E'; [|reflexivity].
      apply String.eqb_eq in E'. congruence.
    + destruct (String.eqb k0 k'); [reflexivity | exact IH].
Qed.

Lemma bind_raised {A B} (m : Py A) (f : A -> Py B) w e w' :
  (m ≫= f) w = (Raise e, w') ->
  m w = (Raise e, w') \/ exists a w1, m w = (Ok a, w1) /\ f a w1 = (Raise e, w').
Proof.
  unfold mbind, Py_bind. destruct (m w) as [[a|e1] w1]; intros H.
  - right. eauto.
  - left. inversion H; subst. reflexivity.
Qed.

Lemma dict_set_entries {V} k (v : V) d kv :
  kv ∈ dict_set k v d -> kv = (k, v) \/ kv ∈ d.
Proof.
  induction d as [|[k0 v0] d IH]; cbn [dict_set].
  - intros H. apply list_elem_of_singleton in H. auto.
  - destruct (String.eqb k0 k).
    + intros H. apply elem_of_cons in H as [H|H]; [auto|].
      right. right. exact H.
    + intros H. apply elem_of_cons in H as [H|H].
      * right. subst. left.
      * destruct (IH H) as [H'|H']; [auto|]. right. right. exact H'.
Qed.

Section Runs.

Variable model : Type.
Variable fit_linear : list (list Q) -> list Q -> model.
Variable fit_forest : list (list Q) -> list Q -> model.
Variable predict_row : model -> list Q -> Q.
Variable mean_absolute_error : list Q -> list Q -> Q.
Variable r2_score : list Q -> list Q -> Q.
Variable mean_squared_error : list Q -> list Q -> Q.
Variable importances : model -> list Q.
Variable std_over_mean : list Q -> npfloat.
Variable isoformat : Z -> string.

(** X18. [find_best_model] reads nothing but the dict of loaded models.
    It raises [ValueError] exactly when no key contains the sensor name;
    otherwise it returns a key of the dict that contains the name, so
    that the model lookup that follows it in [predict_single_value]
    cannot fail, and it returns a key without the letters [rf] only if
    no key containing the name has them. *)
Theorem find_best_model_choice (self : predictor model) name w :
  let keys := map fst (predictor_models self) in
  snd (find_best_model self name w) = w /\
  match fst (find_best_model self name w) with
  | Ok k =>
      k ∈ keys /\ contains name k = true /\
      (exists m, dict_get k (predictor_models self) = Some m) /\
      (contains "rf" k = false ->
       forall k', k' ∈ keys -> contains name k' = true -> contains "rf" k' = false)
  | Raise e =>
      e = ValueError ("Nenhum modelo encontrado para " +:+ name) /\
      forall k, k ∈ keys -> contains name k = false
  end.
Proof.
  intros keys. unfold find_best_model. fold keys.
  destruct (filter (fun k => contains name k = true) keys) as [|first rest] eqn:Ea.
  - split; [reflexivity|]. cbn [fst]. split; [reflexivity|].
    intros k Hk. destruct (contains name k) eqn:Ec; [|reflexivity].
    assert (Hin : k ∈ filter (fun k => contains name k = true) keys)
      by (apply list_elem_of_filter; auto).
    rewrite Ea in Hin. inversion Hin.
  - assert (Hsub : forall k, k ∈ first :: rest -> k ∈ keys /\ contains name k = true).
    { intros k Hk. rewrite <- Ea in Hk. apply list_elem_of_filter in Hk. tauto. }
    destruct (filter (fun k => contains "rf" k = true) (first :: rest))
      as [|rf rest'] eqn:Er.
    + split; [reflexivity|]. cbn [fst].
      destruct (Hsub first) as [Hk Hc]; [left|].
      split; [exact Hk|]. split; [exact Hc|].
      split; [apply dict_get_key; exact Hk|].
      intros _ k' Hk' Hc'. destruct (contains "rf" k') eqn:Erf; [|reflexivity].
      assert (Hin : k' ∈ filter (fun k => contains "rf" k = true) (first :: rest)).
      { apply list_elem_of_filter. split; [exact Erf|].
        rewrite <- Ea. apply list_elem_of_filter. auto. }
      rewrite Er in Hin. inversion Hin.
    + split; [reflexivity|]. cbn [fst].
      assert (Hin : rf ∈ filter (fun k => contains "rf" k = true) (first :: rest))
        by (rewrite Er; left).
      apply list_elem_of_filter in Hin as [Hrf Hin].
      destruct (Hsub rf Hin) as [Hk Hc].
      split; [exact Hk|]. split; [exact Hc|].
      split; [apply dict_get_key; exact Hk|].
      intros Hno. congruence.
Qed.

(** [get_best_model] in terms of the models at hand. *)
Lemma get_best_model_choice (self : trainer model) name w :
  let linear_key := name +:+ "_linear" in
  let rf_key := name +:+ "_rf" in
  get_best_model self name w =
    (match dict_get rf_key (trainer_models self),
           dict_get linear_key (trainer_models self) with
     | Some _, _ => Ok rf_key
     | None, Some _ => Ok linear_key
     | None, None => Raise (ValueError ("Nenhum modelo treinado para " +:+ name))
     end, w) /\
  forall k w1, get_best_model self name w = (Ok k, w1) ->
    exists m, dict_get k (trainer_models self) = Some m.
Proof.
  intros linear_key rf_key.
  assert (Hin : forall k, dict_in k (trainer_models self) = true <->
                          exists m, dict_get k (trainer_models self) = Some m).
  { intros k. rewrite dict_in_key. split; [apply dict_get_key|].
    intros [m Hm]. induction (trainer_models self) as [|[k' v'] d IH];
      cbn [dict_get map fst] in *; [discriminate|].
    destruct (String.eqb k' k) eqn:E.
    - apply String.eqb_eq in E. subst. left.
    - right. auto. }
  assert (Hrun : get_best_model self name w =
    (match dict_get rf_key (trainer_models self),
           dict_get linear_key (trainer_models self) with
     | Some _, _ => Ok rf_key
     | None, Some _ => Ok linear_key
     | None, None => Raise (ValueError ("Nenhum modelo treinado para " +:+ name))
     end, w)).
  { unfold get_best_model. fold linear_key rf_key.
    pose proof (Hin linear_key) as Hl. pose proof (Hin rf_key) as Hr.
    destruct (dict_in linear_key (trainer_models self)),
             (dict_in rf_key (trainer_models self));
      destruct (dict_get rf_key (trainer_models self)) as [mr|];
      destruct (dict_get linear_key (trainer_models self)) as [ml|];
      cbn [andb]; try reflexivity; exfalso;
      repeat match goal with
        | H : true = true <-> (exists m, None = Some m) |- _ =>
            destruct (proj1 H eq_refl) as [? ?]; discriminate
        | H : false = true <-> (exists m, Some ?x = Some m) |- _ =>
            assert (false = true) by (apply H; eauto); discriminate
        end. }
  split; [exact Hrun|].
  intros k w1 H. rewrite Hrun in H.
  destruct (dict_get rf_key (trainer_models self)) as [mr|] eqn:Er.
  - inversion H; subst. eauto.
  - destruct (dict_get linear_key (trainer_models self)) as [ml|] eqn:El;
      inversion H; subst. eauto.
Qed.

(** *** Training *)

(** The run left the database as it was in [w0]. *)
Definition same_db (w0 w : world) : Prop :=
  working w = working w0 /\ committed w = committed w0.

Lemma keeps_print_db w0 line : keeps (same_db w0) (print line).
Proof. intros w r w' H E. inversion E; subst. exact H. Qed.

Lemma keeps_by_name_db w0 c name limit :
  keeps (same_db w0) (get_sensor_readings_by_name c name limit).
Proof.
  intros w r w' H E. destruct c; cbn [get_sensor_readings_by_name] in E.
  - inversion E; subst. exact H.
  - rewrite by_name_run in E. inversion E; subst. exact H.
Qed.

Lemma keeps_select_db w0 names df : keeps (same_db w0) (select names df).
Proof.
  intros w r w' H E. unfold select in E.
  destruct (forallb _ names); inversion E; subst; exact H.
Qed.

Lemma keeps_check_array_db {A} w0 (X : list A) : keeps (same_db w0) (check_array X).
Proof. intros w r w' H E. destruct X; inversion E; subst; exact H. Qed.

Ltac same_db :=
  repeat first
    [ apply keeps_ret | apply keeps_raise | apply keeps_print_db
    | apply keeps_by_name_db | apply keeps_select_db | apply keeps_check_array_db
    | apply keeps_bind | apply keeps_try_except | apply keeps_for_each
    | match goal with |- forall _, _ => intros ? end
    | progress cbv zeta
    | match goal with
      | |- keeps _ (match ?x with _ => _ end) => destruct x
      | |- keeps _ (if ?x then _ else _) => destruct x
      | |- keeps _ (let '(_, _) := ?x in _) => destruct x
      end ].

Lemma keeps_prepare_db w0 (self : trainer model) name limit :
  keeps (same_db w0) (prepare_training_data self name limit).
Proof. unfold prepare_training_data. same_db. Qed.

Lemma keeps_train_linear_db w0 (self : trainer model) name ts :
  keeps (same_db w0)
    (train_linear_model fit_linear predict_row mean_absolute_error r2_score
       mean_squared_error importances self name ts).
Proof.
  unfold train_linear_model. same_db.
Qed.

Lemma keeps_train_forest_db w0 (self : trainer model) name ts :
  keeps (same_db w0)
    (train_random_forest_model fit_forest predict_row mean_absolute_error r2_score
       mean_squared_error importances self name ts).
Proof.
  unfold train_random_forest_model. same_db.
Qed.

Lemma prepare_training_data_Ok (self : trainer model) name limit w r w' :
  prepare_training_data self name limit w = (Ok r, w') -> trainer_db self = SQLite.
Proof.
  unfold prepare_training_data. intros H.
  apply bind_Ok in H as (df & w1 & H & _).
  apply by_name_Ok in H as (Hc & _). exact Hc.
Qed.

Lemma train_linear_model_Ok (self : trainer model) name ts w res self' w' :
  train_linear_model fit_linear predict_row mean_absolute_error r2_score
    mean_squared_error importances self name ts w = (Ok (res, self'), w') ->
  trainer_db self = SQLite /\
  exists m,
    self' = mk_trainer (trainer_db self)
              (dict_set (name +:+ "_linear") m (trainer_models self))
              (trainer_feature_columns self).
Proof.
  unfold train_linear_model. intros H.
  apply bind_Ok in H as ([] & w1 & _ & H).
  apply bind_Ok in H as ([X y] & w2 & Hprep & H).
  apply prepare_training_data_Ok in Hprep.
  apply bind_Ok in H as ([] & w3 & _ & H).
  apply bind_Ok in H as ([] & w4 & _ & H).
  inversion H; subst. split; [exact Hprep|]. eauto.
Qed.

Lemma train_random_forest_model_Ok (self : trainer model) name ts w res self' w' :
  train_random_forest_model fit_forest predict_row mean_absolute_error r2_score
    mean_squared_error importances self name ts w = (Ok (res, self'), w') ->
  trainer_db self = SQLite /\
  exists m,
    self' = mk_trainer (trainer_db self)
              (dict_set (name +:+ "_rf") m (trainer_models self))
              (trainer_feature_columns self).
Proof.
  unfold train_random_forest_model. intros H.
  apply bind_Ok in H as ([] & w1 & _ & H).
  apply bind_Ok in H as ([X y] & w2 & Hprep & H).
  apply prepare_training_data_Ok in Hprep.
  apply bind_Ok in H as ([] & w3 & _ & H).
  apply bind_Ok in H as ([] & w4 & _ & H).
  inversion H; subst. split; [exact Hprep|]. eauto.
Qed.

Lemma append_cancel (s a b : string) : s +:+ a = s +:+ b -> a = b.
Proof.
  induction s as [|c s IH]; cbn [String.append]; intros H; [exact H|].
  injection H as H. auto.
Qed.

(** X19. After the two trainings of a sensor, in the order of
    [train_all_models], [get_best_model] never raises for it: after the
    linear training it returns the linear key, unless a Random Forest
    model of the sensor was already there, and after the Random Forest
    training it returns the Random Forest key, so [predict_next_value]
    with [model_type = 'auto'] uses the Random Forest model; the linear
    model stays registered. *)
Theorem best_model_after_training (self : trainer model) name ts w r1 s1 w1 r2 s2 w2 :
  train_linear_model fit_linear predict_row mean_absolute_error r2_score
    mean_squared_error importances self name ts w = (Ok (r1, s1), w1) ->
  train_random_forest_model fit_forest predict_row mean_absolute_error r2_score
    mean_squared_error importances s1 name ts w1 = (Ok (r2, s2), w2) ->
  get_best_model s1 name w1 =
    (Ok (if dict_in (name +:+ "_rf") (trainer_models self)
         then name +:+ "_rf" else name +:+ "_linear"), w1) /\
  get_best_model s2 name w2 = (Ok (name +:+ "_rf"), w2) /\
  (exists m, dict_get (name +:+ "_linear") (trainer_models s2) = Some m).
Proof.
  intros H1 H2.
  apply train_linear_model_Ok in H1 as (_ & m1 & ->).
  apply train_random_forest_model_Ok in H2 as (_ & m2 & ->).
  cbn [trainer_db trainer_models trainer_feature_columns].
  assert (Hne : name +:+ "_rf" <> name +:+ "_linear")
    by (intros E; apply append_cancel in E; discriminate E).
  split; [|split].
  - rewrite (proj1 (get_best_model_choice _ name w1)). cbn [trainer_models].
    rewrite dict_get_set, (dict_get_other _ _ _ _ Hne).
    destruct (dict_in (name +:+ "_rf") (trainer_models self)) eqn:Ein.
    + apply dict_in_key, dict_get_key in Ein as [m Hm]. rewrite Hm. reflexivity.
    + destruct (dict_get (name +:+ "_rf") (trainer_models self)) as [m|] eqn:Eg;
        [|reflexivity].
      assert (Hin : dict_in (name +:+ "_rf") (trainer_models self) = true).
      { apply dict_in_key. clear - Eg.
        induction (trainer_models self) as [|[k' v'] d IH];
          cbn [dict_get map fst] in *; [discriminate|].
        destruct (String.eqb k' (name +:+ "_rf")) eqn:E.
        - apply String.eqb_eq in E. subst. left.
        - right. auto. }
      congruence.
  - rewrite (proj1 (get_best_model_choice _ name w2)). cbn [trainer_models].
    rewrite dict_get_set. reflexivity.
  - exists m1. rewrite dict_get_other by congruence. apply dict_get_set.
Qed.

(** The body of the loop of [train_all_models]. *)
Definition train_one
  : list (string * (training_results + string)) * trainer model -> string ->
    Py (list (string * (training_results + string)) * trainer model) :=
  fun '(results, self) sensor =>
  let handler (results : list (string * (training_results + string)))
              (self : trainer model) (e : exn) :=
    _ ← print ("Erro ao treinar modelo para " +:+ sensor +:+ ": " +:+ exn_str e);
    mret (dict_set (sensor +:+ "_error") (inr (exn_str e)) results, self) in
  try_except
    ('(linear_results, self) ←
       train_linear_model fit_linear predict_row mean_absolute_error r2_score
         mean_squared_error importances self sensor lit_0_2;
     let results := dict_set (sensor +:+ "_linear") (inl linear_results) results in
     try_except
       ('(rf_results, self) ←
          train_random_forest_model fit_forest predict_row mean_absolute_error
            r2_score mean_squared_error importances self sensor lit_0_2;
        let results := dict_set (sensor +:+ "_rf") (inl rf_results) results in
        mret (results, self))
       (handler results self))
    (handler results self).

Lemma train_all_models_loop (self : trainer model) sensors :
  train_all_models fit_linear fit_forest predict_row mean_absolute_error r2_score
    mean_squared_error importances self sensors =
  for_each train_one ([], self) sensors.
Proof. reflexivity. Qed.

(** What one round of the loop guarantees. *)
Definition trained_or_failed (sensor : string)
    (results : list (string * (training_results + string)))
    (self : trainer model) : Prop :=
  dict_in (sensor +:+ "_error") results = true \/
  (dict_in (sensor +:+ "_linear") results = true /\
   dict_in (sensor +:+ "_rf") results = true /\
   dict_in (sensor +:+ "_linear") (trainer_models self) = true /\
   dict_in (sensor +:+ "_rf") (trainer_models self) = true).

Lemma dict_in_set {V} k (v : V) d k' :
  dict_in k' (dict_set k v d) = true <-> k' = k \/ dict_in k' d = true.
Proof. rewrite !dict_in_key. apply dict_set_keys. Qed.

Lemma train_one_outcome results self sensor w :
  exists results' self' w',
    train_one (results, self) sensor w = (Ok (results', self'), w') /\
    same_db w w' /\
    trainer_db self' = trainer_db self /\
    (forall k, dict_in k results = true -> dict_in k results' = true) /\
    (forall k, dict_in k (trainer_models self) = true ->
               dict_in k (trainer_models self') = true) /\
    trained_or_failed sensor results' self' /\
    (trainer_db self = PostgreSQL ->
     self' = self /\
     results' = dict_set (sensor +:+ "_error")
                  (inr (exn_str (AttributeError "get_sensor_readings_by_name")))
                  results).
Proof.
  unfold train_one, try_except.
  match goal with
  | |- context [match ?m w with _ => _ end] =>
      destruct (m w) as [[[results' self'] | e] w'] eqn:E
  end.
  - (* both trainings returned, or the second one was handled *)
    apply bind_Ok in E as ([lr self1] & w1 & Hl & E).
    pose proof (keeps_train_linear_db w _ _ _ _ _ _ (conj eq_refl eq_refl) Hl) as Hw1.
    apply train_linear_model_Ok in Hl as (Hdb & m1 & ->).
    unfold try_except in E.
    match type of E with
    | context [match ?m w1 with _ => _ end] =>
        destruct (m w1) as [[[results2 self2] | e2] w2] eqn:E2
    end.
    + apply bind_Ok in E2 as ([rr self3] & w3 & Hr & E2).
      pose proof (keeps_train_forest_db w _ _ _ _ _ _ Hw1 Hr) as Hw3.
      apply train_random_forest_model_Ok in Hr as (_ & m2 & ->).
      inversion E2; subst. inversion E; subst. clear E E2.
      eexists _, _, _. split; [reflexivity|]. split; [exact Hw3|].
      split; [reflexivity|]. cbn [trainer_models].
      split; [intros k Hk; rewrite !dict_in_set; auto|].
      split; [intros k Hk; rewrite !dict_in_set; auto|].
      split; [|rewrite Hdb; discriminate].
      right. cbn [trainer_models]. rewrite !dict_in_set. auto 6.
    + cbv [mbind mret Py_bind Py_ret print] in E. inversion E; subst. clear E.
      assert (Hw2 : same_db w w2).
      { apply bind_raised in E2 as [Hr | ([rr self3] & w3 & _ & Hbad)];
          [|discriminate Hbad].
        exact (keeps_train_forest_db w _ _ _ _ _ _ Hw1 Hr). }
      eexists _, _, _. split; [reflexivity|].
      split; [exact Hw2|]. split; [reflexivity|]. cbn [trainer_models].
      split; [intros k Hk; rewrite !dict_in_set; auto|].
      split; [intros k Hk; rewrite !dict_in_set; auto|].
      split; [|rewrite Hdb; discriminate].
      left. rewrite !dict_in_set. auto.
  - (* the linear training raised *)
    assert (Hl : train_linear_model fit_linear predict_row mean_absolute_error r2_score
                   mean_squared_error importances self sensor lit_0_2 w = (Raise e, w')).
    { apply bind_raised in E as [Hl | ([lr self1] & w1 & _ & Hbad)]; [exact Hl|].
      exfalso. unfold try_except in Hbad.
      match type of Hbad with
      | context [match ?m w1 with _ => _ end] =>
          destruct (m w1) as [[[? ?]|?] ?]; discriminate Hbad
      end. }
    pose proof (keeps_train_linear_db w _ _ _ _ _ _ (conj eq_refl eq_refl) Hl) as Hw'.
    eexists _, _, _. split; [reflexivity|].
    split; [exact Hw'|]. split; [reflexivity|].
    split; [intros k Hk; rewrite !dict_in_set; auto|].
    split; [auto|].
    split; [left; rewrite dict_in_set; auto|].
    intros Hpg. split; [reflexivity|].
    unfold train_linear_model, prepare_training_data in Hl.
    rewrite Hpg in Hl. cbn [get_sensor_readings_by_name] in Hl.
    cbv [mbind Py_bind print raise] in Hl. inversion Hl; subst. reflexivity.
Qed.

Lemma train_loop_outcome sensors : forall results (self : trainer model) w,
  exists results' self' w',
    for_each train_one (results, self) sensors w = (Ok (results', self'), w') /\
    same_db w w' /\
    trainer_db self' = trainer_db self /\
    (forall k, dict_in k results = true -> dict_in k results' = true) /\
    (forall k, dict_in k (trainer_models self) = true ->
               dict_in k (trainer_models self') = true) /\
    (forall s, s ∈ sensors -> trained_or_failed s results' self') /\
    (trainer_db self = PostgreSQL ->
     self' = self /\
     (forall s, s ∈ sensors -> dict_in (s +:+ "_error") results' = true) /\
     forall kv, kv ∈ results' ->
       kv ∈ results \/
       exists s, s ∈ sensors /\
         kv = (s +:+ "_error",
               inr (exn_str (AttributeError "get_sensor_readings_by_name")))).
Proof.
  induction sensors as [|sensor sensors IH]; intros results self w.
  - exists results, self, w. split; [reflexivity|]. split; [split; reflexivity|].
    split; [reflexivity|]. split; [auto|]. split; [auto|].
    split; [intros s Hs; inversion Hs|]. intros _. split; [reflexivity|].
    split; [intros s Hs; inversion Hs | auto].
  - destruct (train_one_outcome results self sensor w)
      as (r1 & s1 & w1 & H1 & [Hw1 Hc1] & Hdb1 & Hr1 & Hm1 & Ht1 & Hpg1).
    destruct (IH r1 s1 w1)
      as (r2 & s2 & w2 & H2 & [Hw2 Hc2] & Hdb2 & Hr2 & Hm2 & Ht2 & Hpg2).
    exists r2, s2, w2. cbn [for_each]. rewrite (bind_step _ _ _ _ _ H1).
    split; [exact H2|]. split; [split; congruence|]. split; [congruence|].
    split; [auto|]. split; [auto|]. split.
    + intros s Hs. apply elem_of_cons in Hs as [->|Hs]; [|auto].
      destruct Ht1 as [He | (Ha & Hb & Hc & Hd)]; [left; auto|].
      right. auto.
    + intros Hpg. destruct (Hpg1 Hpg) as [-> ->].
      destruct (Hpg2 Hpg) as (-> & Herr & Hentries). split; [reflexivity|].
      split.
      { intros s Hs. apply elem_of_cons in Hs as [->|Hs]; [|auto].
        apply Hr2. apply dict_in_set. auto. }
      intros kv Hkv. destruct (Hentries kv Hkv) as [Hin | (s & Hs & ->)].
      * apply dict_set_entries in Hin as [-> | Hin]; [|auto].
        right. exists sensor. split; [left | reflexivity].
      * right. exists s. split; [right; exact Hs | reflexivity].
Qed.

(** X20. [train_all_models] never raises, whatever the sensors and the
    data: an exception of a training is caught, printed and recorded.
    It changes nothing in the database, keeps the models trained
    before, and for every sensor of the list the results hold either an
    entry [<sensor>_error] or both entries [<sensor>_linear] and
    [<sensor>_rf], in which case both models are registered in
    [self.models]. *)
Theorem train_all_models_never_raises (self : trainer model) sensors w :
  exists results self' w',
    train_all_models fit_linear fit_forest predict_row mean_absolute_error r2_score
      mean_squared_error importances self sensors w = (Ok (results, self'), w') /\
    working w' = working w /\ committed w' = committed w /\
    (forall k, dict_in k (trainer_models self) = true ->
               dict_in k (trainer_models self') = true) /\
    (forall s, s ∈ sensors ->
       dict_in (s +:+ "_error") results = true \/
       (dict_in (s +:+ "_linear") results = true /\
        dict_in (s +:+ "_rf") results = true /\
        dict_in (s +:+ "_linear") (trainer_models self') = true /\
        dict_in (s +:+ "_rf") (trainer_models self') = true)).
Proof.
  destruct (train_loop_outcome sensors [] self w)
    as (r & s & w' & H & [Hw Hc] & _ & _ & Hm & Ht & _).
  exists r, s, w'. rewrite train_all_models_loop.
  split; [exact H|]. split; [exact Hw|]. split; [exact Hc|]. split; [exact Hm|].
  exact Ht.
Qed.

(** X21. On the PostgreSQL class, which has no method
    [get_sensor_readings_by_name], nothing is ever trained:
    [train_linear_model] and [train_random_forest_model] raise
    [AttributeError] after printing their first line, and
    [train_all_models] returns a dict with nothing but one
    [<sensor>_error] entry per sensor, leaving [self.models] as it
    was. *)
Theorem training_on_postgresql_fails (self : trainer model) sensors w :
  trainer_db self = PostgreSQL ->
  let missing := AttributeError "get_sensor_readings_by_name" in
  (forall name ts,
     fst (train_linear_model fit_linear predict_row mean_absolute_error r2_score
            mean_squared_error importances self name ts w) = Raise missing) /\
  (forall name ts,
     fst (train_random_forest_model fit_forest predict_row mean_absolute_error
            r2_score mean_squared_error importances self name ts w) = Raise missing) /\
  exists results w',
    train_all_models fit_linear fit_forest predict_row mean_absolute_error r2_score
      mean_squared_error importances self sensors w = (Ok (results, self), w') /\
    (forall s, s ∈ sensors -> dict_in (s +:+ "_error") results = true) /\
    forall kv, kv ∈ results ->
      exists s, s ∈ sensors /\ kv = (s +:+ "_error", inr (exn_str missing)).
Proof.
  intros Hpg missing. split; [|split].
  - intros name ts. unfold train_linear_model, prepare_training_data.
    rewrite Hpg. reflexivity.
  - intros name ts. unfold train_random_forest_model, prepare_training_data.
    rewrite Hpg. reflexivity.
  - destruct (train_loop_outcome sensors [] self w)
      as (r & s & w' & H & _ & _ & _ & _ & _ & Hentries).
    destruct (Hentries Hpg) as (-> & Herr & Hall).
    exists r, w'. rewrite train_all_models_loop. split; [exact H|].
    split; [exact Herr|].
    intros kv Hkv. destruct (Hall kv Hkv) as [Hnil | Hs]; [inversion Hnil | exact Hs].
Qed.

Lemma prepare_training_data_reads (self : trainer model) name limit w w' :
  working w = working w' ->
  snd (prepare_training_data self name limit w) = w /\
  fst (prepare_training_data self name limit w) =
  fst (prepare_training_data self name limit w').
Proof.
  intros Hw. unfold prepare_training_data.
  destruct (trainer_db self); cbn [get_sensor_readings_by_name].
  - split; reflexivity.
  - rewrite (bind_step _ _ _ _ _ (by_name_run name limit w)).
    rewrite (bind_step _ _ _ _ _ (by_name_run name limit w')).
    rewrite Hw.
    destruct (DataFrame _) as [|s0 df]; [split; reflexivity|].
    cbv zeta. destruct (length _ <? 10)%nat; [split; reflexivity|].
    unfold select. destruct (forallb _ _); split; reflexivity.
Qed.


(** *** Evaluation *)

Lemma by_name_frame_length name limit d :
  length (DataFrame (take limit
            (map (fun r => (reading_ts r, reading_value r))
               (order_by ts_desc (readings_by_name name d))))) =
  min limit (length (readings_by_name name d)).
Proof.
  unfold DataFrame. rewrite length_map, length_take, length_map, order_by_length.
  reflexivity.
Qed.


(** [int(n * 0.2)], computed in binary64, is [floor (n / 5)] for every
    row count the evaluation query can deliver. *)
Lemma test_size_default n :
  (n <= 100)%nat ->
  py_int (fmul (inject_Z (Z.of_nat n)) lit_0_2) = Z.of_nat (n / 5).
Proof.
  intros Hn.
  assert (H : forallb (fun n => (py_int (fmul (inject_Z (Z.of_nat n)) lit_0_2)
                                 =? Z.of_nat (n / 5))%Z) (seq 0 101) = true)
    by (vm_compute; reflexivity).
  rewrite forallb_forall in H. apply Z.eqb_eq, H, in_seq. lia.
Qed.

(** The body of the loop of [evaluate_model_performance]. *)
Definition evaluate_one (sensor_name : string) (X_test : list (list Q))
    (y_test : list Q)
  : list (string * (evaluation + string)) -> string * model ->
    Py (list (string * (evaluation + string))) :=
  fun results '(model_key, model) =>
    if contains sensor_name model_key
    then
      try_except
        (_ ← check_array X_test;
         let y_pred := predict predict_row model X_test in
         let mae := mean_absolute_error y_test y_pred in
         let r2 := r2_score y_test y_pred in
         mret (dict_set model_key (inl (mk_evaluation mae r2 (length y_test))) results))
        (fun e => mret (dict_set model_key (inr (exn_str e)) results))
    else mret results.

Lemma evaluate_one_run name x0 X y_test results key (m : model) w :
  evaluate_one name (x0 :: X) y_test results (key, m) w =
    (Ok (if contains name key
         then dict_set key
                (inl (mk_evaluation
                        (mean_absolute_error y_test (predict predict_row m (x0 :: X)))
                        (r2_score y_test (predict predict_row m (x0 :: X)))
                        (length y_test))) results
         else results), w).
Proof. unfold evaluate_one. destruct (contains name key); reflexivity. Qed.

Lemma evaluate_loop name X_test y_test (models : list (string * model)) :
  X_test <> [] ->
  forall results w,
  exists results',
    for_each (evaluate_one name X_test y_test) results models w = (Ok results', w) /\
    (forall k, dict_in k results' = true <->
               dict_in k results = true \/
               (dict_in k models = true /\ contains name k = true)) /\
    (forall kv, kv ∈ results' ->
       kv ∈ results \/
       exists e, snd kv = inl e /\ eval_test_samples e = length y_test).
Proof.
  intros HX. destruct X_test as [|x0 X]; [congruence|]. clear HX.
  induction models as [|[key m] models IH]; intros results w.
  - exists results. split; [reflexivity|]. split; [|auto].
    intros k. split; [auto|]. intros [H|[H _]]; [exact H | discriminate H].
  - cbn [for_each]. rewrite (bind_step _ _ _ _ _ (evaluate_one_run _ _ _ _ _ _ _ _)).
    assert (Hcons : forall k, dict_in k ((key, m) :: models) = true <->
                              k = key \/ dict_in k models = true).
    { intros k. unfold dict_in. cbn [existsb fst].
      rewrite orb_true_iff, String.eqb_eq. split; intros [H|H]; auto. }
    destruct (contains name key) eqn:Ec.
    + match goal with
      | |- context [for_each _ ?r models w] => destruct (IH r w) as (res & H & Hk & He)
      end.
      exists res. split; [exact H|]. split.
      * intros k. rewrite Hk, dict_in_set, Hcons. split.
        -- intros [[->|H1]|[H1 H2]]; auto.
        -- intros [H1|[[->|H1] H2]]; auto.
      * intros kv Hkv. destruct (He kv Hkv) as [Hin|Hok]; [|auto].
        apply dict_set_entries in Hin as [->|Hin]; [|auto].
        right. eexists. split; reflexivity.
    + destruct (IH results w) as (res & H & Hk & He).
      exists res. split; [exact H|]. split; [|exact He].
      intros k. rewrite Hk, Hcons. split.
      * intros [H1|[H1 H2]]; auto.
      * intros [H1|[[->|H1] H2]]; auto. congruence.
Qed.


(** *** Prediction *)

(** Since [w0] the run has added predictions and nothing else, and has
    left nothing uncommitted. *)
Definition only_predictions_added (w0 w : world) : Prop :=
  working w = committed w /\
  asset (working w) = asset (working w0) /\
  sensor (working w) = sensor (working w0) /\
  reading (working w) = reading (working w0) /\
  exists added, prediction (working w) = prediction (working w0) ++ added.

Lemma keeps_by_name_added w0 c name limit :
  keeps (only_predictions_added w0) (get_sensor_readings_by_name c name limit).
Proof.
  intros w r w' H E. destruct c; cbn [get_sensor_readings_by_name] in E.
  - inversion E; subst. exact H.
  - rewrite by_name_run in E. inversion E; subst. exact H.
Qed.

Lemma keeps_sensor_id_added w0 c name :
  keeps (only_predictions_added w0) (get_sensor_id_by_name c name).
Proof.
  intros w r w' H E. destruct c; cbn [get_sensor_id_by_name] in E.
  - inversion E; subst. exact H.
  - rewrite sensor_id_run in E. inversion E; subst. exact H.
Qed.

Lemma keeps_create_prediction_added w0 c sid v conf ver :
  keeps (only_predictions_added w0) (create_prediction c sid v conf ver).
Proof.
  intros w r w' (Hp & Ha & Hs & Hr & added & Hadd) E.
  destruct c; cbn [create_prediction] in E.
  - inversion E; subst. repeat split; eauto.
  - rewrite create_prediction_run in E.
    destruct sid as [s|].
    + destruct (has_id _ _ _); inversion E; subst;
        unfold only_predictions_added;
        cbn [working committed failed after_rollback after_print after_draw
             after_commit set_working add_prediction asset sensor reading prediction].
      * rewrite <- Hp. repeat split; eauto.
      * repeat split; auto. eexists. rewrite Hadd, <- app_assoc. reflexivity.
    + inversion E; subst. unfold only_predictions_added.
      cbn [working committed failed after_rollback after_print after_draw].
      rewrite <- Hp. repeat split; eauto.
Qed.

Lemma keeps_now_added w0 : keeps (only_predictions_added w0) now.
Proof. intros w r w' H E. inversion E; subst. exact H. Qed.

Ltac added :=
  repeat first
    [ apply keeps_ret | apply keeps_raise | apply keeps_now_added
    | apply keeps_by_name_added | apply keeps_sensor_id_added
    | apply keeps_create_prediction_added
    | apply keeps_bind | apply keeps_try_except | apply keeps_for_each
    | match goal with |- forall _, _ => intros ? end
    | progress cbv zeta
    | match goal with
      | |- keeps _ (match ?x with _ => _ end) => destruct x
      | |- keeps _ (if ?x then _ else _) => destruct x
      end ].

Lemma keeps_predict_single_value_added w0 (self : predictor model) name model_name :
  keeps (only_predictions_added w0)
    (predict_single_value predict_row std_over_mean isoformat self name model_name).
Proof.
  unfold predict_single_value, find_best_model, prepare_features, first_prediction,
    select, check_array, first_row.
  added.
Qed.

Lemma insert_sorted_last {A} (le : A -> A -> bool) x l :
  (forall y, y ∈ l -> le x y = false) -> insert_sorted le x l = l ++ [x].
Proof.
  induction l as [|y l IH]; intros H; cbn [insert_sorted app]; [reflexivity|].
  rewrite (H y) by left. f_equal. apply IH. intros z Hz. apply H. right. exact Hz.
Qed.

(** Sorting by ascending timestamp a frame that starts with the three
    newest rows, newest first. *)
Lemma sort_values_newest sa sb sc (rest : frame) :
  (ts sa < ts sb < ts sc)%Z ->
  (forall s, s ∈ rest -> (ts s < ts sa)%Z) ->
  sort_values (sc :: sb :: sa :: rest) = sort_values rest ++ [sa; sb; sc].
Proof.
  intros Habc Hrest. unfold sort_values, order_by. cbn [foldr].
  fold (order_by (fun a b : sample => (ts a <=? ts b)%Z) rest).
  set (pre := order_by _ rest).
  assert (Hpre : forall s, s ∈ pre -> (ts s < ts sa)%Z).
  { intros s Hs. apply Hrest. unfold pre in Hs.
    rewrite (OrderFacts.order_by_perm _ rest) in Hs. exact Hs. }
  rewrite (insert_sorted_last _ sa pre).
  2:{ intros y Hy. apply Z.leb_gt. auto. }
  rewrite (insert_sorted_last _ sb (pre ++ [sa])).
  2:{ intros y Hy. apply Z.leb_gt. apply elem_of_app in Hy as [Hy|Hy].
      - specialize (Hpre y Hy). lia.
      - apply list_elem_of_singleton in Hy. subst. lia. }
  rewrite (insert_sorted_last _ sc ((pre ++ [sa]) ++ [sb])).
  2:{ intros y Hy. apply Z.leb_gt. apply elem_of_app in Hy as [Hy|Hy].
      - apply elem_of_app in Hy as [Hy|Hy].
        + specialize (Hpre y Hy). lia.
        + apply list_elem_of_singleton in Hy. subst. lia.
      - apply list_elem_of_singleton in Hy. subst. lia. }
  rewrite <- !app_assoc. reflexivity.
Qed.

Lemma tail_lag_rows pre sa sb sc :
  tail 1 (map feature_vector (lag_rows (pre ++ [sa; sb; sc]))) =
    [[value sb; value sa; (value sa + value sb + value sc) / 3;
      inject_Z (hour_of (ts sc))]].
Proof.
  unfold tail. rewrite length_map, lag_rows_length, length_app. cbn [length].
  replace (length pre + 3 - 2 - 1)%nat with (length pre) by lia.
  rewrite skipn_map.
  assert (H : drop (length pre) (lag_rows (pre ++ [sa; sb; sc])) =
              [mk_full (ts sc) (value sc) (value sb) (value sa)
                 ((value sa + value sb + value sc) / 3) (hour_of (ts sc))]).
  { apply list_eq. intros i. rewrite lookup_drop, lag_rows_lookup.
    destruct i as [|i].
    - rewrite Nat.add_0_r.
      rewrite (lookup_app_r pre _ (length pre)) by lia.
      rewrite (lookup_app_r pre _ (S (length pre))) by lia.
      rewrite (lookup_app_r pre _ (S (S (length pre)))) by lia.
      replace (length pre - length pre)%nat with 0%nat by lia.
      replace (S (length pre) - length pre)%nat with 1%nat by lia.
      replace (S (S (length pre)) - length pre)%nat with 2%nat by lia.
      reflexivity.
    - assert (Hnone : (pre ++ [sa; sb; sc]) !! S (S (length pre + S i)) = None).
      { apply lookup_ge_None_2. rewrite length_app. cbn [length]. lia. }
      destruct (_ !! (length pre + S i)%nat); [|reflexivity].
      destruct (_ !! S (length pre + S i)); [|reflexivity].
      unfold frame. rewrite Hnone. reflexivity. }
  rewrite H. reflexivity.
Qed.


(** The body of the loop of [predict_multiple_sensors]. *)
Definition predict_one (self : predictor model)
    (predictions : list (string * (prediction_result + string))) (sensor_name : string)
  : Py (list (string * (prediction_result + string))) :=
  try_except
    (pred ← predict_single_value predict_row std_over_mean isoformat self
              sensor_name None;
     mret (dict_set sensor_name (inl pred) predictions))
    (fun e => mret (dict_set sensor_name (inr (exn_str e)) predictions)).

Lemma predict_multiple_sensors_loop (self : predictor model) names :
  predict_multiple_sensors predict_row std_over_mean isoformat self names =
  for_each (predict_one self) [] names.
Proof. reflexivity. Qed.

Lemma predict_one_outcome (self : predictor model) predictions name w0 w :
  only_predictions_added w0 w ->
  exists v w',
    predict_one self predictions name w = (Ok (dict_set name v predictions), w') /\
    only_predictions_added w0 w'.
Proof.
  intros Hw. unfold predict_one, try_except.
  destruct (predict_single_value predict_row std_over_mean isoformat self name None w)
    as [[pred|e] w1] eqn:E.
  - rewrite (bind_step _ _ _ _ _ E). eexists _, _. split; [reflexivity|].
    exact (keeps_predict_single_value_added w0 _ _ _ _ _ _ Hw E).
  - rewrite (bind_raise _ _ _ _ _ E). eexists _, _. split; [reflexivity|].
    exact (keeps_predict_single_value_added w0 _ _ _ _ _ _ Hw E).
Qed.

Lemma predict_loop_outcome (self : predictor model) names w0 :
  forall predictions w,
    only_predictions_added w0 w ->
    exists result w',
      for_each (predict_one self) predictions names w = (Ok result, w') /\
      only_predictions_added w0 w' /\
      forall n, dict_in n result = true <-> n ∈ names \/ dict_in n predictions = true.
Proof.
  induction names as [|name names IH]; intros predictions w Hw.
  - exists predictions, w. split; [reflexivity|]. split; [exact Hw|].
    intros n. split; [auto|]. intros [H|H]; [inversion H | exact H].
  - destruct (predict_one_outcome self predictions name w0 w Hw) as (v & w1 & H1 & Hw1).
    destruct (IH (dict_set name v predictions) w1 Hw1)
      as (result & w' & H2 & Hw' & Hkeys).
    exists result, w'. cbn [for_each]. rewrite (bind_step _ _ _ _ _ H1).
    split; [exact H2|]. split; [exact Hw'|].
    intros n. rewrite Hkeys, dict_in_set, elem_of_cons. split.
    + intros [H|[H|H]]; auto.
    + intros [[H|H]|H]; auto.
Qed.

(** X22. [predict_multiple_sensors] never raises: whatever goes wrong
    for a sensor is recorded as that sensor's [error] entry.  The dict
    it returns has exactly the given sensor names as keys.  On a
    connection without uncommitted changes the run only appends rows to
    the prediction table, all committed when it returns; assets,
    sensors and readings stay as they were. *)
Theorem predict_multiple_sensors_never_raises (self : predictor model) names w :
  working w = committed w ->
  exists predictions w' added,
    predict_multiple_sensors predict_row std_over_mean isoformat self names w
      = (Ok predictions, w') /\
    (forall n, dict_in n predictions = true <-> n ∈ names) /\
    prediction (working w') = prediction (working w) ++ added /\
    asset (working w') = asset (working w) /\
    sensor (working w') = sensor (working w) /\
    reading (working w') = reading (working w) /\
    committed w' = working w'.
Proof.
  intros Hp.
  assert (Hw : only_predictions_added w w).
  { split; [exact Hp|]. do 3 (split; [reflexivity|]).
    exists []. rewrite app_nil_r. reflexivity. }
  destruct (predict_loop_outcome self names w [] w Hw)
    as (result & w' & H & (Hp' & Ha & Hs & Hr & added & Hadd) & Hkeys).
  exists result, w', added. rewrite predict_multiple_sensors_loop.
  split; [exact H|]. split.
  - intros n. rewrite Hkeys. split; [|auto].
    intros [Hn|Hn]; [exact Hn | discriminate Hn].
  - auto.
Qed.

(** X23. [predict_single_value] needs three readings of the sensor: on
    the SQLite class, with the model at hand, it raises [ValueError]
    when the sensor has none ("Nenhum dado encontrado") and when it has
    one or two ("Features insuficientes"), since the lag and rolling
    features are undefined on the first two rows.  Nothing is predicted
    and nothing is stored. *)
Theorem predict_single_value_needs_three_readings
    (self : predictor model) name key m w :
  predictor_db self = SQLite ->
  dict_get key (predictor_models self) = Some m ->
  (length (readings_by_name name (working w)) < 3)%nat ->
  predict_single_value predict_row std_over_mean isoformat self name (Some key) w =
    (Raise (ValueError
              ((if (length (readings_by_name name (working w)) =? 0)%nat
                then "Nenhum dado encontrado para "
                else "Features insuficientes para ") +:+ name)), w).
Proof.
  intros Hdb Hm Hn. unfold predict_single_value.
  rewrite (bind_step _ _ w key w eq_refl), Hm.
  apply bind_raise. unfold prepare_features. rewrite Hdb.
  cbn [get_sensor_readings_by_name].
  rewrite (bind_step _ _ _ _ _ (by_name_run name 5 w)).
  pose proof (by_name_frame_length name 5 (working w)) as Hlen.
  destruct (DataFrame _) as [|a df] eqn:Edf.
  - cbn [length] in Hlen.
    destruct (length (readings_by_name name (working w))); [reflexivity|].
    discriminate Hlen.
  - rewrite dropna_add_features.
    pose proof (lag_rows_length (sort_values (a :: df))) as Hlag.
    rewrite sort_values_length, Hlen in Hlag.
    destruct (length (readings_by_name name (working w))) as [|n] eqn:En;
      [discriminate Hlen|].
    cbn [Nat.eqb].
    destruct (lag_rows _) as [|x l]; [reflexivity|].
    cbn [length] in Hlag. lia.
Qed.

(** X24. [predict_next_value] of the trainer, unlike
    [predict_single_value], works with a single reading of the sensor:
    the fallbacks [iloc[-1]] make that one value serve as lag1, as lag2
    and as the rolling mean, and the prediction of the model on these
    features and the current hour is returned. *)
Theorem predict_next_value_single_reading
    (self : trainer model) name model_type m r sid w :
  trainer_db self = SQLite ->
  String.eqb model_type "auto" = false ->
  dict_get (name +:+ "_" +:+ model_type) (trainer_models self) = Some m ->
  readings_by_name name (working w) = [r] ->
  head (map sensor_id (filter (fun s => Schema.sensor_name s = name)
                         (sensor (working w)))) = Some sid ->
  ~ In (next_uuid w) (map prediction_id (prediction (working w))) ->
  exists res w1,
    predict_next_value predict_row isoformat self name model_type w = (Ok res, w1) /\
    pr_predicted_value res =
      predict_row m [reading_value r; reading_value r; series_mean [reading_value r];
                     inject_Z (hour_of (clock w (ticks w)))] /\
    pr_model_used res = name +:+ "_" +:+ model_type.
Proof.
  intros Hdb Hmt Hm Hr Hsid Hfresh. unfold predict_next_value.
  rewrite Hmt. cbv iota.
  rewrite (bind_step (mret (name +:+ "_" +:+ model_type)) _ w _ w eq_refl), Hm, Hdb.
  cbn [get_sensor_readings_by_name get_sensor_id_by_name create_prediction].
  rewrite (bind_step _ _ _ _ _ (by_name_run name 10 w)), Hr.
  cbn [order_by foldr insert_sorted map take firstn DataFrame].
  cbn [sort_values order_by foldr insert_sorted tail length Nat.sub drop map value
       Nat.ltb Nat.leb].
  unfold iloc_back. cbn [length Nat.sub lookup list_lookup Nat.leb].
  do 2 rewrite (bind_step (mret (reading_value r)) _ w _ w eq_refl).
  unfold datetime_now_hour.
  set (w1 := mk_world (clock w) (S (ticks w)) (entropy w) (drawn w) (stdout w)
               (committed w) (working w)).
  assert (Hnow : now w = (Ok (clock w (ticks w)), w1)) by reflexivity.
  rewrite (bind_step _ _ _ _ _
             (bind_step _ (fun t => mret (hour_of t)) _ _ _ Hnow)).
  assert (Hfirst : forall x w',
            first_prediction predict_row m [x] w' = (Ok (predict_row m x), w'))
    by reflexivity.
  rewrite (bind_step _ _ _ _ _ (Hfirst _ w1)).
  rewrite (bind_step _ _ _ _ _ (sensor_id_run name w1)).
  change (working w1) with (working w). rewrite Hsid.
  assert (Hcreate : forall v conf ver,
            SQLiteConnection.create_prediction (Some sid) v conf ver w1 =
              (Ok (next_uuid w),
               after_commit
                 (set_working
                    (add_prediction (mk_prediction (next_uuid w) sid v conf ver)
                       (working w)) (after_draw w1)))).
  { intros v conf ver. rewrite create_prediction_run.
    change (next_uuid w1) with (next_uuid w). change (working w1) with (working w).
    apply has_id_false in Hfresh. rewrite Hfresh. reflexivity. }
  rewrite (bind_step _ _ _ _ _ (Hcreate _ _ _)).
  eexists _, _. split; [reflexivity|]. split; reflexivity.
Qed.

End Runs.

Lemma training_on_postgresql_fails_witness :
  exists results w',
    train_all_models demo_fit demo_fit demo_predict_row demo_metric demo_metric
      demo_metric demo_importances (trainer_init PostgreSQL) ["S_TEMP"] fresh_world
      = (Ok (results, trainer_init PostgreSQL), w') /\
    map fst results = ["S_TEMP_error"].
Proof.
  destruct (training_on_postgresql_fails Q demo_fit demo_fit demo_predict_row
              demo_metric demo_metric demo_metric demo_importances
              (trainer_init PostgreSQL) ["S_TEMP"] fresh_world eq_refl)
    as (_ & _ & results & w' & H & _ & _).
  exists results, w'. split; [exact H|].
  vm_compute in H. inversion H. reflexivity.
Defined.

Lemma predict_single_value_needs_three_readings_witness :
  predict_single_value demo_predict_row demo_ratio demo_isoformat demo_predictor
    "S_TEMP" (Some "S_TEMP_linear") (demo_world 2) =
    (Raise (ValueError "Features insuficientes para S_TEMP"), demo_world 2).
Proof.
  apply (predict_single_value_needs_three_readings Q demo_predict_row demo_ratio
           demo_isoformat demo_predictor "S_TEMP" "S_TEMP_linear" 21 (demo_world 2)).
  - reflexivity.
  - reflexivity.
  - vm_compute. lia.
Defined.

Lemma predict_next_value_single_reading_witness :
  exists res w1,
    predict_next_value demo_predict_row demo_isoformat demo_trainer "S_TEMP" "linear"
      (demo_world 1) = (Ok res, w1) /\
    pr_model_used res = "S_TEMP_linear".
Proof.
  destruct (predict_next_value_single_reading Q demo_predict_row demo_isoformat
              demo_trainer "S_TEMP" "linear" 21
              (Schema.mk_reading "0" "sensor-1" 0 0) "sensor-1" (demo_world 1))
    as (res & w1 & H & _ & Hk).
  - reflexivity.
  - reflexivity.
  - reflexivity.
  - vm_compute. reflexivity.
  - vm_compute. reflexivity.
  - vm_compute. intros [].
  - exists res, w1. split; [exact H | exact Hk].
Defined.

Lemma best_model_after_training_witness :
  exists r1 s1 w1 r2 s2 w2,
    train_linear_model demo_fit demo_predict_row demo_metric demo_metric demo_metric
      demo_importances (trainer_init SQLite) "S_TEMP" lit_0_2 (demo_world 20)
      = (Ok (r1, s1), w1) /\
    train_random_forest_model demo_fit demo_predict_row demo_metric demo_metric
      demo_metric demo_importances s1 "S_TEMP" lit_0_2 w1 = (Ok (r2, s2), w2) /\
    get_best_model s1 "S_TEMP" w1 = (Ok "S_TEMP_linear", w1) /\
    get_best_model s2 "S_TEMP" w2 = (Ok "S_TEMP_rf", w2).
Proof.
  destruct (train_linear_model demo_fit demo_predict_row demo_metric demo_metric
              demo_metric demo_importances (trainer_init SQLite) "S_TEMP" lit_0_2
              (demo_world 20)) as [[[r1 s1]|e] w1] eqn:H1;
    [|vm_compute in H1; discriminate H1].
  destruct (train_random_forest_model demo_fit demo_predict_row demo_metric
              demo_metric demo_metric demo_importances s1 "S_TEMP" lit_0_2 w1)
    as [[[r2 s2]|e] w2] eqn:H2.
  - exists r1, s1, w1, r2, s2, w2.
    destruct (best_model_after_training Q demo_fit demo_fit demo_predict_row
                demo_metric demo_metric demo_metric demo_importances
                (trainer_init SQLite) "S_TEMP" lit_0_2 (demo_world 20)
                r1 s1 w1 r2 s2 w2 H1 H2) as (Hb1 & Hb2 & _).
    split; [reflexivity|]. split; [exact H2|]. split; [exact Hb1 | exact Hb2].
  - exfalso. vm_compute in H1. inversion H1; subst. vm_compute in H2. discriminate H2.
Defined.



Lemma predict_multiple_sensors_never_raises_witness :
  exists predictions w',
    predict_multiple_sensors demo_predict_row demo_ratio demo_isoformat demo_predictor
      ["S_TEMP"; "S_NONE"] (demo_world 5) = (Ok predictions, w') /\
    map fst predictions = ["S_TEMP"; "S_NONE"] /\
    length (prediction (working w')) = 1%nat.
Proof.
  destruct (predict_multiple_sensors_never_raises Q demo_predict_row demo_ratio
              demo_isoformat demo_predictor ["S_TEMP"; "S_NONE"] (demo_world 5) eq_refl)
    as (predictions & w' & added & H & _).
  exists predictions, w'. split; [exact H|].
  vm_compute in H. inversion H. split; reflexivity.
Defined.

End LearnerRunFacts.

(** ** One collection cycle of the simulator *)

Module CollectionFacts.
Import Float FloatFacts Py PyFacts ESP32Simulator ESP32SimulatorFacts.
Local Open Scope Q_scope.

(** The world after [t] more clock readings and [d] more draws. *)
Definition advance (t d : nat) (w : world) : world :=
  mk_world (clock w) (t + ticks w) (entropy w) (d + drawn w)
    (stdout w) (committed w) (working w).

Section Cycle.

Variable np_sin : Q -> Q.
Variable isoformat : Z -> string.

Lemma read_dht22_cost w :
  exists r, read_dht22 np_sin w = (Ok r, advance 1 2 w).
Proof.
  unfold read_dht22, datetime_now_hour, random_gauss, now, draw.
  cbv [mbind mret Py_bind Py_ret]. cbn [clock ticks entropy drawn].
  eexists. reflexivity.
Qed.

Lemma read_mpu6050_cost w :
  exists m,
    read_mpu6050 w = (Ok m, advance 0 7 w) /\
    ((-100 <= gx m <= 100) /\ (-100 <= gy m <= 100) /\ (-100 <= gz m <= 100))%Z /\
    (Qltb (inject_Z (entropy w (drawn w) mod 2 ^ 53) / inject_Z (2 ^ 53)) lit_0_05
       = false ->
     ((-50 <= ax m <= 50) /\ (-50 <= ay m <= 50) /\ (950 <= az m <= 1050))%Z).
Proof.
  unfold read_mpu6050, random_random, random_randint, draw.
  cbv [mbind mret Py_bind Py_ret]. cbn [clock ticks entropy drawn].
  destruct (Qltb _ lit_0_05) eqn:Eu; cbv [mbind mret Py_bind Py_ret];
    cbn [clock ticks entropy drawn];
    eexists; (split; [reflexivity|]); cbn [ax ay az gx gy gz];
    (split; [repeat split; apply randint_between; lia|]);
    intros Hu; try discriminate Hu;
    repeat split; apply randint_between; lia.
Qed.

Lemma read_ldr_cost w :
  exists light, read_ldr w = (Ok light, advance 1 1 w).
Proof.
  unfold read_ldr, datetime_now_hour, random_gauss, now, draw.
  cbv [mbind mret Py_bind Py_ret]. cbn [clock ticks entropy drawn].
  destruct (_ && _); cbv [mbind mret Py_bind Py_ret]; eexists; reflexivity.
Qed.

(** X26. One [collect_data] reads the clock four times and draws ten
    random numbers, prints nothing and leaves the database alone.  The
    [timestamp] of the record is the first clock reading and its
    [datetime] the fourth, so the two fields of one record need not
    show the same second.  The gyroscope values lie in [-100, 100], and
    unless the first draw of [read_mpu6050] falls below 0.05 the
    acceleration stays in the normal band: x and y in [-50, 50], z in
    [950, 1050]. *)
Theorem collect_data_cycle self w :
  exists data,
    collect_data np_sin isoformat self w = (Ok data, advance 4 10 w) /\
    timestamp data = clock w (ticks w) /\
    datetime data = isoformat (clock w (3 + ticks w)%nat) /\
    ((-100 <= gyro_x data <= 100) /\ (-100 <= gyro_y data <= 100) /\
     (-100 <= gyro_z data <= 100))%Z /\
    (Qltb (inject_Z (entropy w (2 + drawn w)%nat mod 2 ^ 53) / inject_Z (2 ^ 53))
       lit_0_05 = false ->
     ((-50 <= accel_x data <= 50) /\ (-50 <= accel_y data <= 50) /\
      (950 <= accel_z data <= 1050))%Z).
Proof.
  set (w1 := advance 1 0 w).
  destruct (read_dht22_cost w1) as ([temp humidity] & E1).
  destruct (read_mpu6050_cost (advance 1 2 w1)) as (m & E2 & Hg & Ha).
  destruct (read_ldr_cost (advance 0 7 (advance 1 2 w1))) as (light & E3).
  eexists. split.
  - unfold collect_data.
    rewrite (bind_step time_time _ w (clock w (ticks w)) w1 eq_refl).
    rewrite (bind_step _ _ _ _ _ E1). cbv beta iota.
    rewrite (bind_step _ _ _ _ _ E2), (bind_step _ _ _ _ _ E3).
    reflexivity.
  - cbn [timestamp datetime gyro_x gyro_y gyro_z accel_x accel_y accel_z].
    split; [reflexivity|]. split; [reflexivity|]. split; [exact Hg|]. exact Ha.
Qed.

End Cycle.

End CollectionFacts.
